(** * expo-updates wiring of the native projects (eas-build/utils/expoUpdates.ts)

    A shallow embedding of the configuration and verification engine that
    wires expo-updates into the Android and iOS projects, in its two
    revisions:

    - [ExpoUpdates]: packages/expo-cli/src/commands/eas-build/utils/expoUpdates.ts,
      which edits the Android manifest through xmldom and builds Expo.plist
      itself;
    - [Variant]: the revision that delegates the metadata handling to
      @expo/config (AndroidConfig.Updates / IOSConfig.Updates).

    Files are kept in the shape the code works on after parsing: build.gradle
    is text, AndroidManifest.xml is a DOM tree, project.pbxproj is the parsed
    project graph, Expo.plist is the parsed dictionary.  A file that exists is
    taken to be well formed for its parser, and writing a parsed value and
    reading it again is taken to give that value back (xmldom, xcode and
    @expo/plist are not part of this repository).  The four files live at
    four different paths, so each has its own slot in [Disk].

    Asynchronous functions are sequential here: every await is a step of a
    state monad over the disk, and a thrown exception leaves the disk as it
    was when the exception was raised.  What the collaborators answer (the
    configuration reader, the identity provider, git) is part of the
    environment of a call; reading package.json and app.json, and writing,
    creating a directory or staging a file, are taken to succeed.  Of the
    revision on @expo/config, the check and the iOS pass are embedded. *)

From Stdlib Require Import String Ascii List Bool Arith Lia.
From stdpp Require Import base option gmap strings.
Import ListNotations.

Set Warnings "-register-all".

(** stdpp keeps [String.append] folded; the proofs below compute with it. *)
#[local] Arguments String.append !_ _ / : simpl nomatch.

Local Open Scope string_scope.
Local Open Scope list_scope.

(** ** JavaScript strings *)

Module JsString.

Definition dquote : ascii := "034"%char.
Definition squote : ascii := "'"%char.
Definition newline : ascii := "010"%char.

Definition DQ : string := String dquote "".
Definition NL : string := String newline "".

(** [s.split('\n')] for the one-character separator [sep]. *)
Fixpoint split (sep : ascii) (s : string) : list string :=
  match s with
  | EmptyString => [EmptyString]
  | String c s' =>
      if Ascii.eqb c sep then EmptyString :: split sep s'
      else match split sep s' with
           | line :: rest => String c line :: rest
           | [] => [String c EmptyString]
           end
  end.

(** [s.includes(frag)] *)
Fixpoint includes (s frag : string) : bool :=
  String.prefix frag s
  || match s with
     | EmptyString => false
     | String _ s' => includes s' frag
     end.

(** [s.replace(re, '')] where [re] matches one double quote at the end of
    the input (no m flag, so the dollar sign is the end of the string). *)
Fixpoint replace_final_dquote (s : string) : string :=
  match s with
  | EmptyString => EmptyString
  | String c EmptyString => if Ascii.eqb c dquote then EmptyString else s
  | String c s' => String c (replace_final_dquote s')
  end.

(** [s.replace(re, q)] where [re] matches every double quote (g flag) and
    [q] is one single quote. *)
Fixpoint replace_all_dquote (s : string) : string :=
  match s with
  | EmptyString => EmptyString
  | String c s' =>
      String (if Ascii.eqb c dquote then squote else c) (replace_all_dquote s')
  end.

(** A string is truthy when it is not empty. *)
Definition truthy (s : string) : bool :=
  match s with EmptyString => false | String _ _ => true end.

(** An optional string ([string | undefined], [string | null]) is truthy
    when it is present and not empty. *)
Definition truthy_opt (o : option string) : bool :=
  match o with Some s => truthy s | None => false end.

(** The string that a truthiness test has narrowed [o] to, if any. *)
Definition narrow (o : option string) : option string :=
  match o with
  | Some s => if truthy s then Some s else None
  | None => None
  end.

End JsString.

(** ** Paths (path.resolve, path.basename, path.normalize and path.join of Node,
    POSIX)

    The path functions of Node, as its POSIX implementation computes them on
    the characters of their arguments; [path.resolve] takes the working
    directory of the process as one more argument. *)

Module NodePath.

Import JsString.

Definition isAbsolute (path : string) : bool :=
  match path with
  | String c _ => Ascii.eqb c "/"%char
  | EmptyString => false
  end.

(** The loop of [path.resolve]: the arguments from the last to the first,
    then the working directory, until the path is absolute.  Empty
    arguments are skipped. *)
Fixpoint gather (reversed : list string) (cwd resolvedPath : string) : string * bool :=
  match reversed with
  | [] =>
      match cwd with
      | EmptyString => (resolvedPath, false)
      | _ => (cwd +:+ "/" +:+ resolvedPath, isAbsolute cwd)
      end
  | path :: earlier =>
      match path with
      | EmptyString => gather earlier cwd resolvedPath
      | _ =>
          if isAbsolute path then (path +:+ "/" +:+ resolvedPath, true)
          else gather earlier cwd (path +:+ "/" +:+ resolvedPath)
      end
  end.

(** One segment of [normalizeString], on the segments kept so far (the
    last one first): empty segments and single dots are dropped, two dots
    take the last segment away, or stay when there is none to take and the
    path is relative. *)
Definition step (allowAboveRoot : bool) (kept : list string) (segment : string)
    : list string :=
  if String.eqb segment "" || String.eqb segment "." then kept
  else if String.eqb segment ".." then
    match kept with
    | last :: before =>
        if String.eqb last ".." then (if allowAboveRoot then ".." :: kept else kept)
        else before
    | [] => if allowAboveRoot then [".."] else []
    end
  else segment :: kept.

Definition normalizeString (path : string) (allowAboveRoot : bool) : string :=
  String.concat "/" (rev (fold_left (step allowAboveRoot) (split "/"%char path) [])).

(** [path.resolve(...paths)] in the working directory [cwd]. *)
Definition resolve (cwd : string) (paths : list string) : string :=
  let '(resolvedPath, resolvedAbsolute) := gather (rev paths) cwd "" in
  let normalized := normalizeString resolvedPath (negb resolvedAbsolute) in
  if resolvedAbsolute then "/" +:+ normalized
  else if truthy normalized then normalized else ".".

(** [path.basename(path)]: the last segment that is not empty. *)
Definition basename (path : string) : string :=
  fold_left (fun found segment => if truthy segment then segment else found)
            (split "/"%char path) "".

(** [s.replace(re, '')] where [re] matches [suffix] at the end of the
    input. *)
Fixpoint replace_final (suffix s : string) : string :=
  if String.eqb s suffix then ""
  else match s with
       | EmptyString => EmptyString
       | String c s' => String c (replace_final suffix s')
       end.

(** [getExpoPlistPath] of both revisions. *)
Definition getExpoPlistPath (cwd projectDir pbxprojPath : string) : string :=
  let xcodeprojPath := resolve cwd [pbxprojPath; ".."] in
  let expoPlistPath :=
    resolve cwd [ projectDir; "ios";
                  replace_final ".xcodeproj" (basename xcodeprojPath);
                  "Supporting"; "Expo.plist" ] in
  expoPlistPath.

(** Whether the last character of [path] is a slash. *)
Fixpoint endsWithSlash (path : string) : bool :=
  match path with
  | EmptyString => false
  | String c EmptyString => Ascii.eqb c "/"%char
  | String _ rest => endsWithSlash rest
  end.

(** [path.normalize(path)] *)
Definition normalize (path : string) : string :=
  match path with
  | EmptyString => "."
  | _ =>
      let isAbsolute := isAbsolute path in
      let trailingSeparator := endsWithSlash path in
      match normalizeString path (negb isAbsolute) with
      | EmptyString => if isAbsolute then "/" else if trailingSeparator then "./" else "."
      | normalized =>
          (if isAbsolute then "/" else "") +:+ normalized
          +:+ (if trailingSeparator then "/" else "")
      end
  end.

(** [path.join(...paths)]: the arguments that are not empty, joined by a
    slash and normalized. *)
Definition join (paths : list string) : string :=
  match List.filter truthy paths with
  | [] => "."
  | present => normalize (String.concat "/" present)
  end.

(** [getAndroidBuildGradlePath] and [getAndroidManifestPath] of both
    revisions. *)
Definition getAndroidBuildGradlePath (projectDir : string) : string :=
  join [projectDir; "android"; "app"; "build.gradle"].

Definition getAndroidManifestPath (projectDir : string) : string :=
  join [projectDir; "android"; "app"; "src"; "main"; "AndroidManifest.xml"].

End NodePath.

(** ** JavaScript values of type [any] *)

Inductive JsValue : Type :=
| JUndefined
| JNull
| JString (s : string)
| JObject (props : list (string * JsValue))
| JArray (elems : list JsValue).

(** ** Exceptions and results *)

Inductive Exn : Type :=
| Error (message : string)
| TypeError (message : string)
| DirtyGitTreeError
| ExternalError (message : string).

Inductive Result (A : Type) : Type :=
| Ok (a : A)
| Throw (e : Exn).
Arguments Ok {A} a.
Arguments Throw {A} e.

Module JsValueOps.

Fixpoint assoc {A} (k : string) (l : list (string * A)) : option A :=
  match l with
  | [] => None
  | (k', v) :: l' => if String.eqb k k' then Some v else assoc k l'
  end.

(** [v.hasOwnProperty(k)], for a string key that is not an array index. *)
Definition hasOwnProperty (v : JsValue) (k : string) : bool :=
  match v with
  | JObject props => match assoc k props with Some _ => true | None => false end
  | _ => false
  end.

(** [v[k]], for a string key that is not an array index or [length]. *)
Definition get (v : JsValue) (k : string) : Result JsValue :=
  match v with
  | JUndefined => Throw (TypeError "Cannot read property of undefined")
  | JNull => Throw (TypeError "Cannot read property of null")
  | JObject props =>
      Ok (match assoc k props with Some x => x | None => JUndefined end)
  | JString _ | JArray _ => Ok JUndefined
  end.

(** [v === s] for a string [s]: only a string with the same characters is
    strictly equal to a string. *)
Definition strict_eq_string (v : JsValue) (s : string) : bool :=
  match v with
  | JString t => String.eqb t s
  | _ => false
  end.

(** [v === o] for [o : string | undefined]. *)
Definition strict_eq_opt (v : JsValue) (o : option string) : bool :=
  match o with
  | Some s => strict_eq_string v s
  | None => match v with JUndefined => true | _ => false end
  end.

Definition of_opt (o : option string) : JsValue :=
  match o with Some s => JString s | None => JUndefined end.

End JsValueOps.

(** ** The DOM tree of AndroidManifest.xml (xmldom) *)

Module Dom.

(** Attributes are a NamedNodeMap: at most one attribute per name. *)
Inductive Node : Type :=
| Text (data : string)
| Comment (data : string)
| Element (tagName : string) (attrs : gmap string string) (children : list Node).

Record Document : Type := mkDocument { documentNodes : list Node }.

Definition nodeName (n : Node) : string :=
  match n with
  | Text _ => "#text"
  | Comment _ => "#comment"
  | Element t _ _ => t
  end.

Definition childNodes (n : Node) : list Node :=
  match n with
  | Element _ _ c => c
  | _ => []
  end.

(** [node.attributes]: undefined on nodes that are not elements. *)
Definition attributes (n : Node) : option (gmap string string) :=
  match n with
  | Element _ a _ => Some a
  | _ => None
  end.

(** [getAttribute] of xmldom: the empty string when the attribute is absent. *)
Definition getAttribute (n : Node) (k : string) : string :=
  match n with
  | Element _ a _ => match a !! k with Some v => v | None => "" end
  | _ => ""
  end.

Definition setAttribute (n : Node) (k v : string) : Node :=
  match n with
  | Element t a c => Element t (<[k := v]> a) c
  | _ => n
  end.

Definition createElement (tag : string) : Node := Element tag ∅ [].
Definition createTextNode (data : string) : Node := Text data.

Definition appendChild (parent child : Node) : Node :=
  match parent with
  | Element t a c => Element t a (c ++ [child])
  | _ => parent
  end.

Definition setChildNodes (parent : Node) (c : list Node) : Node :=
  match parent with
  | Element t a _ => Element t a c
  | _ => parent
  end.

(** The first element named [tag] among [n] and its descendants, in
    document order. *)
Fixpoint firstByTagName (tag : string) (n : Node) : option Node :=
  match n with
  | Element t _ c =>
      if String.eqb t tag then Some n
      else (fix scan (l : list Node) : option Node :=
              match l with
              | [] => None
              | m :: l' =>
                  match firstByTagName tag m with
                  | Some r => Some r
                  | None => scan l'
                  end
              end) c
  | _ => None
  end.

Fixpoint firstByTagNameIn (tag : string) (l : list Node) : option Node :=
  match l with
  | [] => None
  | m :: l' =>
      match firstByTagName tag m with
      | Some r => Some r
      | None => firstByTagNameIn tag l'
      end
  end.

(** [document.getElementsByTagName(tag)[0]] *)
Definition getElementsByTagName0 (document : Document) (tag : string) : option Node :=
  firstByTagNameIn tag (documentNodes document).

(** The tree in which the element that [firstByTagName] finds has been
    replaced by [f] of it: what a mutation of that element through its
    reference does to the document. *)
Fixpoint mutateFirst (tag : string) (f : Node -> Node) (n : Node) : Node :=
  match n with
  | Element t a c =>
      if String.eqb t tag then f n
      else Element t a
             ((fix scan (l : list Node) : list Node :=
                 match l with
                 | [] => []
                 | m :: l' =>
                     match firstByTagName tag m with
                     | Some _ => mutateFirst tag f m :: l'
                     | None => m :: scan l'
                     end
                 end) c)
  | _ => n
  end.

Fixpoint mutateFirstIn (tag : string) (f : Node -> Node) (l : list Node) : list Node :=
  match l with
  | [] => []
  | m :: l' =>
      match firstByTagName tag m with
      | Some _ => mutateFirst tag f m :: l'
      | None => m :: mutateFirstIn tag f l'
      end
  end.

Definition mutateElement0 (document : Document) (tag : string) (f : Node -> Node) : Document :=
  mkDocument (mutateFirstIn tag f (documentNodes document)).

(** [Array.prototype.find] over the children. *)
Fixpoint find (p : Node -> bool) (l : list Node) : option Node :=
  match l with
  | [] => None
  | n :: l' => if p n then Some n else find p l'
  end.

(** The child list after the node that [find p] returns has been mutated
    into [f] of it. *)
Fixpoint mutateFound (p : Node -> bool) (f : Node -> Node) (l : list Node) : list Node :=
  match l with
  | [] => []
  | n :: l' => if p n then f n :: l' else n :: mutateFound p f l'
  end.

(** [parent.removeChild(x)] for the node [x] that [find p] returns. *)
Fixpoint removeFound (p : Node -> bool) (l : list Node) : list Node :=
  match l with
  | [] => []
  | n :: l' => if p n then l' else n :: removeFound p l'
  end.

End Dom.

(** ** The parsed Xcode project (xcode) *)

Module Xcode.

Record BuildPhase : Type := mkBuildPhase {
  name : option string;
  shellScript : string
}.

(** The values of the PBXShellScriptBuildPhase section, in insertion order:
    the build phases and the comment strings the parser stores next to
    them. *)
Inductive SectionValue : Type :=
| CommentValue (text : string)
| Phase (phase : BuildPhase).

(** [project.hash.project.objects]: the shell-script section (if the
    project has one) and everything else. *)
Record XcodeProject : Type := mkXcodeProject {
  PBXShellScriptBuildPhase : option (list SectionValue);
  otherObjects : string
}.

(** [buildPhase.name === expected] *)
Definition nameIs (expected : string) (p : BuildPhase) : bool :=
  match name p with
  | Some n => String.eqb n expected
  | None => false
  end.

(** [Object.values(section).find(v => v.name === expected)]; a comment
    string has no name. *)
Fixpoint find (expected : string) (l : list SectionValue) : option BuildPhase :=
  match l with
  | [] => None
  | Phase p :: l' => if nameIs expected p then Some p else find expected l'
  | CommentValue _ :: l' => find expected l'
  end.

(** The section after [shellScript] of the phase that [find expected]
    returns has been assigned. *)
Fixpoint assignShellScript (expected script : string) (l : list SectionValue)
    : list SectionValue :=
  match l with
  | [] => []
  | Phase p :: l' =>
      if nameIs expected p then Phase (mkBuildPhase (name p) script) :: l'
      else Phase p :: assignShellScript expected script l'
  | CommentValue c :: l' => CommentValue c :: assignShellScript expected script l'
  end.

End Xcode.

(** ** The project on disk and the collaborators *)

Module Exp.
(** The fields of [exp] (app.json) that the code reads. *)
Record ExpoConfig : Type := mkExpoConfig {
  slug : string;
  runtimeVersion : option string;
  sdkVersion : option string
}.
End Exp.

(** What one invocation gets from its collaborators: the project
    configuration reader, the identity provider and git. *)
Record Env : Type := mkEnv {
  projectDir : string;
  (** [getPackageJson(projectDir).dependencies] *)
  dependencies : option (list (string * string));
  (** [getConfig(projectDir).exp] *)
  exp : Exp.ExpoConfig;
  (** the username of [UserManager.ensureLoggedInAsync()], or its failure *)
  ensureLoggedInAsync : Result string;
  (** [UserManager.getCurrentUsernameAsync()] *)
  getCurrentUsernameAsync : option string;
  (** [getExpoSDKVersion(projectDir, exp)], or its failure *)
  getExpoSDKVersion : Result string;
  (** [gitUtils.ensureGitStatusIsCleanAsync()] *)
  ensureGitStatusIsCleanAsync : Result unit;
  (** [gitUtils.reviewAndCommitChangesAsync(...)] *)
  reviewAndCommitChangesAsync : Result unit
}.

Inductive FileId : Type := BuildGradle | AndroidManifest | Pbxproj | ExpoPlist.

Inductive Event : Type :=
| WriteFile (file : FileId)
| Mkdirp
| GitAdd (file : FileId).

Record Disk : Type := mkDisk {
  (** android/app/build.gradle *)
  buildGradle : option string;
  (** android/app/src/main/AndroidManifest.xml *)
  androidManifest : option Dom.Document;
  (** the matches of the glob ios/*/project.pbxproj, in the order of the
      glob, each with its parsed content *)
  xcodeProjects : list (string * Xcode.XcodeProject);
  (** the Expo.plist of the first Xcode project, at
      ios/<name>/Supporting/Expo.plist ([getExpoPlistPath]), parsed *)
  expoPlist : option JsValue;
  (** whether the directory of Expo.plist exists *)
  supportingDir : bool;
  (** the file-system and git operations performed so far, latest last *)
  journal : list Event
}.

(** The content of the four files. *)
Definition files (d : Disk) :
    option string * option Dom.Document * list (string * Xcode.XcodeProject) * option JsValue :=
  (buildGradle d, androidManifest d, xcodeProjects d, expoPlist d).

Definition record (e : Event) (d : Disk) : Disk :=
  mkDisk (buildGradle d) (androidManifest d) (xcodeProjects d) (expoPlist d)
         (supportingDir d) (journal d ++ [e]).

(** ** The monad of asynchronous functions *)

Definition IO (A : Type) : Type := Disk -> Result A * Disk.

#[global] Instance Result_ret : MRet Result := fun A a => Ok a.
#[global] Instance Result_bind : MBind Result := fun A B f m =>
  match m with
  | Ok a => f a
  | Throw e => Throw e
  end.

#[global] Instance IO_ret : MRet IO := fun A a d => (Ok a, d).
#[global] Instance IO_bind : MBind IO := fun A B f m d =>
  match m d with
  | (Ok a, d') => f a d'
  | (Throw e, d') => (Throw e, d')
  end.

Definition throw {A} (e : Exn) : IO A := fun d => (Throw e, d).
Definition lift {A} (r : Result A) : IO A := fun d => (r, d).
Definition gets {A} (f : Disk -> A) : IO A := fun d => (Ok (f d), d).
Definition modify (f : Disk -> Disk) : IO unit := fun d => (Ok tt, f d).

(** [try { body } catch (err) { handler(err) }] *)
Definition try_catch {A} (body : IO A) (handler : Exn -> IO A) : IO A :=
  fun d =>
    match body d with
    | (Ok a, d') => (Ok a, d')
    | (Throw e, d') => handler e d'
    end.

Module Fs.

Definition writeBuildGradle (content : string) : IO unit :=
  modify (fun d =>
    record (WriteFile BuildGradle)
      (mkDisk (Some content) (androidManifest d) (xcodeProjects d) (expoPlist d)
              (supportingDir d) (journal d))).

Definition writeAndroidManifest (document : Dom.Document) : IO unit :=
  modify (fun d =>
    record (WriteFile AndroidManifest)
      (mkDisk (buildGradle d) (Some document) (xcodeProjects d) (expoPlist d)
              (supportingDir d) (journal d))).

(** The project list after the file at [path] has been overwritten. *)
Fixpoint overwrite (path : string) (project : Xcode.XcodeProject)
    (l : list (string * Xcode.XcodeProject)) : list (string * Xcode.XcodeProject) :=
  match l with
  | [] => []
  | (p, x) :: l' =>
      if String.eqb path p then (p, project) :: l' else (p, x) :: overwrite path project l'
  end.

Definition writePbxproj (path : string) (project : Xcode.XcodeProject) : IO unit :=
  modify (fun d =>
    record (WriteFile Pbxproj)
      (mkDisk (buildGradle d) (androidManifest d) (overwrite path project (xcodeProjects d))
              (expoPlist d) (supportingDir d) (journal d))).

Definition writeExpoPlist (data : JsValue) : IO unit :=
  modify (fun d =>
    record (WriteFile ExpoPlist)
      (mkDisk (buildGradle d) (androidManifest d) (xcodeProjects d) (Some data)
              (supportingDir d) (journal d))).

(** [fs.mkdirp(path.dirname(expoPlistPath))] *)
Definition mkdirpSupporting : IO unit :=
  modify (fun d =>
    record Mkdirp
      (mkDisk (buildGradle d) (androidManifest d) (xcodeProjects d) (expoPlist d)
              true (journal d))).

(** [gitAddAsync(path, { intentToAdd: true })] *)
Definition gitAddAsync (file : FileId) : IO unit :=
  modify (record (GitAdd file)).

End Fs.

(** ** expoUpdates.ts *)

Module ExpoUpdates.

Import JsString JsValueOps.

(** The two shapes of [ConfigurationOptions]. *)
Inductive ConfigurationOptions : Type :=
| SdkOptions (sdkVersion updateUrl : string)
| RuntimeOptions (runtimeVersion updateUrl : string).

Definition sdkVersion (options : ConfigurationOptions) : option string :=
  match options with
  | SdkOptions v _ => Some v
  | RuntimeOptions _ _ => None
  end.

Definition runtimeVersion (options : ConfigurationOptions) : option string :=
  match options with
  | SdkOptions _ _ => None
  | RuntimeOptions v _ => Some v
  end.

Definition updateUrl (options : ConfigurationOptions) : string :=
  match options with
  | SdkOptions _ u => u
  | RuntimeOptions _ u => u
  end.

Module ExpoAndroidMetadata.
Definition SDK_VERSION : string := "expo.modules.updates.EXPO_SDK_VERSION".
Definition RUNTIME_VERSION : string := "expo.modules.updates.EXPO_RUNTIME_VERSION".
Definition UPDATE_URL : string := "expo.modules.updates.EXPO_UPDATE_URL".
End ExpoAndroidMetadata.

Module ExpoIOSMetadata.
Definition SDK_VERSION : string := "EXUpdatesRuntimeVersion".
Definition RUNTIME_VERSION : string := "EXUpdatesSDKVersion".
Definition UPDATE_URL : string := "EXUpdatesURL".
End ExpoIOSMetadata.

Definition iOSBuildScript : string :=
  "../node_modules/expo-updates/scripts/create-manifest-ios.sh".

Definition androidBuildScript : string :=
  "apply from: " +:+ DQ
  +:+ "../../node_modules/expo-updates/scripts/create-manifest-android.gradle" +:+ DQ.

Definition isExpoUpdatesInstalled (env : Env) : bool :=
  match dependencies env with
  | Some deps => match assoc "expo-updates" deps with Some _ => true | None => false end
  | None => false
  end.

Definition getConfigurationOptions (env : Env) : IO ConfigurationOptions :=
  username ← lift (ensureLoggedInAsync env);
  let updateUrl := "https://exp.host/@" +:+ username +:+ "/" +:+ Exp.slug (exp env) in
  match narrow (Exp.runtimeVersion (exp env)) with
  | Some runtimeVersion => mret (RuntimeOptions runtimeVersion updateUrl)
  | None =>
      try_catch
        (sdkVersion ← lift (getExpoSDKVersion env);
         mret (SdkOptions sdkVersion updateUrl))
        (fun err => throw (Error "Couldn't find either 'runtimeVersion' or 'sdkVersion' to configure 'expo-updates'. Please specify at least one of these properties under the 'expo' key in 'app.json'"))
  end.

(** *** Android *)

Definition getAndroidBuildGradlePath (projectDir : string) : string :=
  NodePath.join [projectDir; "android"; "app"; "build.gradle"].

Definition getAndroidBuildGradleContent (buildGradlePath : string) : IO string :=
  content ← gets buildGradle;
  match content with
  | None => throw (Error ("Couldn't find gradle build script at " +:+ buildGradlePath))
  | Some buildGradleContent => mret buildGradleContent
  end.

Definition hasBuildScriptApply (buildGradleContent : string) : bool :=
  existsb
    (fun line =>
       String.eqb line androidBuildScript
       || String.eqb line (replace_all_dquote androidBuildScript))
    (split newline buildGradleContent).

Definition getAndroidManifestPath (projectDir : string) : string :=
  NodePath.join [projectDir; "android"; "app"; "src"; "main"; "AndroidManifest.xml"].

Definition getAndroidManifest (manifestPath : string) : IO Dom.Document :=
  content ← gets androidManifest;
  match content with
  | None => throw (Error ("Couldn't find Android manifest at " +:+ manifestPath))
  | Some manifestXml => mret manifestXml
  end.

(** The predicate of [findAndroidMetadata].  Only an element can be named
    meta-data, so [node.attributes] is defined whenever it is read. *)
Definition isMetadataNamed (name : string) (node : Dom.Node) : bool :=
  String.eqb (Dom.nodeName node) "meta-data"
  && match Dom.attributes node with
     | Some attrs =>
         match attrs !! "android:name" with
         | Some value => String.eqb value name
         | None => false
         end
     | None => false
     end.

(** [application] is undefined when the document has no application
    element; reading its childNodes then throws. *)
Definition findAndroidMetadata (application : option Dom.Node) (name : string)
    : Result (option Dom.Node) :=
  match application with
  | None => Throw (TypeError "Cannot read property 'childNodes' of undefined")
  | Some app => Ok (Dom.find (isMetadataNamed name) (Dom.childNodes app))
  end.

Definition isAndroidMetadataSet (document : Dom.Document) (options : ConfigurationOptions)
    : Result bool :=
  let application := Dom.getElementsByTagName0 document "application" in
  sdkVersionMetadata ← findAndroidMetadata application ExpoAndroidMetadata.SDK_VERSION;
  runtimeVersionMetadata ← findAndroidMetadata application ExpoAndroidMetadata.RUNTIME_VERSION;
  updateUrlMetadata ← findAndroidMetadata application ExpoAndroidMetadata.UPDATE_URL;
  mret
    ((if truthy_opt (runtimeVersion options)
      then match runtimeVersionMetadata with
           | Some m =>
               strict_eq_opt (JString (Dom.getAttribute m "android:value"))
                             (runtimeVersion options)
           | None => false
           end
      else match sdkVersionMetadata with
           | Some m =>
               strict_eq_opt (JString (Dom.getAttribute m "android:value"))
                             (sdkVersion options)
           | None => false
           end)
     && match updateUrlMetadata with
        | Some m => String.eqb (Dom.getAttribute m "android:value") (updateUrl options)
        | None => false
        end).

Definition updateAndroidMetadata (document : Dom.Document) (name value : string)
    : Result Dom.Document :=
  let application := Dom.getElementsByTagName0 document "application" in
  metadata ← findAndroidMetadata application name;
  match metadata with
  | Some _ =>
      mret (Dom.mutateElement0 document "application" (fun app =>
              Dom.setChildNodes app
                (Dom.mutateFound (isMetadataNamed name)
                   (fun m => Dom.setAttribute m "android:value" value)
                   (Dom.childNodes app))))
  | None =>
      let it :=
        Dom.setAttribute
          (Dom.setAttribute (Dom.createElement "meta-data") "android:name" name)
          "android:value" value in
      mret (Dom.mutateElement0 document "application" (fun app =>
              Dom.appendChild
                (Dom.appendChild
                   (Dom.appendChild app (Dom.createTextNode "  "))
                   it)
                (Dom.createTextNode (NL +:+ "    "))))
  end.

Definition removeAndroidMetadata (document : Dom.Document) (name : string)
    : Result Dom.Document :=
  let application := Dom.getElementsByTagName0 document "application" in
  metadata ← findAndroidMetadata application name;
  match metadata with
  | Some _ =>
      mret (Dom.mutateElement0 document "application" (fun app =>
              Dom.setChildNodes app
                (Dom.removeFound (isMetadataNamed name) (Dom.childNodes app))))
  | None => mret document
  end.

Definition configureUpdatesAndroid (projectDir : string) (options : ConfigurationOptions)
    : IO unit :=
  let buildGradlePath := getAndroidBuildGradlePath projectDir in
  buildGradleContent ← getAndroidBuildGradleContent buildGradlePath;
  (if negb (hasBuildScriptApply buildGradleContent)
   then Fs.writeBuildGradle
          (buildGradleContent +:+ NL +:+ "// Integration with Expo updates" +:+ NL
           +:+ androidBuildScript +:+ NL)
   else mret tt);;
  let manifestPath := getAndroidManifestPath projectDir in
  manifestXml ← getAndroidManifest manifestPath;
  isSet ← lift (isAndroidMetadataSet manifestXml options);
  if negb isSet then
    manifestXml ← lift
      (match narrow (runtimeVersion options), narrow (sdkVersion options) with
       | Some runtimeVersion, _ =>
           x ← removeAndroidMetadata manifestXml ExpoAndroidMetadata.SDK_VERSION;
           updateAndroidMetadata x ExpoAndroidMetadata.RUNTIME_VERSION runtimeVersion
       | None, Some sdkVersion =>
           x ← removeAndroidMetadata manifestXml ExpoAndroidMetadata.RUNTIME_VERSION;
           updateAndroidMetadata x ExpoAndroidMetadata.SDK_VERSION sdkVersion
       | None, None => mret manifestXml
       end);
    manifestXml ← lift
      (updateAndroidMetadata manifestXml ExpoAndroidMetadata.UPDATE_URL (updateUrl options));
    Fs.writeAndroidManifest manifestXml
  else mret tt.

Definition isUpdatesConfiguredAndroid (projectDir : string) (options : ConfigurationOptions)
    : IO bool :=
  let buildGradlePath := getAndroidBuildGradlePath projectDir in
  buildGradleContent ← getAndroidBuildGradleContent buildGradlePath;
  if negb (hasBuildScriptApply buildGradleContent) then mret false
  else
    let manifestPath := getAndroidManifestPath projectDir in
    manifestXml ← getAndroidManifest manifestPath;
    isSet ← lift (isAndroidMetadataSet manifestXml options);
    if negb isSet then mret false else mret true.

(** *** iOS *)

Definition getPbxprojPath : IO string :=
  pbxprojPaths ← gets (fun d => map fst (xcodeProjects d));
  match pbxprojPaths with
  | pbxprojPath :: _ =>
      if truthy pbxprojPath then mret pbxprojPath
      else throw (Error "Couldn't find Xcode project")
  | [] => throw (Error "Couldn't find Xcode project")
  end.

Definition getXcodeProject (pbxprojPath : string) : IO Xcode.XcodeProject :=
  projects ← gets xcodeProjects;
  match assoc pbxprojPath projects with
  | Some project => mret project
  | None => throw (ExternalError "ENOENT")
  end.

Definition bundleReactNativeName : string :=
  DQ +:+ "Bundle React Native code and images" +:+ DQ.

Definition getBundleReactNativePhase (project : Xcode.XcodeProject)
    : Result Xcode.BuildPhase :=
  match Xcode.PBXShellScriptBuildPhase project with
  | None => Throw (TypeError "Cannot convert undefined or null to object")
  | Some scriptBuildPhase =>
      match Xcode.find bundleReactNativeName scriptBuildPhase with
      | Some bundleReactNative => Ok bundleReactNative
      | None =>
          Throw (Error ("Couldn't find a build phase script for " +:+ bundleReactNativeName))
      end
  end.

(** [project] after [bundleReactNative.shellScript = script]. *)
Definition assignBundleReactNativeScript (project : Xcode.XcodeProject) (script : string)
    : Xcode.XcodeProject :=
  Xcode.mkXcodeProject
    (option_map (Xcode.assignShellScript bundleReactNativeName script)
       (Xcode.PBXShellScriptBuildPhase project))
    (Xcode.otherObjects project).

(** The object that [configureUpdatesIOS] hands to [plist.build]. *)
Definition items (options : ConfigurationOptions) : JsValue :=
  if truthy_opt (runtimeVersion options)
  then JObject [ (ExpoIOSMetadata.RUNTIME_VERSION, of_opt (runtimeVersion options));
                 (ExpoIOSMetadata.UPDATE_URL, JString (updateUrl options)) ]
  else JObject [ (ExpoIOSMetadata.SDK_VERSION, of_opt (sdkVersion options));
                 (ExpoIOSMetadata.UPDATE_URL, JString (updateUrl options)) ].

Definition configureUpdatesIOS (projectDir : string) (options : ConfigurationOptions)
    : IO unit :=
  pbxprojPath ← getPbxprojPath;
  project ← getXcodeProject pbxprojPath;
  bundleReactNative ← lift (getBundleReactNativePhase project);
  let project :=
    if negb (includes (Xcode.shellScript bundleReactNative) iOSBuildScript)
    then assignBundleReactNativeScript project
           (replace_final_dquote (Xcode.shellScript bundleReactNative)
            +:+ iOSBuildScript +:+ "\n" +:+ DQ)
    else project in
  Fs.writePbxproj pbxprojPath project;;
  let expoPlist := items options in
  dirExists ← gets supportingDir;
  (if negb dirExists then Fs.mkdirpSupporting else mret tt);;
  Fs.writeExpoPlist expoPlist;;
  Fs.gitAddAsync ExpoPlist.

Definition isUpdatesConfiguredIOS (projectDir : string) (options : ConfigurationOptions)
    : IO bool :=
  pbxprojPath ← getPbxprojPath;
  project ← getXcodeProject pbxprojPath;
  bundleReactNative ← lift (getBundleReactNativePhase project);
  if negb (includes (Xcode.shellScript bundleReactNative) iOSBuildScript) then mret false
  else
    expoPlist ← gets expoPlist;
    match expoPlist with
    | None => mret false
    | Some expoPlistData =>
        versionMatches ← lift
          (if truthy_opt (runtimeVersion options)
           then v ← get expoPlistData ExpoIOSMetadata.RUNTIME_VERSION;
                mret (strict_eq_opt v (runtimeVersion options))
           else v ← get expoPlistData ExpoIOSMetadata.SDK_VERSION;
                mret (strict_eq_opt v (sdkVersion options)));
        if (versionMatches : bool) then
          u ← lift (get expoPlistData ExpoIOSMetadata.UPDATE_URL);
          if strict_eq_string u (updateUrl options) then mret true else mret false
        else mret false
    end.

(** *** Entry points *)

Definition isUpdatesConfigured (env : Env) : IO bool :=
  if negb (isExpoUpdatesInstalled env) then mret true
  else
    options ← getConfigurationOptions env;
    android ← isUpdatesConfiguredAndroid (projectDir env) options;
    if (android : bool) then isUpdatesConfiguredIOS (projectDir env) options
    else mret false.

Definition configureUpdatesAsync (env : Env) : IO unit :=
  if negb (isExpoUpdatesInstalled env) then mret tt
  else
    options ← getConfigurationOptions env;
    configureUpdatesAndroid (projectDir env) options;;
    configureUpdatesIOS (projectDir env) options;;
    try_catch
      (lift (ensureGitStatusIsCleanAsync env))
      (fun err =>
         match err with
         | DirtyGitTreeError =>
             try_catch
               (lift (reviewAndCommitChangesAsync env))
               (fun e => throw (Error "Aborting, run the command again once you're ready. Make sure to commit any changes you've made."))
         | _ => throw err
         end).

End ExpoUpdates.

(** ** The revision on top of @expo/config *)

(** What this revision takes from @expo/config (packages/config, not part of
    the sources at hand): the getters of [AndroidConfig.Updates] and
    [IOSConfig.Updates], their key tables [Config], the conversion of the
    manifest to the JSON shape of [AndroidConfig.Manifest] and
    [IOSConfig.Updates.setUpdatesConfig]. *)
Class ExpoConfigPackage : Type := {
  AndroidConfig_getSDKVersion : Exp.ExpoConfig -> option string;
  AndroidConfig_getRuntimeVersion : Exp.ExpoConfig -> option string;
  AndroidConfig_getUpdateUrl : Exp.ExpoConfig -> option string -> option string;
  AndroidConfig_SDK_VERSION : string;
  AndroidConfig_RUNTIME_VERSION : string;
  AndroidConfig_UPDATE_URL : string;
  (** the JSON document that [readAndroidManifestAsync] returns for a manifest *)
  AndroidConfig_manifestJSON : Dom.Document -> JsValue;
  IOSConfig_getSDKVersion : Exp.ExpoConfig -> option string;
  IOSConfig_getRuntimeVersion : Exp.ExpoConfig -> option string;
  IOSConfig_getUpdateUrl : Exp.ExpoConfig -> option string -> option string;
  IOSConfig_SDK_VERSION : string;
  IOSConfig_RUNTIME_VERSION : string;
  IOSConfig_UPDATE_URL : string;
  IOSConfig_setUpdatesConfig : Exp.ExpoConfig -> JsValue -> option string -> JsValue
}.

Module Variant.

Import JsString JsValueOps.

Section WithExpoConfig.

Context `{ExpoConfigPackage}.

Definition iOSBuildScript : string := ExpoUpdates.iOSBuildScript.
Definition androidBuildScript : string := ExpoUpdates.androidBuildScript.

(** These helpers have the bodies of their namesakes in expoUpdates.ts. *)
Definition getPbxprojPathAsync : IO string := ExpoUpdates.getPbxprojPath.
Definition getXcodeProjectAsync (pbxprojPath : string) : IO Xcode.XcodeProject :=
  ExpoUpdates.getXcodeProject pbxprojPath.
Definition getBundleReactNativePhaseAsync (project : Xcode.XcodeProject)
    : Result Xcode.BuildPhase :=
  ExpoUpdates.getBundleReactNativePhase project.
Definition getAndroidBuildGradlePath (projectDir : string) : string :=
  ExpoUpdates.getAndroidBuildGradlePath projectDir.

Definition isExpoUpdatesInstalled (env : Env) : bool :=
  match dependencies env with
  | Some deps => match assoc "expo-updates" deps with Some _ => true | None => false end
  | None => false
  end.

Definition getConfigurationOptionsAsync (env : Env)
    : IO (Exp.ExpoConfig * option string) :=
  let username := getCurrentUsernameAsync env in
  let exp := exp env in
  if negb (truthy_opt (Exp.runtimeVersion exp)) && negb (truthy_opt (Exp.sdkVersion exp))
  then throw (Error "Couldn't find either 'runtimeVersion' or 'sdkVersion' to configure 'expo-updates'. Please specify at least one of these properties under the 'expo' key in 'app.json'")
  else mret (exp, username).

Definition getAndroidBuildGradleContentAsync (buildGradlePath : string) : IO string :=
  content ← gets buildGradle;
  match content with
  | None => throw (Error ("Couldn't find gradle build script at " +:+ buildGradlePath))
  | Some buildGradleContent => mret buildGradleContent
  end.

Definition hasBuildScriptApply (buildGradleContent : string) : bool :=
  existsb
    (fun line =>
       String.eqb line androidBuildScript
       || String.eqb line (replace_all_dquote androidBuildScript))
    (split newline buildGradleContent).

(** [Array.prototype.find] with a callback that may throw. *)
Fixpoint findM (p : JsValue -> Result bool) (l : list JsValue) : Result JsValue :=
  match l with
  | [] => Ok JUndefined
  | e :: l' =>
      match p e with
      | Ok true => Ok e
      | Ok false => findM p l'
      | Throw err => Throw err
      end
  end.

(** Declared to return [string | undefined]; what it returns is the
    element that [find] yields. *)
Definition getAndroidMetadataValue (androidManifestJSON : JsValue) (name : string)
    : Result JsValue :=
  match androidManifestJSON with
  | JUndefined | JNull =>
      Throw (TypeError "Cannot read property 'hasOwnProperty' of undefined")
  | _ =>
      if hasOwnProperty androidManifestJSON "meta-data" then
        metaData ← get androidManifestJSON "meta-data";
        match metaData with
        | JArray elems =>
            findM (fun e =>
                     attrs ← get e "$";
                     n ← get attrs "android:name";
                     mret (strict_eq_string n name))
                  elems
        | JUndefined | JNull => Throw (TypeError "Cannot read property 'find' of undefined")
        | _ => Throw (TypeError "find is not a function")
        end
      else Ok JUndefined
  end.

Definition isMetadataSetAndroid (androidManifestJSON : JsValue) (exp : Exp.ExpoConfig)
    (username : option string) : Result bool :=
  let currentSdkVersion := AndroidConfig_getSDKVersion exp in
  let currentRuntimeVersion := AndroidConfig_getRuntimeVersion exp in
  let currentUpdateUrl := AndroidConfig_getUpdateUrl exp username in
  setRuntimeVersion ← getAndroidMetadataValue androidManifestJSON AndroidConfig_RUNTIME_VERSION;
  setSdkVersion ← getAndroidMetadataValue androidManifestJSON AndroidConfig_SDK_VERSION;
  setUpdateUrl ← getAndroidMetadataValue androidManifestJSON AndroidConfig_UPDATE_URL;
  mret
    ((match narrow currentRuntimeVersion with
      | Some v => strict_eq_string setRuntimeVersion v
      | None =>
          match narrow currentSdkVersion with
          | Some v => strict_eq_string setSdkVersion v
          | None => false
          end
      end)
     && match narrow currentUpdateUrl with
        | Some u => strict_eq_string setUpdateUrl u
        | None => false
        end).

Definition isUpdatesConfiguredAndroidAsync (projectDir : string) (exp : Exp.ExpoConfig)
    (username : option string) : IO bool :=
  let buildGradlePath := getAndroidBuildGradlePath projectDir in
  buildGradleContent ← getAndroidBuildGradleContentAsync buildGradlePath;
  if negb (hasBuildScriptApply buildGradleContent) then mret false
  else
    manifest ← gets androidManifest;
    match manifest with
    | None => throw (ExternalError "ENOENT")
    | Some document =>
        let androidManifestJSON := AndroidConfig_manifestJSON document in
        isSet ← lift (isMetadataSetAndroid androidManifestJSON exp username);
        if negb isSet then mret false else mret true
    end.

Definition isMetadataSetIOS (expoPlistData : JsValue) (exp : Exp.ExpoConfig)
    (username : option string) : Result bool :=
  let currentSdkVersion := IOSConfig_getSDKVersion exp in
  let currentRuntimeVersion := IOSConfig_getRuntimeVersion exp in
  let currentUpdateUrl := IOSConfig_getUpdateUrl exp username in
  versionMatches ←
    match narrow currentRuntimeVersion with
    | Some v =>
        x ← get expoPlistData IOSConfig_RUNTIME_VERSION; mret (strict_eq_string x v)
    | None =>
        match narrow currentSdkVersion with
        | Some v =>
            x ← get expoPlistData IOSConfig_SDK_VERSION; mret (strict_eq_string x v)
        | None => mret false
        end
    end;
  if (versionMatches : bool) then
    match narrow currentUpdateUrl with
    | Some u =>
        x ← get expoPlistData IOSConfig_UPDATE_URL;
        if strict_eq_string x u then mret true else mret false
    | None => mret false
    end
  else mret false.

Definition isUpdatesConfiguredIOS (projectDir : string) (exp : Exp.ExpoConfig)
    (username : option string) : IO bool :=
  pbxprojPath ← getPbxprojPathAsync;
  project ← getXcodeProjectAsync pbxprojPath;
  bundleReactNative ← lift (getBundleReactNativePhaseAsync project);
  if negb (includes (Xcode.shellScript bundleReactNative) iOSBuildScript) then mret false
  else
    expoPlist ← gets expoPlist;
    match expoPlist with
    | None => mret false
    | Some expoPlistData => lift (isMetadataSetIOS expoPlistData exp username)
    end.

Definition isUpdatesConfiguredAsync (env : Env) : IO bool :=
  if negb (isExpoUpdatesInstalled env) then mret true
  else
    '(exp, username) ← getConfigurationOptionsAsync env;
    android ← isUpdatesConfiguredAndroidAsync (projectDir env) exp username;
    if (android : bool) then isUpdatesConfiguredIOS (projectDir env) exp username
    else mret false.

Definition configureUpdatesIOSAsync (projectDir : string) (exp : Exp.ExpoConfig)
    (username : option string) : IO unit :=
  pbxprojPath ← getPbxprojPathAsync;
  project ← getXcodeProjectAsync pbxprojPath;
  bundleReactNative ← lift (getBundleReactNativePhaseAsync project);
  let project :=
    if negb (includes (Xcode.shellScript bundleReactNative) iOSBuildScript)
    then ExpoUpdates.assignBundleReactNativeScript project
           (replace_final_dquote (Xcode.shellScript bundleReactNative)
            +:+ iOSBuildScript +:+ "\n" +:+ DQ)
    else project in
  Fs.writePbxproj pbxprojPath project;;
  existing ← gets expoPlist;
  let expoPlist :=
    match existing with
    | Some parsed => parsed
    | None => JObject []
    end in
  let expoPlistContent := IOSConfig_setUpdatesConfig exp expoPlist username in
  Fs.mkdirpSupporting;;
  Fs.writeExpoPlist expoPlistContent;;
  Fs.gitAddAsync ExpoPlist.

End WithExpoConfig.

End Variant.

(** * Vocabulary of the statements *)

Module Spec.

Import JsString JsValueOps Dom.

(** ** Lines of a text *)

(** A string without the separator. *)
Fixpoint free_of (sep : ascii) (s : string) : Prop :=
  match s with
  | EmptyString => True
  | String c s' => c <> sep /\ free_of sep s'
  end.

(** What may follow a line: the end of the text or a separator. *)
Definition line_end (sep : ascii) (after : string) : Prop :=
  after = "" \/ exists q, after = String sep q.

(** What may precede a line: the start of the text or a separator. *)
Definition line_start (sep : ascii) (before : string) : Prop :=
  before = "" \/ exists p, before = p +:+ String sep "".

(** [l] is a line of [s]: it has no separator, and it is delimited in [s]
    by separators or by the ends of [s]. *)
Definition is_line (sep : ascii) (l s : string) : Prop :=
  free_of sep l /\
  exists before after,
    s = before +:+ l +:+ after /\ line_start sep before /\ line_end sep after.

(** ** Paths *)

(** An absolute path, from its segments. *)
Definition absolute (segments : list string) : string :=
  "/" +:+ String.concat "/" segments.

(** A segment that names a file or a directory. *)
Definition clean (segment : string) : Prop :=
  segment <> "" /\ segment <> "." /\ segment <> ".." /\ free_of "/"%char segment.

(** ** The application element and its meta-data children *)

(** A mutation that leaves the tag name of the element alone. *)
Definition keeps_tag (tag : string) (f : Node -> Node) : Prop :=
  forall a c, exists a' c', f (Element tag a c) = Element tag a' c'.

(** The document in which the first [application] element has had its
    child list changed by [g]. *)
Definition withChildren (g : list Node -> list Node) (document : Document) : Document :=
  mutateElement0 document "application" (fun app => setChildNodes app (g (childNodes app))).

(** The element that [updateAndroidMetadata] creates. *)
Definition metadataElement (name value : string) : Node :=
  setAttribute (setAttribute (createElement "meta-data") "android:name" name)
               "android:value" value.

(** What [updateAndroidMetadata] does to the children of [application]. *)
Definition upsert (name value : string) (children : list Node) : list Node :=
  match find (ExpoUpdates.isMetadataNamed name) children with
  | Some _ =>
      mutateFound (ExpoUpdates.isMetadataNamed name)
        (fun m => setAttribute m "android:value" value) children
  | None =>
      children ++ [createTextNode "  "; metadataElement name value;
                   createTextNode (NL +:+ "    ")]
  end.

(** What [removeAndroidMetadata] does to the children of [application]. *)
Definition remove (name : string) (children : list Node) : list Node :=
  removeFound (ExpoUpdates.isMetadataNamed name) children.

(** The number of meta-data children for the key [name]. *)
Definition records (name : string) (children : list Node) : nat :=
  length (List.filter (ExpoUpdates.isMetadataNamed name) children).

(** The value that the first meta-data child for the key [name] carries. *)
Definition recorded (name : string) (children : list Node) : option string :=
  option_map (fun m => getAttribute m "android:value")
             (find (ExpoUpdates.isMetadataNamed name) children).

(** The answer of [isAndroidMetadataSet], from the children of [application]. *)
Definition synced (options : ExpoUpdates.ConfigurationOptions) (children : list Node) : bool :=
  (if truthy_opt (ExpoUpdates.runtimeVersion options)
   then match find (ExpoUpdates.isMetadataNamed
                      ExpoUpdates.ExpoAndroidMetadata.RUNTIME_VERSION) children with
        | Some m =>
            strict_eq_opt (JString (getAttribute m "android:value"))
                          (ExpoUpdates.runtimeVersion options)
        | None => false
        end
   else match find (ExpoUpdates.isMetadataNamed
                      ExpoUpdates.ExpoAndroidMetadata.SDK_VERSION) children with
        | Some m =>
            strict_eq_opt (JString (getAttribute m "android:value"))
                          (ExpoUpdates.sdkVersion options)
        | None => false
        end)
  && match find (ExpoUpdates.isMetadataNamed
                   ExpoUpdates.ExpoAndroidMetadata.UPDATE_URL) children with
     | Some m => String.eqb (getAttribute m "android:value") (ExpoUpdates.updateUrl options)
     | None => false
     end.

(** What [configureUpdatesAndroid] does to the children of [application]
    when it rewrites the manifest. *)
Definition patch (options : ExpoUpdates.ConfigurationOptions) (children : list Node)
    : list Node :=
  upsert ExpoUpdates.ExpoAndroidMetadata.UPDATE_URL (ExpoUpdates.updateUrl options)
    (match narrow (ExpoUpdates.runtimeVersion options),
           narrow (ExpoUpdates.sdkVersion options) with
     | Some runtimeVersion, _ =>
         upsert ExpoUpdates.ExpoAndroidMetadata.RUNTIME_VERSION runtimeVersion
           (remove ExpoUpdates.ExpoAndroidMetadata.SDK_VERSION children)
     | None, Some sdkVersion =>
         upsert ExpoUpdates.ExpoAndroidMetadata.SDK_VERSION sdkVersion
           (remove ExpoUpdates.ExpoAndroidMetadata.RUNTIME_VERSION children)
     | None, None => children
     end).

(** Options whose version field is a non-empty string: the only ones that
    [getConfigurationOptions] hands out for a runtime version, and the ones
    it hands out for an SDK version that is not empty. *)
Definition valid (options : ExpoUpdates.ConfigurationOptions) : bool :=
  match options with
  | ExpoUpdates.SdkOptions v _ => truthy v
  | ExpoUpdates.RuntimeOptions v _ => truthy v
  end.

(** ** The identity in use and the other one *)

(** The version that the options carry. *)
Definition versionOf (options : ExpoUpdates.ConfigurationOptions) : string :=
  match options with
  | ExpoUpdates.SdkOptions v _ => v
  | ExpoUpdates.RuntimeOptions v _ => v
  end.

(** The manifest key of the identity in use, and the key of the other
    identity. *)
Definition androidKey (options : ExpoUpdates.ConfigurationOptions) : string :=
  match options with
  | ExpoUpdates.SdkOptions _ _ => ExpoUpdates.ExpoAndroidMetadata.SDK_VERSION
  | ExpoUpdates.RuntimeOptions _ _ => ExpoUpdates.ExpoAndroidMetadata.RUNTIME_VERSION
  end.


(** The same for the members of [ExpoIOSMetadata]. *)
Definition iosKey (options : ExpoUpdates.ConfigurationOptions) : string :=
  match options with
  | ExpoUpdates.SdkOptions _ _ => ExpoUpdates.ExpoIOSMetadata.SDK_VERSION
  | ExpoUpdates.RuntimeOptions _ _ => ExpoUpdates.ExpoIOSMetadata.RUNTIME_VERSION
  end.


(** ** The outcome of the Android pass *)

(** The text that [configureUpdatesAndroid] appends to build.gradle. *)
Definition gradleBlock : string :=
  NL +:+ "// Integration with Expo updates" +:+ NL
  +:+ ExpoUpdates.androidBuildScript +:+ NL.

(** The content of build.gradle after [configureUpdatesAndroid]. *)
Definition gradleAfter (content : string) : string :=
  if ExpoUpdates.hasBuildScriptApply content then content else content +:+ gradleBlock.

(** The manifest after [configureUpdatesAndroid], for a manifest with an
    application element whose children are [children]. *)
Definition manifestAfter (options : ExpoUpdates.ConfigurationOptions)
    (document : Document) (children : list Node) : Document :=
  if synced options children then document else withChildren (patch options) document.

(** The disk after the build.gradle step. *)
Definition afterGradle (content : string) (d : Disk) : Disk :=
  if ExpoUpdates.hasBuildScriptApply content then d
  else snd (Fs.writeBuildGradle (content +:+ gradleBlock) d).

(** The disk after the manifest step, for a manifest with an application
    element whose children are [children]. *)
Definition afterManifest (options : ExpoUpdates.ConfigurationOptions)
    (document : Document) (children : list Node) (d : Disk) : Disk :=
  if synced options children then d
  else snd (Fs.writeAndroidManifest (withChildren (patch options) document) d).

(** ** The outcome of the iOS pass *)

(** The project that [configureUpdatesIOS] writes back. *)
Definition wiredProject (project : Xcode.XcodeProject) (bundleReactNative : Xcode.BuildPhase)
    : Xcode.XcodeProject :=
  if negb (includes (Xcode.shellScript bundleReactNative) ExpoUpdates.iOSBuildScript)
  then ExpoUpdates.assignBundleReactNativeScript project
         (replace_final_dquote (Xcode.shellScript bundleReactNative)
          +:+ ExpoUpdates.iOSBuildScript +:+ "\n" +:+ DQ)
  else project.

(** The disk after [configureUpdatesIOS] has run to its end on the first
    Xcode project, writing [plist] to Expo.plist. *)
Definition afterIOS (plist : JsValue) (created : list Event) (path : string)
    (project : Xcode.XcodeProject) (bundleReactNative : Xcode.BuildPhase)
    (rest : list (string * Xcode.XcodeProject)) (d : Disk) : Disk :=
  mkDisk (buildGradle d) (androidManifest d)
         ((path, wiredProject project bundleReactNative) :: rest)
         (Some plist) true
         (journal d ++ [WriteFile Pbxproj] ++ created
          ++ [WriteFile ExpoPlist; GitAdd ExpoPlist]).

(** The directory that [configureUpdatesIOS] creates, if it has to. *)
Definition createdDir (d : Disk) : list Event :=
  if supportingDir d then [] else [Mkdirp].

(** The answer of [isUpdatesConfiguredIOS] from the parsed Expo.plist. *)
Definition plistSynced (options : ExpoUpdates.ConfigurationOptions) (expoPlistData : JsValue)
    : Result bool :=
  versionMatches ←
    (if truthy_opt (ExpoUpdates.runtimeVersion options)
     then v ← get expoPlistData ExpoUpdates.ExpoIOSMetadata.RUNTIME_VERSION;
          mret (strict_eq_opt v (ExpoUpdates.runtimeVersion options))
     else v ← get expoPlistData ExpoUpdates.ExpoIOSMetadata.SDK_VERSION;
          mret (strict_eq_opt v (ExpoUpdates.sdkVersion options)));
  if (versionMatches : bool) then
    u ← get expoPlistData ExpoUpdates.ExpoIOSMetadata.UPDATE_URL;
    mret (strict_eq_string u (ExpoUpdates.updateUrl options))
  else mret false.

(** ** The outcome of the entry points *)

Definition missingVersionMessage : string :=
  "Couldn't find either 'runtimeVersion' or 'sdkVersion' to configure 'expo-updates'. Please specify at least one of these properties under the 'expo' key in 'app.json'".

(** The update URL for a user and a slug. *)
Definition updateUrlOf (username slug : string) : string :=
  "https://exp.host/@" +:+ username +:+ "/" +:+ slug.

(** The options that [getConfigurationOptions] resolves for a user who is
    logged in as [username]. *)
Definition resolvedFor (env : Env) (username : string)
    : Result ExpoUpdates.ConfigurationOptions :=
  match narrow (Exp.runtimeVersion (exp env)) with
  | Some runtimeVersion =>
      Ok (ExpoUpdates.RuntimeOptions runtimeVersion
            (updateUrlOf username (Exp.slug (exp env))))
  | None =>
      match getExpoSDKVersion env with
      | Ok sdkVersion =>
          Ok (ExpoUpdates.SdkOptions sdkVersion
                (updateUrlOf username (Exp.slug (exp env))))
      | Throw _ => Throw (Error missingVersionMessage)
      end
  end.

Definition resolved (env : Env) : Result ExpoUpdates.ConfigurationOptions :=
  match ensureLoggedInAsync env with
  | Ok username => resolvedFor env username
  | Throw e => Throw e
  end.

(** How the git step of [configureUpdatesAsync] ends. *)
Definition gitOutcome (env : Env) : Result unit :=
  match ensureGitStatusIsCleanAsync env with
  | Ok _ => Ok tt
  | Throw DirtyGitTreeError =>
      match reviewAndCommitChangesAsync env with
      | Ok _ => Ok tt
      | Throw _ =>
          Throw (Error "Aborting, run the command again once you're ready. Make sure to commit any changes you've made.")
      end
  | Throw e => Throw e
  end.

(** The same project seen by another invocation: the collaborators of git
    may answer differently. *)
Definition withGit (env : Env) (status commit : Result unit) : Env :=
  mkEnv (projectDir env) (dependencies env) (exp env) (ensureLoggedInAsync env)
        (getCurrentUsernameAsync env) (getExpoSDKVersion env) status commit.

(** ** The journal *)

Definition isWriteOf (file : FileId) (e : Event) : bool :=
  match e, file with
  | WriteFile BuildGradle, BuildGradle => true
  | WriteFile AndroidManifest, AndroidManifest => true
  | WriteFile Pbxproj, Pbxproj => true
  | WriteFile ExpoPlist, ExpoPlist => true
  | _, _ => false
  end.

(** How many times [file] has been written so far. *)
Definition writesTo (file : FileId) (d : Disk) : nat :=
  length (List.filter (isWriteOf file) (journal d)).

End Spec.

(** * Sample projects *)

Module Fixture.

Import JsString JsValueOps.

Definition dependencies : list (string * string) :=
  [ ("expo", "~39.0.0"); ("expo-updates", "~0.3.3"); ("react-native", "0.63.3") ].

(** A project that declares [runtimeVersion], for the user alice. *)
Definition envRuntime : Env :=
  mkEnv "/home/alice/myapp" (Some dependencies)
        (Exp.mkExpoConfig "myapp" (Some "1.0.0") None)
        (Ok "alice") (Some "alice") (Ok "39.0.0") (Ok tt) (Ok tt).

(** The same project with [sdkVersion] instead. *)
Definition envSdk : Env :=
  mkEnv "/home/alice/myapp" (Some dependencies)
        (Exp.mkExpoConfig "myapp" None (Some "39.0.0"))
        (Ok "alice") (Some "alice") (Ok "39.0.0") (Ok tt) (Ok tt).

(** The same project with neither version, and no installed expo package
    to derive the SDK version from. *)
Definition envNoVersion : Env :=
  mkEnv "/home/alice/myapp" (Some dependencies)
        (Exp.mkExpoConfig "myapp" None None)
        (Ok "alice") (Some "alice") (Throw (Error "Cannot determine which native SDK version your project uses"))
        (Ok tt) (Ok tt).

Definition updateUrl : string := "https://exp.host/@alice/myapp".

Definition runtimeOptions : ExpoUpdates.ConfigurationOptions :=
  ExpoUpdates.RuntimeOptions "1.0.0" updateUrl.

Definition sdkOptions : ExpoUpdates.ConfigurationOptions :=
  ExpoUpdates.SdkOptions "39.0.0" updateUrl.

Definition buildGradle : string :=
  "apply plugin: 'com.android.application'" +:+ NL
  +:+ "android {" +:+ NL +:+ "}" +:+ NL.

Definition buildGradleWired : string :=
  buildGradle +:+ "apply from: '../../node_modules/expo-updates/scripts/create-manifest-android.gradle'"
  +:+ NL.

Definition metaData (name value : string) : Dom.Node :=
  Dom.Element "meta-data" (<["android:name" := name]> (<["android:value" := value]> ∅)) [].

Definition activity : Dom.Node :=
  Dom.Element "activity" (<["android:name" := ".MainActivity"]> ∅) [].

Definition manifestOf (children : list Dom.Node) : Dom.Document :=
  Dom.mkDocument
    [ Dom.Element "manifest" (<["package" := "com.alice.myapp"]> ∅)
        [ Dom.Text NL;
          Dom.Element "uses-permission"
            (<["android:name" := "android.permission.INTERNET"]> ∅) [];
          Dom.Element "application" (<["android:name" := ".MainApplication"]> ∅) children;
          Dom.Text NL ] ].

(** A manifest as the project template has it. *)
Definition manifest : Dom.Document := manifestOf [ Dom.Text NL; activity; Dom.Text NL ].

(** A manifest that carries a record for each of the three keys. *)
Definition manifestBoth : Dom.Document :=
  manifestOf
    [ Dom.Text NL; activity;
      metaData ExpoUpdates.ExpoAndroidMetadata.RUNTIME_VERSION "1.0.0";
      metaData ExpoUpdates.ExpoAndroidMetadata.SDK_VERSION "39.0.0";
      metaData ExpoUpdates.ExpoAndroidMetadata.UPDATE_URL updateUrl;
      Dom.Text NL ].

Definition bundleScript : string :=
  DQ +:+ "export NODE_BINARY=node\n../node_modules/react-native/scripts/react-native-xcode.sh\n"
  +:+ DQ.

Definition bundleScriptWired : string :=
  DQ +:+ "export NODE_BINARY=node\n../node_modules/react-native/scripts/react-native-xcode.sh\n"
  +:+ ExpoUpdates.iOSBuildScript +:+ "\n" +:+ DQ.

Definition projectWith (script : string) : Xcode.XcodeProject :=
  Xcode.mkXcodeProject
    (Some [ Xcode.Phase (Xcode.mkBuildPhase (Some (DQ +:+ "Start Packager" +:+ DQ))
                                           (DQ +:+ "export RCT_METRO_PORT=8081\n" +:+ DQ));
            Xcode.CommentValue "Start Packager";
            Xcode.Phase (Xcode.mkBuildPhase (Some ExpoUpdates.bundleReactNativeName) script);
            Xcode.CommentValue "Bundle React Native code and images" ])
    "PBXNativeTarget myapp".

Definition pbxprojPath : string := "/home/alice/myapp/ios/myapp.xcodeproj/project.pbxproj".

(** The project as the template leaves it: nothing wired yet. *)
Definition fresh : Disk :=
  mkDisk (Some buildGradle) (Some manifest) [ (pbxprojPath, projectWith bundleScript) ]
         None false [].

(** The same project without android/app/build.gradle. *)
Definition noGradle : Disk :=
  mkDisk None (Some manifest) [ (pbxprojPath, projectWith bundleScript) ] None false [].

(** A project whose build phase has the include fragment and whose
    Expo.plist has a key of its own. *)
Definition wiredIOS : Disk :=
  mkDisk (Some buildGradleWired) (Some manifest)
         [ (pbxprojPath, projectWith bundleScriptWired) ]
         (Some (JObject [ ("EXUpdatesCheckOnLaunch", JString "ALWAYS");
                          ("EXUpdatesURL", JString "https://exp.host/@bob/other") ]))
         true [].


(** A sample of what @expo/config may do, to run the revision that is
    built on it: the getters read [exp], the URL is null without a user,
    and [setUpdatesConfig] assigns the URL and the version key of the
    identity in use and deletes the other version key. *)
Fixpoint setProp (k : string) (v : JsValue) (props : list (string * JsValue))
    : list (string * JsValue) :=
  match props with
  | [] => [(k, v)]
  | (k', v') :: rest =>
      if String.eqb k k' then (k, v) :: rest else (k', v') :: setProp k v rest
  end.

Fixpoint deleteProp (k : string) (props : list (string * JsValue))
    : list (string * JsValue) :=
  match props with
  | [] => []
  | (k', v') :: rest =>
      if String.eqb k k' then deleteProp k rest else (k', v') :: deleteProp k rest
  end.

Definition sampleUpdateUrl (exp : Exp.ExpoConfig) (username : option string)
    : option string :=
  match narrow username with
  | Some user => Some ("https://exp.host/@" +:+ user +:+ "/" +:+ Exp.slug exp)
  | None => None
  end.

Definition sampleSetUpdatesConfig (exp : Exp.ExpoConfig) (expoPlist : JsValue)
    (username : option string) : JsValue :=
  match expoPlist with
  | JObject props =>
      let props :=
        match sampleUpdateUrl exp username with
        | Some url => setProp "EXUpdatesURL" (JString url) props
        | None => props
        end in
      JObject
        (match narrow (Exp.runtimeVersion exp), narrow (Exp.sdkVersion exp) with
         | Some v, _ =>
             setProp "EXUpdatesRuntimeVersion" (JString v)
               (deleteProp "EXUpdatesSDKVersion" props)
         | None, Some v =>
             setProp "EXUpdatesSDKVersion" (JString v)
               (deleteProp "EXUpdatesRuntimeVersion" props)
         | None, None =>
             deleteProp "EXUpdatesSDKVersion" (deleteProp "EXUpdatesRuntimeVersion" props)
         end)
  | other => other
  end.

Definition sampleExpoConfig : ExpoConfigPackage :=
  {| AndroidConfig_getSDKVersion := Exp.sdkVersion;
     AndroidConfig_getRuntimeVersion := Exp.runtimeVersion;
     AndroidConfig_getUpdateUrl := sampleUpdateUrl;
     AndroidConfig_SDK_VERSION := "expo.modules.updates.EXPO_SDK_VERSION";
     AndroidConfig_RUNTIME_VERSION := "expo.modules.updates.EXPO_RUNTIME_VERSION";
     AndroidConfig_UPDATE_URL := "expo.modules.updates.EXPO_UPDATE_URL";
     AndroidConfig_manifestJSON := fun _ => JObject [("manifest", JObject [])];
     IOSConfig_getSDKVersion := Exp.sdkVersion;
     IOSConfig_getRuntimeVersion := Exp.runtimeVersion;
     IOSConfig_getUpdateUrl := sampleUpdateUrl;
     IOSConfig_SDK_VERSION := "EXUpdatesSDKVersion";
     IOSConfig_RUNTIME_VERSION := "EXUpdatesRuntimeVersion";
     IOSConfig_UPDATE_URL := "EXUpdatesURL";
     IOSConfig_setUpdatesConfig := sampleSetUpdatesConfig |}.

End Fixture.


(** * More of the code

    The rest of the three files: [printSubmissionError] of
    submission-service/utils/errors.ts, with the log as a list of entries;
    and, of the revision on @expo/config, the Android pass and the entry
    point [configureUpdatesAsync]. *)

(** ** submission-service/utils/errors.ts *)

Module SubmissionErrors.

Import JsString.

Inductive SubmissionErrorCode : Type :=
| ARCHIVE_DOWNLOAD_NOT_FOUND_ERROR
| ARCHIVE_DOWNLOAD_FORBIDDEN_ERROR
| ANDROID_UNKNOWN_ERROR
| ANDROID_FIRST_UPLOAD_ERROR
| ANDROID_OLD_VERSION_CODE_ERROR
| ANDROID_MISSING_PRIVACY_POLICY.

(** The string value of each member of the enum. *)
Definition value (code : SubmissionErrorCode) : string :=
  match code with
  | ARCHIVE_DOWNLOAD_NOT_FOUND_ERROR =>
      "SUBMISSION_SERVICE_COMMON_ARCHIVE_DOWNLOAD_NOT_FOUND_ERROR"
  | ARCHIVE_DOWNLOAD_FORBIDDEN_ERROR =>
      "SUBMISSION_SERVICE_COMMON_ARCHIVE_DOWNLOAD_FORBIDDEN_ERROR"
  | ANDROID_UNKNOWN_ERROR => "SUBMISSION_SERVICE_ANDROID_UNKNOWN_ERROR"
  | ANDROID_FIRST_UPLOAD_ERROR => "SUBMISSION_SERVICE_ANDROID_FIRST_UPLOAD_ERROR"
  | ANDROID_OLD_VERSION_CODE_ERROR => "SUBMISSION_SERVICE_ANDROID_OLD_VERSION_CODE_ERROR"
  | ANDROID_MISSING_PRIVACY_POLICY => "SUBMISSION_SERVICE_ANDROID_MISSING_PRIVACY_POLICY"
  end.

(** [Object.values(SubmissionErrorCode)], as members. *)
Definition values : list SubmissionErrorCode :=
  [ ARCHIVE_DOWNLOAD_NOT_FOUND_ERROR; ARCHIVE_DOWNLOAD_FORBIDDEN_ERROR;
    ANDROID_UNKNOWN_ERROR; ANDROID_FIRST_UPLOAD_ERROR;
    ANDROID_OLD_VERSION_CODE_ERROR; ANDROID_MISSING_PRIVACY_POLICY ].

(** The fields of [SubmissionError] that are read. *)
Record SubmissionError : Type := mkSubmissionError {
  errorCode : string;
  message : string
}.

(** What reaches the log, in order. *)
Inductive LogEvent : Type :=
| Log (text : string)
| LogError (text : string)
| AddNewLineIfNone.

Section WithLog.

(** [log.terminalLink(text, url)] *)
Variable terminalLink : string -> string -> string.

Definition SubmissionErrorMessages (code : SubmissionErrorCode) : string :=
  match code with
  | ARCHIVE_DOWNLOAD_NOT_FOUND_ERROR =>
      "Failed to download the archive file (Response code: 404 Not Found). Please make sure the URL you've provided is correct."
  | ARCHIVE_DOWNLOAD_FORBIDDEN_ERROR =>
      "Failed to download the archive file (Response code: 403 Forbidden). This is most probably caused by trying to upload an expired build artifact. All Expo build artifacts expire after 30 days."
  | ANDROID_UNKNOWN_ERROR =>
      "We couldn't figure out what went wrong. Please see logs to learn more."
  | ANDROID_FIRST_UPLOAD_ERROR =>
      "You haven't submitted this app to Google Play Store yet. The first submission of the app needs to be performed manually." +:+ NL
      +:+ terminalLink "Learn more here" "https://expo.fyi/first-android-submission"
      +:+ "."
  | ANDROID_OLD_VERSION_CODE_ERROR =>
      "You've already submitted this version of the app." +:+ NL
      +:+ "Versions are identified by Android version code (expo.android.versionCode in app.json)." +:+ NL
      +:+ "If you're submitting a managed Expo project, increment the version code in app.json and build the project with expo build:android." +:+ NL
      +:+ terminalLink "Learn more here" "https://expo.fyi/bumping-android-version-code"
      +:+ "."
  | ANDROID_MISSING_PRIVACY_POLICY =>
      "The app has permissions that require a privacy policy set for the app." +:+ NL
      +:+ terminalLink "Learn more here" "https://expo.fyi/missing-privacy-policy"
      +:+ "."
  end.

(** The member of the enum whose value is [code], when
    [Object.values(SubmissionErrorCode).includes(code)]. *)
Definition asSubmissionErrorCode (code : string) : option SubmissionErrorCode :=
  List.find (fun member => String.eqb (value member) code) values.

Definition printSubmissionError (error : SubmissionError) (console : list LogEvent)
    : bool * list LogEvent :=
  match asSubmissionErrorCode (errorCode error) with
  | Some errorCode =>
      (String.eqb (value errorCode) (value ANDROID_UNKNOWN_ERROR),
       console ++ [AddNewLineIfNone; LogError (SubmissionErrorMessages errorCode)])
  | None => (true, console ++ [Log (message error)])
  end.

End WithLog.

End SubmissionErrors.

(** ** The Android pass and the entry point of the revision on @expo/config *)

(** What the Android pass of this revision takes from @expo/config besides
    [ExpoConfigPackage]: [AndroidConfig.Updates.setUpdatesConfig], which may
    throw, and the manifest that [AndroidConfig.Manifest.writeAndroidManifestAsync]
    leaves on disk for a JSON document. *)
Class ExpoConfigWriter : Type := {
  AndroidConfig_setUpdatesConfig : Exp.ExpoConfig -> JsValue -> option string -> Result JsValue;
  AndroidConfig_writtenManifest : JsValue -> Dom.Document
}.

Module VariantConfigure.

Import JsString JsValueOps.

Section WithExpoConfig.

Context `{ExpoConfigPackage} `{ExpoConfigWriter}.

Definition configureUpdatesAndroidAsync (projectDir : string) (exp : Exp.ExpoConfig)
    (username : option string) : IO unit :=
  let buildGradlePath := Variant.getAndroidBuildGradlePath projectDir in
  buildGradleContent ← Variant.getAndroidBuildGradleContentAsync buildGradlePath;
  (if negb (Variant.hasBuildScriptApply buildGradleContent)
   then Fs.writeBuildGradle
          (buildGradleContent +:+ NL +:+ "// Integration with Expo updates" +:+ NL
           +:+ Variant.androidBuildScript +:+ NL)
   else mret tt);;
  manifest ← gets androidManifest;
  match manifest with
  | None => throw (ExternalError "ENOENT")
  | Some document =>
      let androidManifestJSON := AndroidConfig_manifestJSON document in
      isSet ← lift (Variant.isMetadataSetAndroid androidManifestJSON exp username);
      if negb isSet then
        result ← lift (AndroidConfig_setUpdatesConfig exp androidManifestJSON username);
        Fs.writeAndroidManifest (AndroidConfig_writtenManifest result)
      else mret tt
  end.

Definition configureUpdatesAsync (env : Env) : IO unit :=
  if negb (Variant.isExpoUpdatesInstalled env) then mret tt
  else
    try_catch
      ('(exp, username) ← Variant.getConfigurationOptionsAsync env;
       configureUpdatesAndroidAsync (projectDir env) exp username;;
       Variant.configureUpdatesIOSAsync (projectDir env) exp username;;
       lift (ensureGitStatusIsCleanAsync env))
      (fun err =>
         match err with
         | DirtyGitTreeError =>
             try_catch
               (lift (reviewAndCommitChangesAsync env))
               (fun e => throw (Error "Aborting, run the command again once you're ready. Make sure to commit any changes you've made."))
         | _ => throw err
         end).

End WithExpoConfig.

End VariantConfigure.

(** ** More sample projects *)

Module Sample.

Import JsString JsValueOps.

(** The template project after [configureUpdatesAsync] of expoUpdates.ts. *)
Definition configured : Disk :=
  snd (ExpoUpdates.configureUpdatesAsync Fixture.envRuntime Fixture.fresh).

(** The template project with [runtimeVersion] declared as the empty
    string, and with a runtime version but nobody logged in. *)
Definition envEmptyRuntime : Env :=
  mkEnv "/home/alice/myapp" (Some Fixture.dependencies)
        (Exp.mkExpoConfig "myapp" (Some "") None)
        (Ok "alice") (Some "alice") (Ok "39.0.0") (Ok tt) (Ok tt).

Definition envLoggedOut : Env :=
  mkEnv "/home/alice/myapp" (Some Fixture.dependencies)
        (Exp.mkExpoConfig "myapp" (Some "1.0.0") None)
        (Throw (Error "Not logged in")) None (Ok "39.0.0") (Ok tt) (Ok tt).

(** A project without an Xcode project, and one without a manifest. *)
Definition noXcode : Disk :=
  mkDisk (Some Fixture.buildGradle) (Some Fixture.manifest) [] None false [].

Definition noManifest : Disk :=
  mkDisk (Some Fixture.buildGradle) None
         [ (Fixture.pbxprojPath, Fixture.projectWith Fixture.bundleScript) ] None false [].

(** A manifest without an application element. *)
Definition noApplication : Disk :=
  mkDisk (Some Fixture.buildGradle)
         (Some (Dom.mkDocument [ Dom.Element "manifest" ∅ [ Dom.Text NL ] ]))
         [ (Fixture.pbxprojPath, Fixture.projectWith Fixture.bundleScript) ] None false [].

(** The configured project with an Expo.plist that holds the runtime
    version under the key of its own name. *)
Definition renamedKeys : Disk :=
  mkDisk (buildGradle configured) (androidManifest configured) (xcodeProjects configured)
         (Some (JObject [ ("EXUpdatesRuntimeVersion", JString "1.0.0");
                          ("EXUpdatesURL", JString "https://exp.host/@alice/myapp") ]))
         true (journal configured).

(** A sample of the rest of @expo/config: [setUpdatesConfig] returns the
    document it is given, and the manifest written for a document is the
    template one. *)
Definition sampleWriter : ExpoConfigWriter :=
  {| AndroidConfig_setUpdatesConfig := fun _ androidManifestJSON _ => Ok androidManifestJSON;
     AndroidConfig_writtenManifest := fun _ => Fixture.manifest |}.

Definition terminalLink (text url : string) : string := text +:+ " (" +:+ url +:+ ")".

End Sample.
(** * Properties *)

#[local] Arguments ExpoUpdates.iOSBuildScript : simpl never.
#[local] Arguments ExpoUpdates.androidBuildScript : simpl never.
#[local] Arguments ExpoUpdates.bundleReactNativeName : simpl never.
#[local] Arguments Spec.gradleBlock : simpl never.

(** ** Strings *)

Section StringFacts.

Import JsString Spec.

Lemma append_assoc (a b c : string) : (a +:+ b) +:+ c = a +:+ (b +:+ c).
Proof. induction a as [|x a IH]; simpl; [reflexivity | f_equal; exact IH]. Qed.

Lemma append_empty_r (a : string) : a +:+ "" = a.
Proof. induction a as [|x a IH]; simpl; [reflexivity | f_equal; exact IH]. Qed.

Lemma split_not_nil sep s : split sep s <> [].
Proof.
  destruct s as [|c s]; simpl; [discriminate|].
  destruct (Ascii.eqb c sep); [discriminate|].
  destruct (split sep s); discriminate.
Qed.

(** Splitting around one separator splits both sides. *)
Lemma split_append sep a b :
  split sep (a +:+ String sep b) = split sep a ++ split sep b.
Proof.
  induction a as [|c a IH]; simpl.
  - now rewrite Ascii.eqb_refl.
  - destruct (Ascii.eqb c sep); rewrite IH; [reflexivity|].
    pose proof (split_not_nil sep a) as Hne.
    destruct (split sep a) as [|l r]; [congruence | reflexivity].
Qed.

Lemma split_free sep s : free_of sep s -> split sep s = [s].
Proof.
  induction s as [|c s IH]; simpl; [reflexivity|].
  intros [Hc Hs]. apply Ascii.eqb_neq in Hc. rewrite Hc, (IH Hs). reflexivity.
Qed.

Lemma split_lines_free sep s l : In l (split sep s) -> free_of sep l.
Proof.
  revert l. induction s as [|c s IH]; simpl; intros l Hin.
  - destruct Hin as [<-|[]]. exact I.
  - destruct (Ascii.eqb c sep) eqn:E.
    + destruct Hin as [<-|Hin]; [exact I | now apply IH].
    + pose proof (split_not_nil sep s) as Hne.
      destruct (split sep s) as [|l0 r]; [congruence|].
      destruct Hin as [<-|Hin].
      * simpl. split; [now apply Ascii.eqb_neq | apply IH; now left].
      * apply IH. now right.
Qed.

Lemma split_positions sep s :
  match split sep s with
  | [] => False
  | l0 :: r =>
      (exists after, s = l0 +:+ after /\ line_end sep after) /\
      (forall l, In l r ->
         exists p after, s = (p +:+ String sep "") +:+ l +:+ after /\ line_end sep after)
  end.
Proof.
  induction s as [|c s IH]; simpl.
  - split; [exists ""; split; [reflexivity | now left] | intros l []].
  - destruct (split sep s) as [|l0 r]; [contradiction|].
    destruct IH as [(a0 & Hs0 & Ha0) IHr].
    destruct (Ascii.eqb c sep) eqn:E.
    + apply Ascii.eqb_eq in E. subst c. split.
      * exists (String sep s). split; [reflexivity | right; now exists s].
      * intros l [<-|Hin].
        -- exists "", a0. simpl. split; [now rewrite <- Hs0 | exact Ha0].
        -- destruct (IHr l Hin) as (p & a & Hs & Ha).
           exists (String sep p), a. simpl. split; [now rewrite <- Hs | exact Ha].
    + split.
      * exists a0. simpl. split; [now rewrite <- Hs0 | exact Ha0].
      * intros l Hin. destruct (IHr l Hin) as (p & a & Hs & Ha).
        exists (String c p), a. simpl. split; [now rewrite <- Hs | exact Ha].
Qed.

(** The elements of [s.split(sep)] are exactly the lines of [s]. *)
Lemma In_split_iff sep s l : In l (split sep s) <-> is_line sep l s.
Proof.
  split.
  - intros Hin. split; [now apply split_lines_free with s|].
    pose proof (split_positions sep s) as Hpos.
    destruct (split sep s) as [|l0 r]; [contradiction|].
    destruct Hpos as [(a0 & Hs0 & Ha0) Hr].
    destruct Hin as [<-|Hin].
    + exists "", a0. simpl. split; [exact Hs0|]. split; [now left | exact Ha0].
    + destruct (Hr l Hin) as (p & a & Hs & Ha).
      exists (p +:+ String sep ""), a. split; [exact Hs|]. split; [right; now exists p | exact Ha].
  - intros (Hfree & b & a & -> & Hb & Ha).
    assert (Htail : In l (split sep (l +:+ a))).
    { destruct Ha as [->|(q & ->)].
      - rewrite append_empty_r, (split_free _ _ Hfree). now left.
      - rewrite split_append, (split_free _ _ Hfree). now left. }
    destruct Hb as [->|(p & ->)]; [exact Htail|].
    rewrite append_assoc. simpl. rewrite split_append.
    apply in_or_app. now right.
Qed.

Lemma prefix_append (f b : string) : String.prefix f (f +:+ b) = true.
Proof.
  induction f as [|c f IH]; simpl; [now destruct b|].
  destruct (ascii_dec c c); [exact IH | congruence].
Qed.

(** A text includes each of its parts. *)
Lemma includes_append (a f b : string) : includes (a +:+ f +:+ b) f = true.
Proof.
  induction a as [|c a IH]; simpl.
  - pose proof (prefix_append f b) as Hp.
    destruct (f +:+ b); cbn [includes]; now rewrite Hp.
  - rewrite IH. apply orb_true_r.
Qed.

End StringFacts.


(** ** Paths *)

Section PathFacts.

Import JsString Spec NodePath.

Lemma step_clean allow kept segment : clean segment -> step allow kept segment = segment :: kept.
Proof.
  intros (H1 & H2 & H3 & _). unfold step.
  apply String.eqb_neq in H1, H2, H3. now rewrite H1, H2, H3.
Qed.

Lemma step_empty allow kept : step allow kept "" = kept.
Proof. reflexivity. Qed.

Lemma fold_step_clean allow segments kept :
  Forall clean segments ->
  fold_left (step allow) segments kept = rev segments ++ kept.
Proof.
  intros Hc. revert kept. induction Hc as [|s l Hs _ IH]; intros kept; simpl; [reflexivity|].
  rewrite (step_clean _ _ _ Hs), IH, <- app_assoc. reflexivity.
Qed.

Lemma clean_free segment : clean segment -> free_of "/"%char segment.
Proof. now intros (_ & _ & _ & H). Qed.

(** The segments of a joined path are the ones that were joined. *)
Lemma split_concat segments :
  Forall (free_of "/"%char) segments -> segments <> [] ->
  split "/"%char (String.concat "/" segments) = segments.
Proof.
  intros Hf. induction Hf as [|s l Hs Hl IH]; [congruence|]. intros _.
  destruct l as [|t l].
  - simpl. now apply split_free.
  - change (String.concat "/" (s :: t :: l))
      with (s +:+ String "/"%char (String.concat "/" (t :: l))).
    rewrite split_append, (split_free _ _ Hs), IH by discriminate. reflexivity.
Qed.

Lemma fold_step_concat allow segments kept :
  Forall clean segments ->
  fold_left (step allow) (split "/"%char (String.concat "/" segments)) kept =
  rev segments ++ kept.
Proof.
  intros Hc. destruct segments as [|s l]; [reflexivity|].
  rewrite split_concat; [now apply fold_step_clean | | discriminate].
  eapply Forall_impl; [exact Hc|]. intros x. apply clean_free.
Qed.

(** Normalising the absolute path of clean segments, followed by more
    text, keeps the segments and goes on with the text. *)
Lemma fold_step_absolute allow segments more kept :
  Forall clean segments ->
  fold_left (step allow)
    (split "/"%char (String "/"%char (String.concat "/" segments +:+ String "/"%char more)))
    kept =
  fold_left (step allow) (split "/"%char more) (rev segments ++ kept).
Proof.
  intros Hc.
  change (String "/"%char (String.concat "/" segments +:+ String "/"%char more))
    with ("" +:+ String "/"%char (String.concat "/" segments +:+ String "/"%char more)).
  rewrite split_append, fold_left_app. cbn [split fold_left]. rewrite step_empty.
  rewrite split_append, fold_left_app. f_equal.
  now apply fold_step_concat.
Qed.

(** What [path.resolve] has gathered when the arguments it went through
    are clean segments. *)
Lemma gather_clean segments earlier cwd resolvedPath :
  Forall clean segments ->
  gather (rev segments ++ earlier) cwd resolvedPath =
  gather earlier cwd (fold_right (fun s a => s +:+ String "/"%char a) resolvedPath segments).
Proof.
  intros Hc. revert earlier. induction Hc as [|s l Hs _ IH]; intros earlier; [reflexivity|].
  simpl rev. rewrite <- app_assoc, IH. simpl.
  destruct Hs as (Hne & _ & _ & Hfree). destruct s as [|c s]; [congruence|].
  destruct Hfree as [Hc _]. apply Ascii.eqb_neq in Hc. simpl. now rewrite Hc.
Qed.

Lemma fold_step_joined allow segments kept :
  Forall clean segments ->
  fold_left (step allow)
    (split "/"%char (fold_right (fun s a => s +:+ String "/"%char a) "" segments)) kept =
  rev segments ++ kept.
Proof.
  intros Hc. revert kept. induction Hc as [|s l Hs _ IH]; intros kept; [reflexivity|].
  simpl fold_right.
  rewrite split_append, fold_left_app, (split_free _ _ (clean_free _ Hs)). simpl fold_left at 2.
  rewrite (step_clean _ _ _ Hs), IH. simpl. now rewrite <- app_assoc.
Qed.

(** Resolving clean segments against an absolute path of clean segments
    appends them, whatever the working directory. *)
Lemma resolve_absolute_clean cwd segments more :
  Forall clean segments -> Forall clean more ->
  resolve cwd (absolute segments :: more) = absolute (segments ++ more).
Proof.
  intros Hs Hm. unfold resolve. simpl rev.
  rewrite (gather_clean more [absolute segments] cwd "") by (now apply Forall_rev || exact Hm).
  cbn [gather absolute String.append isAbsolute]. rewrite Ascii.eqb_refl.
  unfold normalizeString.
  rewrite fold_step_absolute, fold_step_joined by assumption.
  cbn [negb]. unfold absolute.
  now rewrite app_nil_r, rev_app_distr, !rev_involutive.
Qed.

(** Resolving two dots against an absolute path of clean segments gives
    the parent directory. *)
Lemma resolve_parent cwd segments last :
  Forall clean segments -> clean last ->
  resolve cwd [absolute (segments ++ [last]); ".."] = absolute segments.
Proof.
  intros Hs Hl. unfold resolve.
  assert (G : gather (rev [absolute (segments ++ [last]); ".."]) cwd "" =
              (String "/"%char (String.concat "/" (segments ++ [last])
                                +:+ String "/"%char "../"), true)) by reflexivity.
  rewrite G. cbn [negb]. unfold normalizeString.
  rewrite fold_step_absolute by (apply Forall_app; split; [exact Hs | now constructor]).
  rewrite rev_app_distr. simpl.
  destruct Hl as (_ & _ & Hdd & _). apply String.eqb_neq in Hdd.
  unfold step at 2. simpl. rewrite Hdd. simpl.
  unfold absolute. now rewrite step_empty, app_nil_r, rev_involutive.
Qed.

Lemma basename_absolute segments last :
  Forall clean segments -> clean last ->
  basename (absolute (segments ++ [last])) = last.
Proof.
  intros Hs Hl. unfold basename, absolute.
  change ("/" +:+ String.concat "/" (segments ++ [last]))
    with ("" +:+ String "/"%char (String.concat "/" (segments ++ [last]))).
  rewrite split_append, split_concat.
  - rewrite !fold_left_app. simpl.
    destruct Hl as (Hne & _). destruct last; [congruence | reflexivity].
  - apply Forall_app. split.
    + eapply Forall_impl; [exact Hs|]. intros x. apply clean_free.
    + constructor; [now apply clean_free | constructor].
  - destruct segments; discriminate.
Qed.

Lemma length_append (a b : string) :
  String.length (a +:+ b) = String.length a + String.length b.
Proof. induction a as [|c a IH]; simpl; [reflexivity | now rewrite IH]. Qed.

(** The pattern removes the suffix at the end. *)
Lemma replace_final_suffix suffix name : replace_final suffix (name +:+ suffix) = name.
Proof.
  induction name as [|c name IH].
  - cbn [String.append]. destruct suffix; [reflexivity|].
    cbn [replace_final]. now rewrite String.eqb_refl.
  - assert (Hne : String c (name +:+ suffix) <> suffix).
    { intros Heq. apply (f_equal String.length) in Heq. simpl in Heq.
      rewrite length_append in Heq. lia. }
    apply String.eqb_neq in Hne. cbn [String.append replace_final]. now rewrite Hne, IH.
Qed.

(** Without the suffix at the end, nothing is removed. *)
Lemma replace_final_other suffix s :
  (forall name, s <> name +:+ suffix) -> replace_final suffix s = s.
Proof.
  induction s as [|c s IH]; intros Hn.
  - cbn [replace_final]. destruct (String.eqb "" suffix) eqn:E; reflexivity.
  - cbn [replace_final]. destruct (String.eqb (String c s) suffix) eqn:E.
    + apply String.eqb_eq in E. now destruct (Hn "").
    + rewrite IH; [reflexivity|]. intros name ->. now apply (Hn (String c name)).
Qed.

Lemma free_of_append sep (a b : string) :
  free_of sep a -> free_of sep b -> free_of sep (a +:+ b).
Proof. induction a as [|c a IH]; simpl; [tauto|]. intros [Hc Ha] Hb. auto. Qed.

Lemma clean_xcodeproj name : clean name -> clean (name +:+ ".xcodeproj").
Proof.
  intros (Hne & _ & _ & Hfree).
  assert (Hlen : 10 < String.length (name +:+ ".xcodeproj")).
  { rewrite length_append. destruct name; [congruence|]. simpl. lia. }
  repeat split.
  - intros Heq. rewrite Heq in Hlen. simpl in Hlen. lia.
  - intros Heq. rewrite Heq in Hlen. simpl in Hlen. lia.
  - intros Heq. rewrite Heq in Hlen. simpl in Hlen. lia.
  - apply free_of_append; [exact Hfree|]. vm_compute. repeat split; discriminate.
Qed.

Lemma clean_literals :
  clean "ios" /\ clean "Supporting" /\ clean "Expo.plist" /\ clean "project.pbxproj".
Proof. repeat split; try discriminate; vm_compute; repeat split; discriminate. Qed.

(** X22.  For a project directory and an Xcode project directory given by
    absolute paths of clean segments (no empty segment, dot or two dots),
    [getExpoPlistPath] answers the project directory followed by ios, the
    name of the Xcode project directory without a final .xcodeproj,
    Supporting and Expo.plist, in every working directory.  Only the last
    segment of the directory of project.pbxproj matters; a directory name
    that does not end in .xcodeproj is taken whole. *)
Theorem getExpoPlistPath_derivation cwd projectSegments xcodeSegments name :
  Forall clean projectSegments ->
  Forall clean xcodeSegments ->
  clean name ->
  getExpoPlistPath cwd (absolute projectSegments)
    (absolute (xcodeSegments ++ [name +:+ ".xcodeproj"; "project.pbxproj"])) =
  absolute (projectSegments ++ ["ios"; name; "Supporting"; "Expo.plist"]) /\
  ((forall stem, name <> stem +:+ ".xcodeproj") ->
   getExpoPlistPath cwd (absolute projectSegments)
     (absolute (xcodeSegments ++ [name; "project.pbxproj"])) =
   absolute (projectSegments ++ ["ios"; name; "Supporting"; "Expo.plist"])).
Proof.
  intros Hp Hx Hn. destruct clean_literals as (Cios & Csup & Cexpo & Cproj).
  assert (Hmore : Forall clean ["ios"; name; "Supporting"; "Expo.plist"])
    by (do 4 (constructor; [assumption|]); constructor).
  pose proof (clean_xcodeproj _ Hn) as Hnx.
  unfold getExpoPlistPath. split.
  - change (xcodeSegments ++ [name +:+ ".xcodeproj"; "project.pbxproj"])
      with (xcodeSegments ++ [name +:+ ".xcodeproj"] ++ ["project.pbxproj"]).
    rewrite app_assoc, resolve_parent, basename_absolute, replace_final_suffix;
      try assumption.
    + now apply resolve_absolute_clean.
    + apply Forall_app. split; [exact Hx | now constructor].
  - intros Hns.
    change (xcodeSegments ++ [name; "project.pbxproj"])
      with (xcodeSegments ++ [name] ++ ["project.pbxproj"]).
    rewrite app_assoc, resolve_parent, basename_absolute, replace_final_other;
      try assumption.
    + now apply resolve_absolute_clean.
    + apply Forall_app. split; [exact Hx | now constructor].
Qed.

Lemma getExpoPlistPath_derivation_witness :
  getExpoPlistPath "/home/alice" "/home/alice/myapp"
    "/home/alice/myapp/ios/myapp.xcodeproj/project.pbxproj" =
  "/home/alice/myapp/ios/myapp/Supporting/Expo.plist".
Proof.
  assert (Hproject : Forall clean ["home"; "alice"; "myapp"])
    by (repeat (constructor; [vm_compute; repeat split; discriminate|]); constructor).
  assert (Hxcode : Forall clean ["home"; "alice"; "myapp"; "ios"])
    by (repeat (constructor; [vm_compute; repeat split; discriminate|]); constructor).
  assert (Hname : clean "myapp") by (vm_compute; repeat split; discriminate).
  exact (proj1 (getExpoPlistPath_derivation "/home/alice" ["home"; "alice"; "myapp"]
                  ["home"; "alice"; "myapp"; "ios"] "myapp" Hproject Hxcode Hname)).
Defined.

(** What [path.resolve] gathers ends with what it had, after nothing or
    after a prefix that ends with a slash. *)
Lemma gather_prefix reversed cwd resolvedPath :
  exists prefix,
    fst (gather reversed cwd resolvedPath) = prefix +:+ resolvedPath /\
    (prefix = "" \/ exists q, prefix = q +:+ String "/"%char "").
Proof.
  revert resolvedPath. induction reversed as [|path earlier IH]; intros resolvedPath.
  - cbn [gather]. destruct cwd as [|c cwd].
    + exists "". split; [reflexivity | now left].
    + exists (String c cwd +:+ "/"). split; [|right; now exists (String c cwd)].
      cbn [fst]. now rewrite append_assoc.
  - cbn [gather]. destruct path as [|c path]; [apply IH|].
    destruct (isAbsolute (String c path)).
    + exists (String c path +:+ "/"). split; [|right; now exists (String c path)].
      cbn [fst]. now rewrite append_assoc.
    + destruct (IH (String c path +:+ "/" +:+ resolvedPath)) as (pre & Hg & _).
      exists ((pre +:+ String c path) +:+ "/"). split; [|right; eauto].
      rewrite Hg. now rewrite !append_assoc.
Qed.

Lemma step_free allow kept segment :
  Forall (free_of "/"%char) kept -> free_of "/"%char segment ->
  Forall (free_of "/"%char) (step allow kept segment).
Proof.
  intros Hk Hs. unfold step.
  destruct (String.eqb segment "" || String.eqb segment "."); [exact Hk|].
  destruct (String.eqb segment "..").
  - destruct kept as [|last before].
    + destruct allow; constructor; [|constructor]. vm_compute. repeat split; discriminate.
    + destruct (String.eqb last "..").
      * destruct allow; [|exact Hk]. constructor; [|exact Hk].
        vm_compute. repeat split; discriminate.
      * now inversion Hk.
  - now constructor.
Qed.

Lemma fold_step_free allow segments kept :
  Forall (free_of "/"%char) segments -> Forall (free_of "/"%char) kept ->
  Forall (free_of "/"%char) (fold_left (step allow) segments kept).
Proof.
  intros Hs. revert kept. induction Hs as [|s l Hs _ IH]; intros kept Hk; [exact Hk|].
  simpl. apply IH. now apply step_free.
Qed.

Lemma split_all_free sep s : Forall (free_of sep) (split sep s).
Proof. apply Forall_forall. intros l Hl. apply split_lines_free with s. now apply list_elem_of_In. Qed.

(** X23.  Whatever the project directory, the path of project.pbxproj and
    the working directory, the last segment of the path that
    [getExpoPlistPath] answers is Expo.plist: the file that is written
    there is never project.pbxproj, build.gradle or the manifest. *)
Theorem getExpoPlistPath_basename cwd projectDir pbxprojPath :
  basename (getExpoPlistPath cwd projectDir pbxprojPath) = "Expo.plist".
Proof.
  unfold getExpoPlistPath.
  set (name := replace_final ".xcodeproj" (basename (resolve cwd [pbxprojPath; ".."]))).
  unfold resolve.
  assert (G : gather (rev [projectDir; "ios"; name; "Supporting"; "Expo.plist"]) cwd "" =
              gather [name; "ios"; projectDir] cwd "Supporting/Expo.plist/") by reflexivity.
  rewrite G. clear G.
  destruct (gather_prefix [name; "ios"; projectDir] cwd "Supporting/Expo.plist/")
    as (prefix & Hraw & Hprefix).
  destruct (gather [name; "ios"; projectDir] cwd "Supporting/Expo.plist/")
    as [raw absolutePath]. cbn [fst] in Hraw. subst raw.
  assert (Hsplit : exists front,
             split "/"%char (prefix +:+ "Supporting/Expo.plist/") =
             front ++ ["Supporting"; "Expo.plist"; ""] /\
             Forall (free_of "/"%char) front).
  { destruct Hprefix as [->|(q & ->)].
    - exists []. split; [reflexivity | constructor].
    - exists (split "/"%char q). split; [|apply split_all_free].
      rewrite append_assoc. cbn [String.append]. now rewrite split_append. }
  destruct Hsplit as (front & Hsplit & Hfront).
  unfold normalizeString. rewrite Hsplit, fold_left_app.
  set (kept := fold_left (step (negb absolutePath)) front []).
  assert (Hkept : Forall (free_of "/"%char) kept)
    by (apply fold_step_free; [exact Hfront | constructor]).
  assert (Hfold : fold_left (step (negb absolutePath)) ["Supporting"; "Expo.plist"; ""] kept =
                  "Expo.plist" :: "Supporting" :: kept) by reflexivity.
  rewrite Hfold. clear Hfold. cbn [rev]. rewrite <- app_assoc. cbn [app].
  set (segments := rev kept ++ ["Supporting"; "Expo.plist"]).
  assert (Hseg : Forall (free_of "/"%char) segments).
  { apply Forall_app. split; [now apply Forall_rev|].
    repeat (constructor; [vm_compute; repeat split; discriminate|]). constructor. }
  assert (Hne : segments <> []) by (unfold segments; destruct (rev kept); discriminate).
  pose proof (split_concat segments Hseg Hne) as Hparts.
  assert (Hlast : fold_left (fun found segment => if truthy segment then segment else found)
                    segments "" = "Expo.plist")
    by (unfold segments; now rewrite fold_left_app).
  assert (Htruthy : truthy (String.concat "/" segments) = true).
  { destruct (String.concat "/" segments) eqn:E; [|reflexivity].
    simpl in Hparts. unfold segments in Hparts. destruct (rev kept) as [|k [|k' r]];
      discriminate. }
  destruct absolutePath.
  - unfold basename.
    change ("/" +:+ String.concat "/" segments)
      with ("" +:+ String "/"%char (String.concat "/" segments)).
    rewrite split_append, Hparts. exact Hlast.
  - cbn [negb] in *. rewrite Htruthy. unfold basename. rewrite Hparts. exact Hlast.
Qed.

Lemma endsWithSlash_append a b : b <> "" -> endsWithSlash (a +:+ b) = endsWithSlash b.
Proof.
  intros Hb. induction a as [|c a IH]; [reflexivity|].
  cbn [String.append endsWithSlash]. rewrite IH.
  destruct (a +:+ b) eqn:E; [|reflexivity].
  destruct a; [now destruct b | discriminate].
Qed.

Lemma endsWithSlash_free s : free_of "/"%char s -> endsWithSlash s = false.
Proof.
  induction s as [|c s IH]; [reflexivity|]. intros [Hc Hs]. cbn [endsWithSlash].
  destruct s; [|now apply IH]. now apply Ascii.eqb_neq.
Qed.

Lemma concat_snoc segments last :
  segments <> [] ->
  String.concat "/" (segments ++ [last]) = String.concat "/" segments +:+ "/" +:+ last.
Proof.
  induction segments as [|s l IH]; [congruence|]. intros _.
  destruct l as [|s' l].
  - reflexivity.
  - change (String.concat "/" ((s :: s' :: l) ++ [last]))
      with (s +:+ "/" +:+ String.concat "/" ((s' :: l) ++ [last])).
    rewrite IH by discriminate.
    change (String.concat "/" (s :: s' :: l)) with (s +:+ "/" +:+ String.concat "/" (s' :: l)).
    now rewrite !append_assoc.
Qed.

Lemma concat_last_clean segments :
  Forall clean segments -> segments <> [] ->
  String.concat "/" segments <> "" /\ endsWithSlash (String.concat "/" segments) = false.
Proof.
  intros Hc Hne. destruct (exists_last Hne) as (front & last & ->).
  apply Forall_app in Hc as [_ Hl]. inversion Hl as [|? ? Hlast _]. subst.
  destruct Hlast as (Hnonempty & _ & _ & Hfree).
  destruct front as [|f front].
  - split; [exact Hnonempty | now apply endsWithSlash_free].
  - rewrite concat_snoc by discriminate. split.
    + intros E. destruct (String.concat "/" (f :: front)); discriminate.
    + rewrite endsWithSlash_append by (cbn [String.append]; discriminate).
      rewrite endsWithSlash_append by assumption.
      now apply endsWithSlash_free.
Qed.

Lemma join_absolute_clean segments more :
  Forall clean segments -> Forall clean more -> more <> [] ->
  join (absolute segments :: more) = absolute (segments ++ more).
Proof.
  intros Hs Hm Hne. unfold join.
  assert (Hfilter : List.filter truthy (absolute segments :: more) = absolute segments :: more).
  { cbn [List.filter absolute String.append truthy]. f_equal.
    clear Hne. induction Hm as [|m l Hc _ IH]; [reflexivity|].
    cbn [List.filter]. destruct m; [now destruct Hc|]. cbn [truthy]. now f_equal. }
  rewrite Hfilter.
  destruct more as [|m more]; [congruence|].
  change (String.concat "/" (absolute segments :: m :: more))
    with (String "/"%char (String.concat "/" segments
                           +:+ String "/"%char (String.concat "/" (m :: more)))).
  unfold normalize. cbn [isAbsolute negb]. rewrite Ascii.eqb_refl. cbn [negb].
  unfold normalizeString. rewrite fold_step_absolute, fold_step_concat by assumption.
  rewrite app_nil_r, <- rev_app_distr, rev_involutive.
  destruct (concat_last_clean (segments ++ m :: more)) as [Hnonempty _].
  { apply Forall_app. now split. }
  { destruct segments; discriminate. }
  destruct (concat_last_clean (m :: more) Hm Hne) as [Hnonempty' Hlast].
  assert (Htrailing :
    endsWithSlash (String "/"%char (String.concat "/" segments
                   +:+ String "/"%char (String.concat "/" (m :: more)))) = false).
  { replace (String "/"%char (String.concat "/" segments
                              +:+ String "/"%char (String.concat "/" (m :: more))))
      with (String "/"%char (String.concat "/" segments +:+ "/")
            +:+ String.concat "/" (m :: more))
      by (cbn [String.append]; now rewrite append_assoc).
    now rewrite endsWithSlash_append. }
  rewrite Htrailing.
  destruct (String.concat "/" (segments ++ m :: more)) eqn:E; [congruence|].
  unfold absolute. rewrite E. now rewrite append_empty_r.
Qed.

Lemma absolute_app segments more :
  segments <> [] -> more <> [] ->
  absolute (segments ++ more) = absolute segments +:+ "/" +:+ String.concat "/" more.
Proof.
  intros Hs Hm. unfold absolute. rewrite append_assoc. f_equal.
  induction segments as [|s l IH]; [congruence|]. clear Hs.
  destruct l as [|s' l].
  - destruct more as [|m more]; [congruence | reflexivity].
  - change (String.concat "/" ((s :: s' :: l) ++ more))
      with (s +:+ "/" +:+ String.concat "/" ((s' :: l) ++ more)).
    rewrite IH by discriminate.
    change (String.concat "/" (s :: s' :: l)) with (s +:+ "/" +:+ String.concat "/" (s' :: l)).
    now rewrite !append_assoc.
Qed.

Lemma clean_android_literals :
  Forall clean ["android"; "app"; "build.gradle"] /\
  Forall clean ["android"; "app"; "src"; "main"; "AndroidManifest.xml"].
Proof.
  split; repeat (constructor; [vm_compute; repeat split; discriminate|]); constructor.
Qed.

(** For a project directory that is an absolute, normalized path other
    than the root, [path.join] puts the fixed segments after it. *)
Lemma getAndroidBuildGradlePath_normalized segments :
  Forall clean segments -> segments <> [] ->
  ExpoUpdates.getAndroidBuildGradlePath (absolute segments) =
  absolute segments +:+ "/android/app/build.gradle".
Proof.
  intros Hc Hne. destruct clean_android_literals as [Hg _].
  unfold ExpoUpdates.getAndroidBuildGradlePath.
  rewrite join_absolute_clean by (assumption || discriminate).
  now rewrite absolute_app by (assumption || discriminate).
Qed.

Lemma getAndroidManifestPath_normalized segments :
  Forall clean segments -> segments <> [] ->
  ExpoUpdates.getAndroidManifestPath (absolute segments) =
  absolute segments +:+ "/android/app/src/main/AndroidManifest.xml".
Proof.
  intros Hc Hne. destruct clean_android_literals as [_ Hm].
  unfold ExpoUpdates.getAndroidManifestPath.
  rewrite join_absolute_clean by (assumption || discriminate).
  now rewrite absolute_app by (assumption || discriminate).
Qed.

(** X24.  For a project directory that is an absolute, normalized path
    other than the root, the path that [path.join] gives for build.gradle
    and for the manifest is the project directory followed by the fixed
    segments: the text that the error messages of
    [getAndroidBuildGradleContent] and [getAndroidManifest] carry. *)
Theorem android_paths_derivation projectSegments :
  Forall clean projectSegments -> projectSegments <> [] ->
  getAndroidBuildGradlePath (absolute projectSegments) =
  absolute (projectSegments ++ ["android"; "app"; "build.gradle"]) /\
  ExpoUpdates.getAndroidBuildGradlePath (absolute projectSegments) =
  getAndroidBuildGradlePath (absolute projectSegments) /\
  getAndroidManifestPath (absolute projectSegments) =
  absolute (projectSegments ++ ["android"; "app"; "src"; "main"; "AndroidManifest.xml"]) /\
  ExpoUpdates.getAndroidManifestPath (absolute projectSegments) =
  getAndroidManifestPath (absolute projectSegments).
Proof.
  intros Hc Hne.
  assert (Hlit : forall l, Forall (fun s => In s ["android"; "app"; "build.gradle"; "src";
                                                 "main"; "AndroidManifest.xml"]) l ->
                           Forall clean l).
  { intros l Hl. eapply Forall_impl; [exact Hl|]. intros s Hin. cbv beta in Hin.
    simpl in Hin.
    repeat (destruct Hin as [<-|Hin];
            [vm_compute; repeat split; discriminate|]). destruct Hin. }
  unfold getAndroidBuildGradlePath, getAndroidManifestPath,
    ExpoUpdates.getAndroidBuildGradlePath, ExpoUpdates.getAndroidManifestPath.
  rewrite !join_absolute_clean; try assumption; try discriminate.
  - repeat split; reflexivity.
  - apply Hlit. repeat (constructor; [simpl; tauto|]). constructor.
  - apply Hlit. repeat (constructor; [simpl; tauto|]). constructor.
Qed.

Lemma android_paths_derivation_witness :
  getAndroidBuildGradlePath "/home/alice/myapp" =
  "/home/alice/myapp/android/app/build.gradle" /\
  ExpoUpdates.getAndroidManifestPath "/home/alice/myapp" =
  getAndroidManifestPath "/home/alice/myapp".
Proof.
  assert (Hc : Forall clean ["home"; "alice"; "myapp"])
    by (repeat (constructor; [vm_compute; repeat split; discriminate|]); constructor).
  destruct (android_paths_derivation ["home"; "alice"; "myapp"] Hc ltac:(discriminate))
    as (Hgradle & _ & _ & Hmanifest).
  split; [exact Hgradle | exact Hmanifest].
Defined.

End PathFacts.
(** ** The DOM tree *)

Section DomFacts.

Import Dom Spec.

(** Induction on a tree, with the hypothesis for every child. *)
Lemma Node_induction (P : Node -> Prop) :
  (forall data, P (Text data)) ->
  (forall data, P (Comment data)) ->
  (forall t a c, Forall P c -> P (Element t a c)) ->
  forall n, P n.
Proof.
  intros HText HComment HElement.
  fix IH 1. intros [data|data|t a c].
  - apply HText.
  - apply HComment.
  - apply HElement. induction c as [|m c IHc]; constructor; [apply IH | exact IHc].
Qed.

Lemma firstByTagName_Element tag t a c :
  firstByTagName tag (Element t a c) =
  if String.eqb t tag then Some (Element t a c) else firstByTagNameIn tag c.
Proof.
  simpl. destruct (String.eqb t tag); [reflexivity|].
  induction c as [|m c IHc]; simpl; [reflexivity|].
  destruct (firstByTagName tag m); [reflexivity | exact IHc].
Qed.

Lemma mutateFirst_Element tag f t a c :
  mutateFirst tag f (Element t a c) =
  if String.eqb t tag then f (Element t a c) else Element t a (mutateFirstIn tag f c).
Proof.
  simpl. destruct (String.eqb t tag); [reflexivity|]. f_equal.
  induction c as [|m c IHc]; simpl; [reflexivity|].
  destruct (firstByTagName tag m); [reflexivity | now rewrite IHc].
Qed.

(** What [getElementsByTagName] finds is an element with that tag name. *)
Lemma firstByTagName_found tag n r :
  firstByTagName tag n = Some r -> exists a c, r = Element tag a c.
Proof.
  revert r. induction n as [data|data|t a c IHc] using Node_induction; intros r.
  - discriminate.
  - discriminate.
  - rewrite firstByTagName_Element. destruct (String.eqb t tag) eqn:E.
    + apply String.eqb_eq in E. subst t. intros [= <-]. now exists a, c.
    + clear E. induction IHc as [|m c Hm _ IH]; simpl; [discriminate|].
      destruct (firstByTagName tag m) as [r'|] eqn:Em; [|exact IH].
      intros [= <-]. now apply Hm.
Qed.

Lemma firstByTagNameIn_found tag l r :
  firstByTagNameIn tag l = Some r -> exists a c, r = Element tag a c.
Proof.
  induction l as [|m l IH]; simpl; [discriminate|].
  destruct (firstByTagName tag m) as [r'|] eqn:Em; [|exact IH].
  intros [= <-]. now apply firstByTagName_found with m.
Qed.

Lemma firstByTagName_mutateFirst tag f n :
  keeps_tag tag f ->
  firstByTagName tag (mutateFirst tag f n) = option_map f (firstByTagName tag n).
Proof.
  intros Hf. induction n as [data|data|t a c IHc] using Node_induction;
    [reflexivity | reflexivity |].
  rewrite mutateFirst_Element, firstByTagName_Element.
  destruct (String.eqb t tag) eqn:E.
  - apply String.eqb_eq in E. subst t. simpl.
    destruct (Hf a c) as (a' & c' & ->).
    rewrite firstByTagName_Element, String.eqb_refl. reflexivity.
  - rewrite firstByTagName_Element, E.
    induction IHc as [|m c Hm _ IH]; simpl; [reflexivity|].
    destruct (firstByTagName tag m) as [r|] eqn:Em; simpl.
    + rewrite Hm. reflexivity.
    + rewrite Em. exact IH.
Qed.

Lemma firstByTagNameIn_mutateFirstIn tag f l :
  keeps_tag tag f ->
  firstByTagNameIn tag (mutateFirstIn tag f l) = option_map f (firstByTagNameIn tag l).
Proof.
  intros Hf. induction l as [|m l IH]; simpl; [reflexivity|].
  destruct (firstByTagName tag m) as [r|] eqn:Em; simpl.
  - rewrite (firstByTagName_mutateFirst _ _ _ Hf), Em. reflexivity.
  - rewrite Em. exact IH.
Qed.

(** Only the element that is found is mutated. *)
Lemma mutateFirst_ext tag f g n r :
  firstByTagName tag n = Some r -> f r = g r ->
  mutateFirst tag f n = mutateFirst tag g n.
Proof.
  revert r. induction n as [data|data|t a c IHc] using Node_induction; intros r;
    [discriminate | discriminate |].
  rewrite firstByTagName_Element, !mutateFirst_Element.
  destruct (String.eqb t tag) eqn:E.
  - intros [= <-] Hfg. exact Hfg.
  - intros Hfound Hfg. f_equal. revert Hfound.
    induction IHc as [|m c Hm _ IH]; simpl; [discriminate|].
    destruct (firstByTagName tag m) as [r'|] eqn:Em.
    + intros [= ->]. f_equal. now apply Hm with r.
    + intros Hfound. f_equal. now apply IH.
Qed.

Lemma mutateFirstIn_ext tag f g l r :
  firstByTagNameIn tag l = Some r -> f r = g r ->
  mutateFirstIn tag f l = mutateFirstIn tag g l.
Proof.
  induction l as [|m l IH]; simpl; [discriminate|].
  destruct (firstByTagName tag m) as [r'|] eqn:Em.
  - intros [= ->] Hfg. f_equal. now apply mutateFirst_ext with r.
  - intros Hfound Hfg. f_equal. now apply IH.
Qed.

Lemma mutateFirst_id tag n : mutateFirst tag (fun x => x) n = n.
Proof.
  induction n as [data|data|t a c IHc] using Node_induction;
    [reflexivity | reflexivity |].
  rewrite mutateFirst_Element. destruct (String.eqb t tag); [reflexivity|]. f_equal.
  induction IHc as [|m c Hm _ IH]; simpl; [reflexivity|].
  destruct (firstByTagName tag m); [now rewrite Hm | now rewrite IH].
Qed.

Lemma mutateFirstIn_id tag l : mutateFirstIn tag (fun x => x) l = l.
Proof.
  induction l as [|m l IH]; simpl; [reflexivity|].
  destruct (firstByTagName tag m); [now rewrite mutateFirst_id | now rewrite IH].
Qed.

Lemma mutateFirst_compose tag f g n :
  keeps_tag tag f ->
  mutateFirst tag g (mutateFirst tag f n) = mutateFirst tag (fun x => g (f x)) n.
Proof.
  intros Hf. induction n as [data|data|t a c IHc] using Node_induction;
    [reflexivity | reflexivity |].
  rewrite !mutateFirst_Element. destruct (String.eqb t tag) eqn:E.
  - apply String.eqb_eq in E. subst t. destruct (Hf a c) as (a' & c' & ->).
    rewrite mutateFirst_Element, String.eqb_refl. reflexivity.
  - rewrite mutateFirst_Element, E. f_equal.
    induction IHc as [|m c Hm _ IH]; simpl; [reflexivity|].
    destruct (firstByTagName tag m) as [r|] eqn:Em; simpl.
    + rewrite (firstByTagName_mutateFirst _ _ _ Hf), Em. simpl. now rewrite Hm.
    + rewrite Em. now rewrite IH.
Qed.

Lemma mutateFirstIn_compose tag f g l :
  keeps_tag tag f ->
  mutateFirstIn tag g (mutateFirstIn tag f l) = mutateFirstIn tag (fun x => g (f x)) l.
Proof.
  intros Hf. induction l as [|m l IH]; simpl; [reflexivity|].
  destruct (firstByTagName tag m) as [r|] eqn:Em; simpl.
  - rewrite (firstByTagName_mutateFirst _ _ _ Hf), Em. simpl.
    now rewrite (mutateFirst_compose _ _ _ _ Hf).
  - rewrite Em. now rewrite IH.
Qed.

Lemma keeps_tag_setChildNodes tag g :
  keeps_tag tag (fun app => setChildNodes app (g (childNodes app))).
Proof. intros a c. now exists a, (g c). Qed.

Lemma application_withChildren g document :
  getElementsByTagName0 (withChildren g document) "application" =
  option_map (fun app => setChildNodes app (g (childNodes app)))
             (getElementsByTagName0 document "application").
Proof.
  unfold getElementsByTagName0, withChildren, mutateElement0. simpl.
  apply firstByTagNameIn_mutateFirstIn, keeps_tag_setChildNodes.
Qed.

Lemma withChildren_compose g1 g2 document :
  withChildren g2 (withChildren g1 document) = withChildren (fun c => g2 (g1 c)) document.
Proof.
  unfold withChildren, mutateElement0. simpl. f_equal.
  rewrite mutateFirstIn_compose by apply keeps_tag_setChildNodes.
  destruct (firstByTagNameIn "application" (documentNodes document)) as [app|] eqn:E.
  - apply mutateFirstIn_ext with app; [exact E|].
    destruct (firstByTagNameIn_found _ _ _ E) as (a & c & ->). reflexivity.
  - clear -E. induction (documentNodes document) as [|m l IH]; simpl in *; [reflexivity|].
    destruct (firstByTagName "application" m); [discriminate|]. now rewrite IH.
Qed.

(** A mutation that changes nothing on the element leaves the document as
    it is. *)
Lemma mutateElement0_fixed document tag f app :
  getElementsByTagName0 document tag = Some app -> f app = app ->
  mutateElement0 document tag f = document.
Proof.
  intros Happ Hf. unfold mutateElement0. destruct document as [l]. simpl in *. f_equal.
  rewrite (mutateFirstIn_ext tag f (fun x => x) l app Happ Hf).
  apply mutateFirstIn_id.
Qed.

Lemma mutateElement0_ext document tag f g app :
  getElementsByTagName0 document tag = Some app -> f app = g app ->
  mutateElement0 document tag f = mutateElement0 document tag g.
Proof.
  intros Happ Hfg. unfold mutateElement0. f_equal.
  now apply mutateFirstIn_ext with app.
Qed.

End DomFacts.

(** ** The meta-data children of the application element *)

Section MetadataFacts.

Import JsString JsValueOps Dom Spec ExpoUpdates.

Lemma isMetadataNamed_Element name n :
  isMetadataNamed name n = true ->
  exists a c, n = Element "meta-data" a c /\ a !! "android:name" = Some name.
Proof.
  unfold isMetadataNamed. destruct n as [data|data|t a c]; simpl; try discriminate.
  intros Hn. apply andb_prop in Hn as [Ht Ha].
  apply String.eqb_eq in Ht. subst t.
  destruct (a !! "android:name") as [v|] eqn:E; [|discriminate].
  apply String.eqb_eq in Ha. subst v. now exists a, c.
Qed.

(** Assigning android:value leaves the key of a record alone. *)
Lemma isMetadataNamed_setValue name n value :
  isMetadataNamed name (setAttribute n "android:value" value) = isMetadataNamed name n.
Proof.
  destruct n as [data|data|t a c]; try reflexivity.
  unfold isMetadataNamed. simpl.
  rewrite lookup_insert_ne by discriminate. reflexivity.
Qed.

(** A record has one key. *)
Lemma isMetadataNamed_other k k' n :
  k <> k' -> isMetadataNamed k n = true -> isMetadataNamed k' n = false.
Proof.
  intros Hne Hk. destruct (isMetadataNamed_Element _ _ Hk) as (a & c & -> & Ha).
  unfold isMetadataNamed. simpl. rewrite Ha.
  apply String.eqb_neq in Hne. now rewrite Hne.
Qed.

Lemma getAttribute_setAttribute n k v :
  (exists t a c, n = Element t a c) -> getAttribute (setAttribute n k v) k = v.
Proof. intros (t & a & c & ->). simpl. now rewrite lookup_insert_eq. Qed.

Lemma isMetadataNamed_metadataElement k k' v :
  isMetadataNamed k' (metadataElement k v) = String.eqb k k'.
Proof.
  unfold isMetadataNamed, metadataElement. simpl.
  rewrite lookup_insert_ne by discriminate. rewrite lookup_insert_eq. reflexivity.
Qed.

Lemma find_app p (l1 l2 : list Node) :
  find p (l1 ++ l2) = match find p l1 with Some n => Some n | None => find p l2 end.
Proof.
  induction l1 as [|n l1 IH]; simpl; [reflexivity|].
  destruct (p n); [reflexivity | exact IH].
Qed.

(** After [updateAndroidMetadata], the record for the key is found and
    carries the value. *)
Lemma recorded_upsert k v cs : recorded k (upsert k v cs) = Some v.
Proof.
  unfold recorded, upsert.
  destruct (find (isMetadataNamed k) cs) as [m|] eqn:E.
  - induction cs as [|n cs IH]; simpl in *; [discriminate|].
    destruct (isMetadataNamed k n) eqn:En.
    + simpl. rewrite isMetadataNamed_setValue, En. simpl. f_equal.
      apply getAttribute_setAttribute.
      destruct (isMetadataNamed_Element _ _ En) as (a & c & -> & _). eauto.
    + simpl. rewrite En. now apply IH.
  - rewrite find_app, E. simpl.
    rewrite isMetadataNamed_metadataElement, String.eqb_refl.
    unfold metadataElement. simpl. rewrite ?lookup_insert_eq. reflexivity.
Qed.

(** [updateAndroidMetadata] for one key leaves the records of the other
    keys as they are. *)
Lemma find_upsert_other k k' v cs :
  k <> k' -> find (isMetadataNamed k') (upsert k v cs) = find (isMetadataNamed k') cs.
Proof.
  intros Hne. unfold upsert.
  destruct (find (isMetadataNamed k) cs) as [m|] eqn:E.
  - clear E. induction cs as [|n cs IH]; simpl; [reflexivity|].
    destruct (isMetadataNamed k n) eqn:En; simpl.
    + rewrite isMetadataNamed_setValue.
      now rewrite (isMetadataNamed_other _ _ _ Hne En).
    + destruct (isMetadataNamed k' n); [reflexivity | exact IH].
  - rewrite find_app. destruct (find (isMetadataNamed k') cs); [reflexivity|].
    simpl. rewrite isMetadataNamed_metadataElement.
    apply String.eqb_neq in Hne. now rewrite Hne.
Qed.

Lemma records_upsert_other k k' v cs :
  k <> k' -> records k' (upsert k v cs) = records k' cs.
Proof.
  intros Hne. unfold records, upsert.
  destruct (find (isMetadataNamed k) cs) as [m|] eqn:E.
  - clear E. induction cs as [|n cs IH]; simpl; [reflexivity|].
    destruct (isMetadataNamed k n) eqn:En; simpl.
    + rewrite isMetadataNamed_setValue.
      now rewrite (isMetadataNamed_other _ _ _ Hne En).
    + destruct (isMetadataNamed k' n); simpl; now rewrite IH.
  - rewrite List.filter_app, List.length_app. simpl. rewrite isMetadataNamed_metadataElement.
    apply String.eqb_neq in Hne. rewrite Hne. simpl. lia.
Qed.

(** [removeAndroidMetadata] takes one record away, the first. *)
Lemma records_remove k cs : records k (remove k cs) = pred (records k cs).
Proof.
  unfold records, remove. induction cs as [|n cs IH]; simpl; [reflexivity|].
  destruct (isMetadataNamed k n) eqn:En; simpl; [reflexivity|].
  now rewrite En, IH.
Qed.

Lemma remove_absent k cs : find (isMetadataNamed k) cs = None -> remove k cs = cs.
Proof.
  unfold remove. induction cs as [|n cs IH]; simpl; [reflexivity|].
  destruct (isMetadataNamed k n); [discriminate|]. intros Hf. now rewrite IH.
Qed.

(** Assigning the same value twice is assigning it once. *)
Lemma upsert_idempotent k v cs : upsert k v (upsert k v cs) = upsert k v cs.
Proof.
  pose proof (recorded_upsert k v cs) as Hrec. unfold recorded in Hrec.
  unfold upsert at 1.
  destruct (find (isMetadataNamed k) (upsert k v cs)) as [m|]; [clear Hrec | discriminate].
  unfold upsert. destruct (find (isMetadataNamed k) cs) as [m0|] eqn:E.
  - clear E. induction cs as [|n cs IH]; simpl; [reflexivity|].
    destruct (isMetadataNamed k n) eqn:En; simpl.
    + rewrite isMetadataNamed_setValue, En.
      destruct (isMetadataNamed_Element _ _ En) as (a & c & -> & _). simpl.
      now rewrite insert_insert_eq.
    + rewrite En. now rewrite IH.
  - assert (Hpre : forall tl,
               mutateFound (isMetadataNamed k)
                 (fun m => setAttribute m "android:value" v) (cs ++ tl) =
               cs ++ mutateFound (isMetadataNamed k)
                       (fun m => setAttribute m "android:value" v) tl).
    { intros tl. induction cs as [|n cs IH]; simpl in *; [reflexivity|].
      destruct (isMetadataNamed k n); [discriminate|]. now rewrite IH. }
    rewrite Hpre. simpl. rewrite isMetadataNamed_metadataElement, String.eqb_refl.
    unfold metadataElement. simpl. now rewrite insert_insert_eq.
Qed.

Lemma truthy_opt_narrow o :
  truthy_opt o = match narrow o with Some _ => true | None => false end.
Proof. destruct o as [s|]; [|reflexivity]. simpl. now destruct (truthy s). Qed.

Lemma android_keys_distinct :
  ExpoAndroidMetadata.SDK_VERSION <> ExpoAndroidMetadata.RUNTIME_VERSION /\
  ExpoAndroidMetadata.SDK_VERSION <> ExpoAndroidMetadata.UPDATE_URL /\
  ExpoAndroidMetadata.RUNTIME_VERSION <> ExpoAndroidMetadata.UPDATE_URL.
Proof. repeat split; discriminate. Qed.

(** Once patched for valid options, the children are reported as set. *)
Lemma synced_patch options cs : valid options = true -> synced options (patch options cs) = true.
Proof.
  destruct android_keys_distinct as (Hsr & Hsu & Hru).
  intros Hvalid. unfold synced, patch.
  pose proof (recorded_upsert ExpoAndroidMetadata.UPDATE_URL (updateUrl options)) as Hurl.
  unfold recorded in Hurl.
  destruct options as [s u|r u]; simpl in *; rewrite Hvalid.
  - match goal with |- context [upsert ?k u ?l] => specialize (Hurl l) end.
    rewrite find_upsert_other by congruence.
    pose proof (recorded_upsert ExpoAndroidMetadata.SDK_VERSION s
                  (remove ExpoAndroidMetadata.RUNTIME_VERSION cs)) as Hs.
    unfold recorded in Hs.
    destruct (find (isMetadataNamed ExpoAndroidMetadata.SDK_VERSION) _) as [m|];
      [|discriminate].
    injection Hs as ->. simpl. rewrite String.eqb_refl. simpl.
    destruct (find (isMetadataNamed ExpoAndroidMetadata.UPDATE_URL) _) as [m'|];
      [|discriminate].
    injection Hurl as ->. apply String.eqb_refl.
  - match goal with |- context [upsert ?k u ?l] => specialize (Hurl l) end.
    rewrite find_upsert_other by congruence.
    pose proof (recorded_upsert ExpoAndroidMetadata.RUNTIME_VERSION r
                  (remove ExpoAndroidMetadata.SDK_VERSION cs)) as Hr.
    unfold recorded in Hr.
    destruct (find (isMetadataNamed ExpoAndroidMetadata.RUNTIME_VERSION) _) as [m|];
      [|discriminate].
    injection Hr as ->. simpl. rewrite String.eqb_refl. simpl.
    destruct (find (isMetadataNamed ExpoAndroidMetadata.UPDATE_URL) _) as [m'|];
      [|discriminate].
    injection Hurl as ->. apply String.eqb_refl.
Qed.

(** Patching again changes nothing, whether or not the children are
    reported as set in between. *)
Lemma patch_again options cs :
  synced options (patch options cs) = false ->
  patch options (patch options cs) = patch options cs.
Proof.
  intros Hns.
  destruct (valid options) eqn:Hv; [now rewrite synced_patch in Hns|].
  unfold patch. destruct options as [s u|r u]; simpl in *; rewrite Hv;
    apply upsert_idempotent.
Qed.

End MetadataFacts.

(** ** The Android pass *)

Section AndroidPass.

Import JsString JsValueOps Dom Spec ExpoUpdates.

Lemma isAndroidMetadataSet_application document options app :
  getElementsByTagName0 document "application" = Some app ->
  isAndroidMetadataSet document options = Ok (synced options (childNodes app)).
Proof. intros Happ. unfold isAndroidMetadataSet. rewrite Happ. reflexivity. Qed.

Lemma isAndroidMetadataSet_no_application document options :
  getElementsByTagName0 document "application" = None ->
  isAndroidMetadataSet document options =
  Throw (TypeError "Cannot read property 'childNodes' of undefined").
Proof. intros Happ. unfold isAndroidMetadataSet. rewrite Happ. reflexivity. Qed.

Lemma updateAndroidMetadata_application document name value app :
  getElementsByTagName0 document "application" = Some app ->
  updateAndroidMetadata document name value = Ok (withChildren (upsert name value) document).
Proof.
  intros Happ. unfold updateAndroidMetadata. rewrite Happ. simpl.
  destruct (firstByTagNameIn_found _ _ _ Happ) as (a & c & ->). simpl in *.
  unfold mret, Result_ret, withChildren.
  destruct (find (isMetadataNamed name) c) as [m|] eqn:E; f_equal.
  - apply mutateElement0_ext with (Element "application" a c); [exact Happ|].
    simpl. unfold upsert. now rewrite E.
  - apply mutateElement0_ext with (Element "application" a c); [exact Happ|].
    simpl. unfold upsert. rewrite E. now rewrite <- !app_assoc.
Qed.

Lemma removeAndroidMetadata_application document name app :
  getElementsByTagName0 document "application" = Some app ->
  removeAndroidMetadata document name = Ok (withChildren (remove name) document).
Proof.
  intros Happ. unfold removeAndroidMetadata. rewrite Happ. simpl.
  destruct (firstByTagNameIn_found _ _ _ Happ) as (a & c & ->). simpl in *.
  unfold mret, Result_ret, withChildren.
  destruct (find (isMetadataNamed name) c) as [m|] eqn:E; [reflexivity | f_equal].
  symmetry. apply mutateElement0_fixed with (Element "application" a c); [exact Happ|].
  simpl. now rewrite remove_absent.
Qed.

Lemma application_withChildren_Some g document app :
  getElementsByTagName0 document "application" = Some app ->
  getElementsByTagName0 (withChildren g document) "application" =
  Some (setChildNodes app (g (childNodes app))).
Proof. intros Happ. now rewrite application_withChildren, Happ. Qed.

(** What [configureUpdatesAndroid] returns and leaves on disk. *)
Lemma configureUpdatesAndroid_run projectDir options d :
  configureUpdatesAndroid projectDir options d =
  match buildGradle d with
  | None =>
      (Throw (Error ("Couldn't find gradle build script at "
                     +:+ getAndroidBuildGradlePath projectDir)), d)
  | Some content =>
      match androidManifest d with
      | None =>
          (Throw (Error ("Couldn't find Android manifest at "
                         +:+ getAndroidManifestPath projectDir)),
           afterGradle content d)
      | Some document =>
          match getElementsByTagName0 document "application" with
          | None =>
              (Throw (TypeError "Cannot read property 'childNodes' of undefined"),
               afterGradle content d)
          | Some app =>
              (Ok tt, afterManifest options document (childNodes app) (afterGradle content d))
          end
      end
  end.
Proof.
  unfold configureUpdatesAndroid, getAndroidBuildGradleContent, getAndroidManifest.
  unfold mbind, IO_bind, gets, throw, lift, mret, IO_ret.
  destruct (buildGradle d) as [content|] eqn:Eg; [|reflexivity].
  assert (Hm : androidManifest (afterGradle content d) = androidManifest d).
  { unfold afterGradle. now destruct (hasBuildScriptApply content). }
  assert (Hstep :
    (if negb (hasBuildScriptApply content)
     then Fs.writeBuildGradle
            (content +:+ NL +:+ "// Integration with Expo updates" +:+ NL
             +:+ androidBuildScript +:+ NL)
     else fun d0 => (Ok tt, d0)) d = (Ok tt, afterGradle content d)).
  { unfold afterGradle, gradleBlock. now destruct (hasBuildScriptApply content). }
  rewrite Hstep, Hm.
  destruct (androidManifest d) as [document|] eqn:Em; [|reflexivity].
  destruct (getElementsByTagName0 document "application") as [app|] eqn:Ea.
  - rewrite (isAndroidMetadataSet_application _ _ _ Ea).
    unfold afterManifest. destruct (synced options (childNodes app)); [reflexivity|].
    simpl.
    assert (Hpatch :
      (x ← (match narrow (runtimeVersion options), narrow (sdkVersion options) with
            | Some runtimeVersion, _ =>
                x ← removeAndroidMetadata document ExpoAndroidMetadata.SDK_VERSION;
                updateAndroidMetadata x ExpoAndroidMetadata.RUNTIME_VERSION runtimeVersion
            | None, Some sdkVersion =>
                x ← removeAndroidMetadata document ExpoAndroidMetadata.RUNTIME_VERSION;
                updateAndroidMetadata x ExpoAndroidMetadata.SDK_VERSION sdkVersion
            | None, None => mret document
            end);
       updateAndroidMetadata x ExpoAndroidMetadata.UPDATE_URL (updateUrl options))
      = Ok (withChildren (patch options) document)).
    { unfold patch.
      destruct (narrow (runtimeVersion options)) as [rv|];
        [|destruct (narrow (sdkVersion options)) as [sv|]].
      - rewrite (removeAndroidMetadata_application _ _ _ Ea). simpl.
        rewrite (updateAndroidMetadata_application _ _ _ _
                   (application_withChildren_Some _ _ _ Ea)). simpl.
        erewrite updateAndroidMetadata_application
          by (rewrite !application_withChildren, Ea; reflexivity).
        now rewrite !withChildren_compose.
      - rewrite (removeAndroidMetadata_application _ _ _ Ea). simpl.
        rewrite (updateAndroidMetadata_application _ _ _ _
                   (application_withChildren_Some _ _ _ Ea)). simpl.
        erewrite updateAndroidMetadata_application
          by (rewrite !application_withChildren, Ea; reflexivity).
        now rewrite !withChildren_compose.
      - simpl. now rewrite (updateAndroidMetadata_application _ _ _ _ Ea). }
    unfold mbind, mret in Hpatch.
    match type of Hpatch with
    | Result_bind _ _ _ ?X = _ => destruct X as [x|e]
    end; simpl in Hpatch; [|discriminate].
    rewrite Hpatch. reflexivity.
  - rewrite (isAndroidMetadataSet_no_application _ _ Ea). reflexivity.
Qed.

End AndroidPass.

(** ** The iOS pass *)

Section IOSPass.

Import JsString JsValueOps Spec ExpoUpdates.

Lemma find_assignShellScript expected script l p :
  Xcode.find expected l = Some p ->
  Xcode.find expected (Xcode.assignShellScript expected script l) =
  Some (Xcode.mkBuildPhase (Xcode.name p) script).
Proof.
  induction l as [|[c|q] l IH]; simpl; [discriminate | exact IH |].
  destruct (Xcode.nameIs expected q) eqn:E; simpl.
  - intros [= ->]. unfold Xcode.nameIs in *. simpl. now rewrite E.
  - intros Hf. rewrite E. now apply IH.
Qed.

Lemma getBundleReactNativePhase_assign project script p :
  getBundleReactNativePhase project = Ok p ->
  getBundleReactNativePhase (assignBundleReactNativeScript project script) =
  Ok (Xcode.mkBuildPhase (Xcode.name p) script).
Proof.
  unfold getBundleReactNativePhase, assignBundleReactNativeScript. simpl.
  destruct (Xcode.PBXShellScriptBuildPhase project) as [section|]; simpl; [|discriminate].
  destruct (Xcode.find bundleReactNativeName section) as [q|] eqn:E; [|discriminate].
  intros [= ->]. now rewrite (find_assignShellScript _ _ _ _ E).
Qed.

(** The build phase of the project that is written back contains the
    include fragment. *)
Lemma wiredProject_includes project p :
  getBundleReactNativePhase project = Ok p ->
  exists p', getBundleReactNativePhase (wiredProject project p) = Ok p' /\
             includes (Xcode.shellScript p') iOSBuildScript = true.
Proof.
  intros Hp. unfold wiredProject.
  destruct (includes (Xcode.shellScript p) iOSBuildScript) eqn:E; cbn [negb].
  - now exists p.
  - eexists. split; [apply getBundleReactNativePhase_assign, Hp|].
    cbn [Xcode.shellScript]. apply includes_append.
Qed.

(** A project whose script has the fragment is written back as parsed. *)
Lemma wiredProject_fixed project p :
  includes (Xcode.shellScript p) iOSBuildScript = true -> wiredProject project p = project.
Proof. intros Hi. unfold wiredProject. now rewrite Hi. Qed.

Lemma assoc_head {A} k (v : A) l : assoc k ((k, v) :: l) = Some v.
Proof. simpl. now rewrite String.eqb_refl. Qed.

Lemma overwrite_head path project x l :
  Fs.overwrite path project ((path, x) :: l) = (path, project) :: l.
Proof. simpl. now rewrite String.eqb_refl. Qed.

(** What [configureUpdatesIOS] returns and leaves on disk. *)
Lemma configureUpdatesIOS_run projectDir options d :
  configureUpdatesIOS projectDir options d =
  match xcodeProjects d with
  | [] => (Throw (Error "Couldn't find Xcode project"), d)
  | (path, project) :: rest =>
      if truthy path then
        match getBundleReactNativePhase project with
        | Ok bundleReactNative =>
            (Ok tt, afterIOS (items options) (createdDir d) path project
                             bundleReactNative rest d)
        | Throw e => (Throw e, d)
        end
      else (Throw (Error "Couldn't find Xcode project"), d)
  end.
Proof.
  unfold configureUpdatesIOS, getPbxprojPath, getXcodeProject.
  unfold mbind, IO_bind, gets, throw, lift, mret, IO_ret.
  destruct (xcodeProjects d) as [|[path project] rest] eqn:Ex; simpl; [reflexivity|].
  destruct (truthy path); [|reflexivity].
  rewrite Ex, assoc_head.
  destruct (getBundleReactNativePhase project) as [p|e]; [|reflexivity].
  unfold Fs.writePbxproj, Fs.mkdirpSupporting, Fs.writeExpoPlist, Fs.gitAddAsync, modify,
    record, afterIOS, createdDir, wiredProject. simpl.
  rewrite Ex, overwrite_head.
  destruct (supportingDir d); simpl; rewrite <- ?app_assoc; reflexivity.
Qed.

(** What [isUpdatesConfiguredIOS] returns; it leaves the disk alone. *)
Lemma isUpdatesConfiguredIOS_run projectDir options d :
  isUpdatesConfiguredIOS projectDir options d =
  match xcodeProjects d with
  | [] => (Throw (Error "Couldn't find Xcode project"), d)
  | (path, project) :: rest =>
      if truthy path then
        match getBundleReactNativePhase project with
        | Ok bundleReactNative =>
            if includes (Xcode.shellScript bundleReactNative) iOSBuildScript then
              match expoPlist d with
              | Some expoPlistData => (plistSynced options expoPlistData, d)
              | None => (Ok false, d)
              end
            else (Ok false, d)
        | Throw e => (Throw e, d)
        end
      else (Throw (Error "Couldn't find Xcode project"), d)
  end.
Proof.
  unfold isUpdatesConfiguredIOS, getPbxprojPath, getXcodeProject.
  unfold mbind, IO_bind, gets, throw, lift, mret, IO_ret.
  destruct (xcodeProjects d) as [|[path project] rest] eqn:Ex; simpl; [reflexivity|].
  destruct (truthy path); [|reflexivity].
  rewrite Ex, assoc_head.
  destruct (getBundleReactNativePhase project) as [p|e]; [|reflexivity].
  destruct (includes (Xcode.shellScript p) iOSBuildScript); simpl; [|reflexivity].
  destruct (expoPlist d) as [data|]; [|reflexivity].
  unfold plistSynced, mbind, mret, Result_bind, Result_ret.
  destruct (truthy_opt (runtimeVersion options)).
  - destruct (get data ExpoIOSMetadata.RUNTIME_VERSION) as [v|e]; [|reflexivity].
    destruct (strict_eq_opt v (runtimeVersion options)); [|reflexivity].
    destruct (get data ExpoIOSMetadata.UPDATE_URL) as [u|e]; [|reflexivity].
    now destruct (strict_eq_string u (updateUrl options)).
  - destruct (get data ExpoIOSMetadata.SDK_VERSION) as [v|e]; [|reflexivity].
    destruct (strict_eq_opt v (sdkVersion options)); [|reflexivity].
    destruct (get data ExpoIOSMetadata.UPDATE_URL) as [u|e]; [|reflexivity].
    now destruct (strict_eq_string u (updateUrl options)).
Qed.

(** The dictionary that [configureUpdatesIOS] builds passes the check of
    [isUpdatesConfiguredIOS] for the same options. *)
Lemma plistSynced_items options : plistSynced options (items options) = Ok true.
Proof.
  unfold plistSynced, items.
  destruct options as [s u|r u]; simpl.
  - now rewrite !String.eqb_refl.
  - destruct (truthy r); simpl; now rewrite !String.eqb_refl.
Qed.

Lemma strict_eq_string_iff v s : strict_eq_string v s = true <-> v = JString s.
Proof.
  destruct v; simpl; try (split; [discriminate | intros [=]]).
  rewrite String.eqb_eq. split; congruence.
Qed.

(** The answer of [isUpdatesConfiguredIOS] in terms of the entries. *)
Lemma plistSynced_iff options expoPlistData :
  valid options = true ->
  plistSynced options expoPlistData = Ok true <->
  get expoPlistData (iosKey options) = Ok (JString (versionOf options)) /\
  get expoPlistData ExpoIOSMetadata.UPDATE_URL = Ok (JString (updateUrl options)).
Proof.
  intros Hvalid. unfold plistSynced.
  destruct options as [s u|r u]; cbn [valid] in Hvalid;
    cbn [runtimeVersion sdkVersion updateUrl truthy_opt iosKey versionOf strict_eq_opt];
    rewrite ?Hvalid; unfold mbind, mret, Result_bind, Result_ret.
  - destruct (get expoPlistData ExpoIOSMetadata.SDK_VERSION) as [v|e];
      [|split; [discriminate | intros [[=] _]]].
    destruct (strict_eq_string v s) eqn:Ev.
    + apply strict_eq_string_iff in Ev. subst v.
      destruct (get expoPlistData ExpoIOSMetadata.UPDATE_URL) as [w|e];
        [|split; [discriminate | intros [_ [=]]]].
      destruct (strict_eq_string w u) eqn:Ew.
      * apply strict_eq_string_iff in Ew. now subst w.
      * split; [discriminate|]. intros [_ [= ->]]. simpl in Ew.
        rewrite String.eqb_refl in Ew. discriminate.
    + split; [discriminate|]. intros [[= ->] _]. simpl in Ev.
      rewrite String.eqb_refl in Ev. discriminate.
  - destruct (get expoPlistData ExpoIOSMetadata.RUNTIME_VERSION) as [v|e];
      [|split; [discriminate | intros [[=] _]]].
    destruct (strict_eq_string v r) eqn:Ev.
    + apply strict_eq_string_iff in Ev. subst v.
      destruct (get expoPlistData ExpoIOSMetadata.UPDATE_URL) as [w|e];
        [|split; [discriminate | intros [_ [=]]]].
      destruct (strict_eq_string w u) eqn:Ew.
      * apply strict_eq_string_iff in Ew. now subst w.
      * split; [discriminate|]. intros [_ [= ->]]. simpl in Ew.
        rewrite String.eqb_refl in Ew. discriminate.
    + split; [discriminate|]. intros [[= ->] _]. simpl in Ev.
      rewrite String.eqb_refl in Ev. discriminate.
Qed.

End IOSPass.

(** ** The entry points *)

Section EntryPoints.

Import JsString JsValueOps Dom Spec ExpoUpdates.

Lemma getConfigurationOptions_run env d :
  getConfigurationOptions env d = (resolved env, d).
Proof.
  unfold getConfigurationOptions, resolved, resolvedFor, updateUrlOf, missingVersionMessage.
  unfold mbind, IO_bind, try_catch, throw, lift, mret, IO_ret.
  destruct (ensureLoggedInAsync env) as [username|e]; [|reflexivity].
  destruct (narrow (Exp.runtimeVersion (exp env))) as [rv|]; [reflexivity|].
  now destruct (getExpoSDKVersion env).
Qed.

(** What [isUpdatesConfiguredAndroid] returns; it leaves the disk alone. *)
Lemma isUpdatesConfiguredAndroid_run projectDir options d :
  isUpdatesConfiguredAndroid projectDir options d =
  match buildGradle d with
  | None =>
      (Throw (Error ("Couldn't find gradle build script at "
                     +:+ getAndroidBuildGradlePath projectDir)), d)
  | Some content =>
      if hasBuildScriptApply content then
        match androidManifest d with
        | None =>
            (Throw (Error ("Couldn't find Android manifest at "
                           +:+ getAndroidManifestPath projectDir)), d)
        | Some document =>
            match getElementsByTagName0 document "application" with
            | None =>
                (Throw (TypeError "Cannot read property 'childNodes' of undefined"), d)
            | Some app => (Ok (synced options (childNodes app)), d)
            end
        end
      else (Ok false, d)
  end.
Proof.
  unfold isUpdatesConfiguredAndroid, getAndroidBuildGradleContent, getAndroidManifest.
  unfold mbind, IO_bind, gets, throw, lift, mret, IO_ret.
  destruct (buildGradle d) as [content|]; [|reflexivity].
  destruct (hasBuildScriptApply content); [|reflexivity]. cbn [negb].
  destruct (androidManifest d) as [document|]; [|reflexivity].
  destruct (getElementsByTagName0 document "application") as [app|] eqn:Ea.
  - rewrite (isAndroidMetadataSet_application _ _ _ Ea).
    now destruct (synced options (childNodes app)).
  - now rewrite (isAndroidMetadataSet_no_application _ _ Ea).
Qed.

Lemma isUpdatesConfigured_run env d :
  isUpdatesConfigured env d =
  if isExpoUpdatesInstalled env then
    match resolved env with
    | Ok options =>
        match isUpdatesConfiguredAndroid (projectDir env) options d with
        | (Ok true, d1) => isUpdatesConfiguredIOS (projectDir env) options d1
        | (Ok false, d1) => (Ok false, d1)
        | (Throw e, d1) => (Throw e, d1)
        end
    | Throw e => (Throw e, d)
    end
  else (Ok true, d).
Proof.
  unfold isUpdatesConfigured. destruct (isExpoUpdatesInstalled env); [|reflexivity].
  cbn [negb]. unfold mbind, IO_bind. rewrite getConfigurationOptions_run.
  destruct (resolved env) as [options|e]; [|reflexivity].
  destruct (isUpdatesConfiguredAndroid (projectDir env) options d) as [[[|]|e] d1];
    reflexivity.
Qed.

Lemma configureUpdatesAsync_run env d :
  configureUpdatesAsync env d =
  if isExpoUpdatesInstalled env then
    match resolved env with
    | Ok options =>
        match configureUpdatesAndroid (projectDir env) options d with
        | (Ok _, d1) =>
            match configureUpdatesIOS (projectDir env) options d1 with
            | (Ok _, d2) => (gitOutcome env, d2)
            | (Throw e, d2) => (Throw e, d2)
            end
        | (Throw e, d1) => (Throw e, d1)
        end
    | Throw e => (Throw e, d)
    end
  else (Ok tt, d).
Proof.
  unfold configureUpdatesAsync. destruct (isExpoUpdatesInstalled env); [|reflexivity].
  cbn [negb]. unfold mbind, IO_bind. rewrite getConfigurationOptions_run.
  destruct (resolved env) as [options|e]; [|reflexivity].
  destruct (configureUpdatesAndroid (projectDir env) options d) as [[[]|e] d1];
    [|reflexivity].
  destruct (configureUpdatesIOS (projectDir env) options d1) as [[[]|e] d2];
    [|reflexivity].
  unfold try_catch, lift, throw, gitOutcome.
  destruct (ensureGitStatusIsCleanAsync env) as [[]|[m|m| |m]]; try reflexivity.
  now destruct (reviewAndCommitChangesAsync env) as [[]|e].
Qed.

End EntryPoints.

(** ** The claims about the Gradle script and the options *)

Section GradleAndOptions.

Import JsString JsValueOps Dom Spec ExpoUpdates.

Lemma hasBuildScriptApply_iff content :
  hasBuildScriptApply content = true <->
  exists line,
    In line (split newline content) /\
    (line = androidBuildScript \/ line = replace_all_dquote androidBuildScript).
Proof.
  unfold hasBuildScriptApply. rewrite existsb_exists. split.
  - intros (line & Hin & Heq). exists line. split; [exact Hin|].
    apply orb_prop in Heq as [H|H]; apply String.eqb_eq in H; auto.
  - intros (line & Hin & [->| ->]); eexists; (split; [exact Hin|]);
      rewrite String.eqb_refl; [reflexivity | apply orb_true_r].
Qed.

(** After the block has been appended, the include line is found. *)
Lemma hasBuildScriptApply_appended content :
  hasBuildScriptApply (content +:+ gradleBlock) = true.
Proof.
  apply hasBuildScriptApply_iff. exists androidBuildScript. split; [|now left].
  apply In_split_iff. split; [vm_compute; repeat split; discriminate|].
  exists (content +:+ NL +:+ "// Integration with Expo updates" +:+ NL), NL.
  split; [|split].
  - unfold gradleBlock. now rewrite !append_assoc.
  - right. exists (content +:+ NL +:+ "// Integration with Expo updates").
    now rewrite !append_assoc.
  - right. now exists "".
Qed.

Lemma writesTo_record file e d :
  writesTo file (record e d) = writesTo file d + (if isWriteOf file e then 1 else 0).
Proof.
  unfold writesTo, record. simpl. rewrite List.filter_app, List.length_app. simpl.
  now destruct (isWriteOf file e).
Qed.

(** C6. [hasBuildScriptApply] answers true exactly when some line of the
    Gradle script (a stretch of the text without a newline, delimited by
    newlines or by the ends of the text) is the include line, with double
    quotes or with single quotes.  When it answers true,
    [configureUpdatesAndroid] does not write build.gradle and its content
    stays as it was; when it answers false, the content afterwards is the
    old content followed by a newline, the comment line and the include
    line, each ended by a newline.  Both hold whatever the manifest step
    does afterwards. *)
Theorem hasBuildScriptApply_decides_append projectDir options d content :
  buildGradle d = Some content ->
  (hasBuildScriptApply content = true <->
   exists line,
     is_line newline line content /\
     (line = androidBuildScript \/
      line = "apply from: '../../node_modules/expo-updates/scripts/create-manifest-android.gradle'")) /\
  (hasBuildScriptApply content = true ->
   buildGradle (snd (configureUpdatesAndroid projectDir options d)) = Some content /\
   writesTo BuildGradle (snd (configureUpdatesAndroid projectDir options d)) =
   writesTo BuildGradle d) /\
  (hasBuildScriptApply content = false ->
   buildGradle (snd (configureUpdatesAndroid projectDir options d)) =
   Some (content +:+ NL +:+ "// Integration with Expo updates" +:+ NL
         +:+ androidBuildScript +:+ NL)).
Proof.
  intros Hg. split; [|split].
  - rewrite hasBuildScriptApply_iff.
    split; intros (line & Hl & Hq); exists line; (split; [now apply In_split_iff | exact Hq]).
  - intros Hhas. rewrite configureUpdatesAndroid_run, Hg.
    unfold afterGradle, afterManifest. rewrite Hhas.
    destruct (androidManifest d) as [document|]; [|now split].
    destruct (getElementsByTagName0 document "application") as [app|]; [|now split].
    destruct (synced options (childNodes app)); [now split|].
    unfold Fs.writeAndroidManifest, modify. simpl. split; [exact Hg|].
    rewrite writesTo_record. simpl. unfold writesTo. simpl. lia.
  - intros Hhas. rewrite configureUpdatesAndroid_run, Hg.
    unfold afterGradle, afterManifest, gradleBlock. rewrite Hhas.
    destruct (androidManifest d) as [document|]; [|reflexivity].
    destruct (getElementsByTagName0 document "application") as [app|]; [|reflexivity].
    now destruct (synced options (childNodes app)).
Qed.

Lemma hasBuildScriptApply_decides_append_witness :
  buildGradle Fixture.fresh = Some Fixture.buildGradle /\
  hasBuildScriptApply Fixture.buildGradle = false /\
  buildGradle (snd (configureUpdatesAndroid "/home/alice/myapp" Fixture.runtimeOptions
                      Fixture.fresh)) =
  Some (Fixture.buildGradle +:+ NL +:+ "// Integration with Expo updates" +:+ NL
        +:+ androidBuildScript +:+ NL).
Proof.
  split; [reflexivity|]. split; [reflexivity|].
  apply (hasBuildScriptApply_decides_append "/home/alice/myapp" Fixture.runtimeOptions
           Fixture.fresh Fixture.buildGradle); reflexivity.
Defined.

(** C8, as the code has it.  [getConfigurationOptions] first asks for a
    user who is logged in: when [ensureLoggedInAsync] fails, that failure
    is what it throws.  For a user who is logged in it takes the runtime
    version when [exp.runtimeVersion] is a string that is not empty (the
    test is the truthiness of the field, so an empty string counts as
    absent), and otherwise the SDK version that [getExpoSDKVersion]
    derives; when that derivation fails as well it throws the error that
    names 'runtimeVersion' and 'sdkVersion'.  In every successful case the
    update URL is https://exp.host/@ followed by the username, a slash and
    the slug, and the disk is left alone. *)
Theorem getConfigurationOptions_resolution env d :
  (forall e, ensureLoggedInAsync env = Throw e ->
     getConfigurationOptions env d = (Throw e, d)) /\
  (forall username, ensureLoggedInAsync env = Ok username ->
     (forall v, Exp.runtimeVersion (exp env) = Some v -> v <> "" ->
        getConfigurationOptions env d =
        (Ok (RuntimeOptions v ("https://exp.host/@" +:+ username +:+ "/"
                               +:+ Exp.slug (exp env))), d)) /\
     (Exp.runtimeVersion (exp env) = None \/ Exp.runtimeVersion (exp env) = Some "" ->
      (forall s, getExpoSDKVersion env = Ok s ->
         getConfigurationOptions env d =
         (Ok (SdkOptions s ("https://exp.host/@" +:+ username +:+ "/"
                            +:+ Exp.slug (exp env))), d)) /\
      (forall e, getExpoSDKVersion env = Throw e ->
         exists message,
           getConfigurationOptions env d = (Throw (Error message), d) /\
           includes message "'runtimeVersion'" = true /\
           includes message "'sdkVersion'" = true))).
Proof.
  rewrite getConfigurationOptions_run. unfold resolved, resolvedFor. split.
  - now intros e ->.
  - intros username ->. split.
    + intros v -> Hv. destruct v; [congruence | reflexivity].
    + intros Habsent.
      assert (Hn : narrow (Exp.runtimeVersion (exp env)) = None)
        by (destruct Habsent as [-> | ->]; reflexivity).
      rewrite Hn. split.
      * now intros s ->.
      * intros e ->. exists missingVersionMessage. repeat split; vm_compute; reflexivity.
Qed.

Lemma getConfigurationOptions_resolution_witness :
  ensureLoggedInAsync Fixture.envRuntime = Ok "alice" /\
  getConfigurationOptions Fixture.envRuntime Fixture.fresh =
  (Ok (RuntimeOptions "1.0.0" "https://exp.host/@alice/myapp"), Fixture.fresh).
Proof.
  split; [reflexivity|].
  apply (proj2 (getConfigurationOptions_resolution Fixture.envRuntime Fixture.fresh)
           "alice" eq_refl);
    [reflexivity | discriminate].
Defined.

(** C8 as stated fails.  A project that declares [runtimeVersion] as the
    empty string gets the SDK identity, not the runtime one; and for a
    project that declares a runtime version while nobody is logged in,
    the call fails, with the failure of the login and not with the error
    that names the two fields. *)
Lemma getConfigurationOptions_resolution_counterexample :
  Exp.runtimeVersion (exp Sample.envEmptyRuntime) = Some "" /\
  getConfigurationOptions Sample.envEmptyRuntime Fixture.fresh =
  (Ok (SdkOptions "39.0.0" "https://exp.host/@alice/myapp"), Fixture.fresh) /\
  Exp.runtimeVersion (exp Sample.envLoggedOut) = Some "1.0.0" /\
  getConfigurationOptions Sample.envLoggedOut Fixture.fresh =
  (Throw (Error "Not logged in"), Fixture.fresh) /\
  includes "Not logged in" "'runtimeVersion'" = false.
Proof. repeat split; vm_compute; reflexivity. Qed.

End GradleAndOptions.

(** ** The claims about failures and about the iOS files *)

Section FailuresAndIOS.

Import JsString JsValueOps Dom Spec ExpoUpdates.

(** C7, as the code has it.  For every project that declares expo-updates,
    whose options resolve (the user is logged in and a runtime or an SDK
    version can be derived) and that has no android/app/build.gradle,
    [configureUpdatesAsync] throws the error whose message is Couldn't find
    gradle build script at, followed by the path that [path.join] gives
    for the project directory, android, app and build.gradle: the very
    path that was looked for.  For a project directory that is an
    absolute, normalized path other than the root this is the project
    directory followed by /android/app/build.gradle.  The Android pass
    runs first, so nothing has been written by then: the disk, journal
    included, is the one from before the call. *)
Theorem configureUpdatesAsync_missing_gradle env options d :
  isExpoUpdatesInstalled env = true ->
  fst (getConfigurationOptions env d) = Ok options ->
  buildGradle d = None ->
  configureUpdatesAsync env d =
  (Throw (Error ("Couldn't find gradle build script at "
                 +:+ NodePath.join [projectDir env; "android"; "app"; "build.gradle"])), d) /\
  (forall segments,
     Forall clean segments -> segments <> [] -> projectDir env = absolute segments ->
     NodePath.join [projectDir env; "android"; "app"; "build.gradle"] =
     projectDir env +:+ "/android/app/build.gradle").
Proof.
  intros Hinst Hopt Hg. rewrite getConfigurationOptions_run in Hopt. cbn [fst] in Hopt.
  rewrite configureUpdatesAsync_run, Hinst, Hopt, configureUpdatesAndroid_run, Hg.
  split; [reflexivity|].
  intros segments Hc Hne ->. now apply getAndroidBuildGradlePath_normalized.
Qed.

Lemma configureUpdatesAsync_missing_gradle_witness :
  isExpoUpdatesInstalled Fixture.envRuntime = true /\
  fst (getConfigurationOptions Fixture.envRuntime Fixture.noGradle) =
  Ok Fixture.runtimeOptions /\
  buildGradle Fixture.noGradle = None /\
  configureUpdatesAsync Fixture.envRuntime Fixture.noGradle =
  (Throw (Error "Couldn't find gradle build script at /home/alice/myapp/android/app/build.gradle"),
   Fixture.noGradle).
Proof.
  repeat (split; [reflexivity|]).
  apply (configureUpdatesAsync_missing_gradle Fixture.envRuntime Fixture.runtimeOptions
           Fixture.noGradle); reflexivity.
Defined.

(** C7 as stated fails: with expo-updates declared and build.gradle
    missing, a project without a runtime or SDK version fails earlier, with
    the error about the versions, whose message does not name the path. *)
Lemma configureUpdatesAsync_missing_gradle_counterexample :
  isExpoUpdatesInstalled Fixture.envNoVersion = true /\
  buildGradle Fixture.noGradle = None /\
  configureUpdatesAsync Fixture.envNoVersion Fixture.noGradle =
  (Throw (Error missingVersionMessage), Fixture.noGradle) /\
  includes missingVersionMessage
           (getAndroidBuildGradlePath (projectDir Fixture.envNoVersion)) = false.
Proof. repeat split; vm_compute; reflexivity. Qed.

Lemma writesTo_afterIOS file plist created path project p rest d :
  writesTo file (afterIOS plist created path project p rest d) =
  writesTo file d
  + length (List.filter (isWriteOf file)
              ([WriteFile Pbxproj] ++ created ++ [WriteFile ExpoPlist; GitAdd ExpoPlist])).
Proof. unfold writesTo, afterIOS. simpl journal. now rewrite List.filter_app, List.length_app. Qed.

(** A successful run of [configureUpdatesIOS], spelled out. *)
Lemma configureUpdatesIOS_success projectDir options d :
  fst (configureUpdatesIOS projectDir options d) = Ok tt ->
  exists path project rest p,
    xcodeProjects d = (path, project) :: rest /\
    getBundleReactNativePhase project = Ok p /\
    snd (configureUpdatesIOS projectDir options d) =
    afterIOS (items options) (createdDir d) path project p rest d.
Proof.
  rewrite configureUpdatesIOS_run.
  destruct (xcodeProjects d) as [|[path project] rest] eqn:Hx; [discriminate|].
  destruct (truthy path); [|discriminate].
  destruct (getBundleReactNativePhase project) as [p|e] eqn:Hp; [|discriminate].
  intros _. exists path, project, rest, p. repeat split; auto.
Qed.

(** C4, as the code has it.  Every successful run of [configureUpdatesIOS]
    writes project.pbxproj, once, whether or not the script was changed.
    When the build-phase script already contains the include fragment, what
    is written is the project graph as it was parsed: the list of Xcode
    projects on disk is the same before and after. *)
Theorem configureUpdatesIOS_always_writes_pbxproj projectDir options d :
  fst (configureUpdatesIOS projectDir options d) = Ok tt ->
  writesTo Pbxproj (snd (configureUpdatesIOS projectDir options d)) =
  S (writesTo Pbxproj d) /\
  (forall path project rest p,
     xcodeProjects d = (path, project) :: rest ->
     getBundleReactNativePhase project = Ok p ->
     includes (Xcode.shellScript p) iOSBuildScript = true ->
     xcodeProjects (snd (configureUpdatesIOS projectDir options d)) = xcodeProjects d).
Proof.
  intros Hok. destruct (configureUpdatesIOS_success _ _ _ Hok)
    as (path & project & rest & p & Hx & Hp & ->).
  split.
  - rewrite writesTo_afterIOS. unfold createdDir.
    destruct (supportingDir d); simpl; lia.
  - intros path' project' rest' p' Hx' Hp' Hinc.
    rewrite Hx in Hx'. injection Hx' as <- <- <-.
    rewrite Hp in Hp'. injection Hp' as <-.
    unfold afterIOS. simpl. now rewrite (wiredProject_fixed _ _ Hinc), Hx.
Qed.

Lemma configureUpdatesIOS_always_writes_pbxproj_witness :
  fst (configureUpdatesIOS "/home/alice/myapp" Fixture.runtimeOptions Fixture.fresh) = Ok tt /\
  writesTo Pbxproj
    (snd (configureUpdatesIOS "/home/alice/myapp" Fixture.runtimeOptions Fixture.fresh)) =
  S (writesTo Pbxproj Fixture.fresh).
Proof.
  split; [reflexivity|].
  apply (configureUpdatesIOS_always_writes_pbxproj "/home/alice/myapp"
           Fixture.runtimeOptions Fixture.fresh); reflexivity.
Defined.

(** C4 as stated fails: on a project whose build-phase script already
    contains the include fragment, [configureUpdatesIOS] still writes
    project.pbxproj. *)
Lemma configureUpdatesIOS_always_writes_pbxproj_counterexample :
  getBundleReactNativePhase (Fixture.projectWith Fixture.bundleScriptWired) =
  Ok (Xcode.mkBuildPhase (Some bundleReactNativeName) Fixture.bundleScriptWired) /\
  includes Fixture.bundleScriptWired iOSBuildScript = true /\
  writesTo Pbxproj Fixture.wiredIOS = 0 /\
  fst (configureUpdatesIOS "/home/alice/myapp" Fixture.runtimeOptions Fixture.wiredIOS) = Ok tt /\
  writesTo Pbxproj
    (snd (configureUpdatesIOS "/home/alice/myapp" Fixture.runtimeOptions Fixture.wiredIOS)) = 1.
Proof. repeat split; vm_compute; reflexivity. Qed.

(** C10.  The enum [ExpoIOSMetadata] names the SDK version
    EXUpdatesRuntimeVersion and the runtime version EXUpdatesSDKVersion.
    After a successful [configureUpdatesIOS], Expo.plist holds a runtime
    version r (a runtime version is a non-empty string) under
    EXUpdatesSDKVersion, or an SDK version s under EXUpdatesRuntimeVersion,
    and [isUpdatesConfiguredIOS] answers true on the disk that the call
    left.  The check reads through the same enum: on the Xcode project
    that the call left, with any Expo.plist in place of the written one,
    it answers true exactly when that dictionary holds the version of the
    options under the swapped key (a runtime version under
    EXUpdatesSDKVersion, an SDK version under EXUpdatesRuntimeVersion) and
    the update URL under EXUpdatesURL, as strings; a version under the
    key of its own name does not count. *)
Theorem configureUpdatesIOS_swapped_keys projectDir options d :
  fst (configureUpdatesIOS projectDir options d) = Ok tt ->
  ExpoIOSMetadata.SDK_VERSION = "EXUpdatesRuntimeVersion" /\
  ExpoIOSMetadata.RUNTIME_VERSION = "EXUpdatesSDKVersion" /\
  (exists expoPlistData,
     expoPlist (snd (configureUpdatesIOS projectDir options d)) = Some expoPlistData /\
     (forall r, runtimeVersion options = Some r -> truthy r = true ->
        get expoPlistData "EXUpdatesSDKVersion" = Ok (JString r)) /\
     (forall s, sdkVersion options = Some s ->
        get expoPlistData "EXUpdatesRuntimeVersion" = Ok (JString s))) /\
  isUpdatesConfiguredIOS projectDir options (snd (configureUpdatesIOS projectDir options d)) =
  (Ok true, snd (configureUpdatesIOS projectDir options d)) /\
  (valid options = true ->
   forall d' expoPlistData,
     xcodeProjects d' = xcodeProjects (snd (configureUpdatesIOS projectDir options d)) ->
     expoPlist d' = Some expoPlistData ->
     (fst (isUpdatesConfiguredIOS projectDir options d') = Ok true <->
      get expoPlistData
        (match options with
         | RuntimeOptions _ _ => "EXUpdatesSDKVersion"
         | SdkOptions _ _ => "EXUpdatesRuntimeVersion"
         end) = Ok (JString (versionOf options)) /\
      get expoPlistData "EXUpdatesURL" = Ok (JString (updateUrl options)))).
Proof.
  intros Hok. destruct (configureUpdatesIOS_success _ _ _ Hok)
    as (path & project & rest & p & Hx & Hp & Hd).
  assert (Hpath : truthy path = true).
  { rewrite configureUpdatesIOS_run, Hx in Hok. now destruct (truthy path). }
  split; [reflexivity|]. split; [reflexivity|]. split; [|split].
  - exists (items options). rewrite Hd. split; [reflexivity|]. split.
    + intros r Hr Ht. destruct options as [s u|r' u]; [discriminate|].
      injection Hr as ->. unfold items. simpl. now rewrite Ht.
    + intros s Hs. destruct options as [s' u|r u]; [|discriminate].
      injection Hs as ->. reflexivity.
  - rewrite isUpdatesConfiguredIOS_run, Hd.
    cbn [afterIOS xcodeProjects expoPlist]. rewrite Hpath.
    destruct (wiredProject_includes _ _ Hp) as (p' & -> & ->).
    now rewrite plistSynced_items.
  - intros Hvalid d' data Hx' Hdata.
    rewrite isUpdatesConfiguredIOS_run, Hx', Hd.
    cbn [afterIOS xcodeProjects]. rewrite Hpath.
    destruct (wiredProject_includes _ _ Hp) as (p' & -> & ->).
    rewrite Hdata. cbn [fst].
    rewrite (plistSynced_iff options data Hvalid).
    destruct options; reflexivity.
Qed.

Lemma configureUpdatesIOS_swapped_keys_witness :
  fst (configureUpdatesIOS "/home/alice/myapp" Fixture.runtimeOptions Fixture.fresh) = Ok tt /\
  isUpdatesConfiguredIOS "/home/alice/myapp" Fixture.runtimeOptions
    (snd (configureUpdatesIOS "/home/alice/myapp" Fixture.runtimeOptions Fixture.fresh)) =
  (Ok true, snd (configureUpdatesIOS "/home/alice/myapp" Fixture.runtimeOptions Fixture.fresh)) /\
  fst (isUpdatesConfiguredIOS "/home/alice/myapp" Fixture.runtimeOptions Sample.renamedKeys)
  <> Ok true.
Proof.
  split; [reflexivity|].
  destruct (configureUpdatesIOS_swapped_keys "/home/alice/myapp" Fixture.runtimeOptions
              Fixture.fresh eq_refl) as (_ & _ & _ & Hcheck & Hreads).
  split; [exact Hcheck|].
  intros Htrue.
  apply (Hreads eq_refl Sample.renamedKeys
           (JObject [ ("EXUpdatesRuntimeVersion", JString "1.0.0");
                      ("EXUpdatesURL", JString "https://exp.host/@alice/myapp") ])
           eq_refl eq_refl) in Htrue.
  destruct Htrue as [Hkey _]. discriminate.
Defined.

End FailuresAndIOS.

(** ** The claim about the prior content of Expo.plist *)

Section PriorPlist.

Import JsString JsValueOps Dom Spec ExpoUpdates.

Context `{ExpoConfigPackage}.

(** What [configureUpdatesIOSAsync] of the revision on @expo/config returns
    and leaves on disk. *)
Lemma configureUpdatesIOSAsync_run projectDir exp username d :
  Variant.configureUpdatesIOSAsync projectDir exp username d =
  match xcodeProjects d with
  | [] => (Throw (Error "Couldn't find Xcode project"), d)
  | (path, project) :: rest =>
      if truthy path then
        match getBundleReactNativePhase project with
        | Ok bundleReactNative =>
            (Ok tt,
             afterIOS
               (IOSConfig_setUpdatesConfig exp
                  (match expoPlist d with Some prior => prior | None => JObject [] end)
                  username)
               [Mkdirp] path project bundleReactNative rest d)
        | Throw e => (Throw e, d)
        end
      else (Throw (Error "Couldn't find Xcode project"), d)
  end.
Proof.
  unfold Variant.configureUpdatesIOSAsync, Variant.getPbxprojPathAsync,
    Variant.getXcodeProjectAsync, Variant.getBundleReactNativePhaseAsync,
    getPbxprojPath, getXcodeProject.
  unfold mbind, IO_bind, gets, throw, lift, mret, IO_ret.
  destruct (xcodeProjects d) as [|[path project] rest] eqn:Ex; simpl; [reflexivity|].
  destruct (truthy path); [|reflexivity].
  rewrite Ex, assoc_head.
  destruct (getBundleReactNativePhase project) as [p|e]; [|reflexivity].
  unfold Fs.writePbxproj, Fs.mkdirpSupporting, Fs.writeExpoPlist, Fs.gitAddAsync, modify,
    record, afterIOS, wiredProject, Variant.iOSBuildScript. simpl.
  rewrite Ex, overwrite_head. rewrite <- ?app_assoc. reflexivity.
Qed.

(** C3, as the code has it.  In expoUpdates.ts a successful
    [configureUpdatesIOS] writes to Expo.plist the dictionary it builds from
    the options and nothing else, whether or not the file existed: the
    version key of the identity in use and the update-URL key, with the
    values of the options.  In the revision on @expo/config a successful
    [configureUpdatesIOSAsync] writes what [setUpdatesConfig] returns for
    the parsed prior dictionary, or for the empty dictionary when the file
    did not exist. *)
Theorem expoPlist_after_configure projectDir options exp username d :
  fst (configureUpdatesIOS projectDir options d) = Ok tt ->
  expoPlist (snd (configureUpdatesIOS projectDir options d)) = Some (items options) /\
  (forall r u, truthy r = true ->
     items (RuntimeOptions r u) =
     JObject [ (ExpoIOSMetadata.RUNTIME_VERSION, JString r);
               (ExpoIOSMetadata.UPDATE_URL, JString u) ]) /\
  (forall s u,
     items (SdkOptions s u) =
     JObject [ (ExpoIOSMetadata.SDK_VERSION, JString s);
               (ExpoIOSMetadata.UPDATE_URL, JString u) ]) /\
  fst (Variant.configureUpdatesIOSAsync projectDir exp username d) = Ok tt /\
  expoPlist (snd (Variant.configureUpdatesIOSAsync projectDir exp username d)) =
  Some (IOSConfig_setUpdatesConfig exp
          (match expoPlist d with Some prior => prior | None => JObject [] end)
          username).
Proof.
  intros Hok. destruct (configureUpdatesIOS_success _ _ _ Hok)
    as (path & project & rest & p & Hx & Hp & Hd).
  split; [now rewrite Hd|].
  split; [intros r u Ht; unfold items; simpl; now rewrite Ht|].
  split; [reflexivity|].
  rewrite configureUpdatesIOS_run, Hx in Hok.
  destruct (truthy path) eqn:Hpath; [|discriminate].
  rewrite configureUpdatesIOSAsync_run, Hx, Hpath, Hp. split; reflexivity.
Qed.

End PriorPlist.

Section PriorPlistSamples.

Import JsString JsValueOps Dom Spec ExpoUpdates.

Lemma expoPlist_after_configure_witness :
  fst (configureUpdatesIOS "/home/alice/myapp" Fixture.sdkOptions Fixture.wiredIOS) = Ok tt /\
  expoPlist (snd (configureUpdatesIOS "/home/alice/myapp" Fixture.sdkOptions Fixture.wiredIOS)) =
  Some (JObject [ ("EXUpdatesRuntimeVersion", JString "39.0.0");
                  ("EXUpdatesURL", JString "https://exp.host/@alice/myapp") ]).
Proof.
  split; [reflexivity|].
  apply (@expoPlist_after_configure Fixture.sampleExpoConfig "/home/alice/myapp"
           Fixture.sdkOptions (exp Fixture.envSdk) (Some "alice") Fixture.wiredIOS);
    reflexivity.
Defined.

(** C3 as stated fails for [configureUpdatesIOS]: the Expo.plist of the
    sample has the key EXUpdatesCheckOnLaunch, which is none of the three
    keys, and the key is gone after the call. *)
Lemma expoPlist_after_configure_counterexample :
  (exists prior,
     expoPlist Fixture.wiredIOS = Some prior /\
     get prior "EXUpdatesCheckOnLaunch" = Ok (JString "ALWAYS")) /\
  "EXUpdatesCheckOnLaunch" <> ExpoIOSMetadata.SDK_VERSION /\
  "EXUpdatesCheckOnLaunch" <> ExpoIOSMetadata.RUNTIME_VERSION /\
  "EXUpdatesCheckOnLaunch" <> ExpoIOSMetadata.UPDATE_URL /\
  fst (configureUpdatesIOS "/home/alice/myapp" Fixture.sdkOptions Fixture.wiredIOS) = Ok tt /\
  (exists written,
     expoPlist (snd (configureUpdatesIOS "/home/alice/myapp" Fixture.sdkOptions
                       Fixture.wiredIOS)) = Some written /\
     hasOwnProperty written "EXUpdatesCheckOnLaunch" = false /\
     get written "EXUpdatesCheckOnLaunch" = Ok JUndefined).
Proof.
  split; [eexists; split; reflexivity|].
  repeat (split; [discriminate|]).
  split; [reflexivity|].
  eexists. repeat split; reflexivity.
Qed.

End PriorPlistSamples.

(** ** Configuring, then checking or configuring again *)

Section ConfigureThenCheck.

Import JsString JsValueOps Dom Spec ExpoUpdates.

Lemma afterGradle_fields content d :
  buildGradle d = Some content ->
  buildGradle (afterGradle content d) = Some (gradleAfter content) /\
  androidManifest (afterGradle content d) = androidManifest d /\
  xcodeProjects (afterGradle content d) = xcodeProjects d /\
  expoPlist (afterGradle content d) = expoPlist d /\
  supportingDir (afterGradle content d) = supportingDir d.
Proof.
  intros Hg. unfold afterGradle, gradleAfter.
  destruct (hasBuildScriptApply content); repeat split; auto.
Qed.

Lemma afterManifest_fields options document children d :
  androidManifest d = Some document ->
  buildGradle (afterManifest options document children d) = buildGradle d /\
  androidManifest (afterManifest options document children d) =
  Some (manifestAfter options document children) /\
  xcodeProjects (afterManifest options document children d) = xcodeProjects d /\
  expoPlist (afterManifest options document children d) = expoPlist d /\
  supportingDir (afterManifest options document children d) = supportingDir d.
Proof.
  intros Hm. unfold afterManifest, manifestAfter.
  destruct (synced options children); repeat split; auto.
Qed.

Lemma hasBuildScriptApply_gradleAfter content :
  hasBuildScriptApply (gradleAfter content) = true.
Proof.
  unfold gradleAfter. destruct (hasBuildScriptApply content) eqn:E; [exact E|].
  apply hasBuildScriptApply_appended.
Qed.

Lemma gradleAfter_again content : gradleAfter (gradleAfter content) = gradleAfter content.
Proof. unfold gradleAfter at 1. now rewrite hasBuildScriptApply_gradleAfter. Qed.

(** The application element of the manifest that is left. *)
Lemma application_manifestAfter options document app :
  getElementsByTagName0 document "application" = Some app ->
  exists app',
    getElementsByTagName0 (manifestAfter options document (childNodes app)) "application"
    = Some app' /\
    childNodes app' =
    (if synced options (childNodes app) then childNodes app
     else patch options (childNodes app)).
Proof.
  intros Ha. unfold manifestAfter. destruct (synced options (childNodes app)).
  - now exists app.
  - rewrite (application_withChildren_Some _ _ _ Ha). eexists. split; [reflexivity|].
    destruct (firstByTagNameIn_found _ _ _ Ha) as (a & c & ->). reflexivity.
Qed.

Lemma synced_manifestAfter options document app app' :
  valid options = true ->
  getElementsByTagName0 document "application" = Some app ->
  getElementsByTagName0 (manifestAfter options document (childNodes app)) "application"
  = Some app' ->
  synced options (childNodes app') = true.
Proof.
  intros Hv Ha Ha'. destruct (application_manifestAfter options _ _ Ha) as (app0 & H0 & Hc).
  rewrite H0 in Ha'. injection Ha' as <-. rewrite Hc.
  destruct (synced options (childNodes app)) eqn:E; [exact E | now apply synced_patch].
Qed.

(** The manifest that is left is left as it is by a second pass. *)
Lemma manifestAfter_again options document app app' :
  getElementsByTagName0 document "application" = Some app ->
  getElementsByTagName0 (manifestAfter options document (childNodes app)) "application"
  = Some app' ->
  manifestAfter options (manifestAfter options document (childNodes app)) (childNodes app')
  = manifestAfter options document (childNodes app).
Proof.
  intros Ha Ha'. destruct (application_manifestAfter options _ _ Ha) as (app0 & H0 & Hc).
  rewrite H0 in Ha'. injection Ha' as <-.
  unfold manifestAfter at 1. rewrite Hc.
  destruct (synced options (childNodes app)) eqn:E.
  - now rewrite E.
  - destruct (synced options (patch options (childNodes app))) eqn:E2; [reflexivity|].
    unfold manifestAfter. rewrite E. rewrite withChildren_compose.
    unfold withChildren. apply mutateElement0_ext with app; [exact Ha|].
    now rewrite (patch_again _ _ E2).
Qed.

(** A successful Android pass, spelled out. *)
Lemma configureUpdatesAndroid_success projectDir options d :
  fst (configureUpdatesAndroid projectDir options d) = Ok tt ->
  exists content document app,
    buildGradle d = Some content /\
    androidManifest d = Some document /\
    getElementsByTagName0 document "application" = Some app /\
    snd (configureUpdatesAndroid projectDir options d) =
    afterManifest options document (childNodes app) (afterGradle content d).
Proof.
  rewrite configureUpdatesAndroid_run.
  destruct (buildGradle d) as [content|] eqn:Hg; [|discriminate].
  destruct (androidManifest d) as [document|] eqn:Hm; [|discriminate].
  destruct (getElementsByTagName0 document "application") as [app|] eqn:Ha; [|discriminate].
  intros _. exists content, document, app. repeat split; auto.
Qed.

(** The files that the Android pass leaves. *)
Lemma configureUpdatesAndroid_success_fields options d content document app :
  buildGradle d = Some content ->
  androidManifest d = Some document ->
  getElementsByTagName0 document "application" = Some app ->
  let d1 := afterManifest options document (childNodes app) (afterGradle content d) in
  buildGradle d1 = Some (gradleAfter content) /\
  androidManifest d1 = Some (manifestAfter options document (childNodes app)) /\
  xcodeProjects d1 = xcodeProjects d /\
  expoPlist d1 = expoPlist d /\
  supportingDir d1 = supportingDir d.
Proof.
  intros Hg Hm Ha d1.
  destruct (afterGradle_fields content d Hg) as (G1 & G2 & G3 & G4 & G5).
  assert (Hm1 : androidManifest (afterGradle content d) = Some document) by congruence.
  destruct (afterManifest_fields options document (childNodes app) _ Hm1)
    as (M1 & M2 & M3 & M4 & M5).
  subst d1. repeat split; congruence.
Qed.

(** C1.  For a project that declares expo-updates and whose options resolve
    to valid ones (the version field is a non-empty string), if
    [configureUpdatesAsync] returns normally then [isUpdatesConfigured] on
    the disk it left answers true, and leaves that disk alone. *)
Theorem isUpdatesConfigured_after_configure env options d :
  isExpoUpdatesInstalled env = true ->
  fst (getConfigurationOptions env d) = Ok options ->
  valid options = true ->
  fst (configureUpdatesAsync env d) = Ok tt ->
  isUpdatesConfigured env (snd (configureUpdatesAsync env d)) =
  (Ok true, snd (configureUpdatesAsync env d)).
Proof.
  intros Hinst Hopt Hvalid Hok.
  rewrite getConfigurationOptions_run in Hopt. simpl in Hopt.
  rewrite configureUpdatesAsync_run, Hinst, Hopt in Hok |- *.
  destruct (configureUpdatesAndroid (projectDir env) options d) as [[[]|e] d1] eqn:HA;
    [|discriminate].
  assert (HokA : fst (configureUpdatesAndroid (projectDir env) options d) = Ok tt)
    by now rewrite HA.
  destruct (configureUpdatesAndroid_success _ _ _ HokA)
    as (content & document & app & Hg & Hm & Ha & Hd1).
  rewrite HA in Hd1. simpl in Hd1.
  destruct (configureUpdatesAndroid_success_fields options d _ _ _ Hg Hm Ha)
    as (F1 & F2 & F3 & F4 & F5).
  rewrite <- Hd1 in F1, F2, F3, F4, F5.
  destruct (configureUpdatesIOS (projectDir env) options d1) as [[[]|e] d2] eqn:HI;
    [|discriminate].
  assert (HokI : fst (configureUpdatesIOS (projectDir env) options d1) = Ok tt)
    by now rewrite HI.
  destruct (configureUpdatesIOS_success _ _ _ HokI)
    as (path & project & rest & p & Hx & Hp & Hd2).
  rewrite HI in Hd2. simpl in Hd2.
  rewrite configureUpdatesIOS_run, Hx in HokI.
  destruct (truthy path) eqn:Hpath; [|discriminate].
  cbn [snd].
  rewrite isUpdatesConfigured_run, Hinst, Hopt, isUpdatesConfiguredAndroid_run.
  assert (G : buildGradle d2 = Some (gradleAfter content)) by (rewrite Hd2; exact F1).
  assert (M : androidManifest d2 = Some (manifestAfter options document (childNodes app)))
    by (rewrite Hd2; exact F2).
  rewrite G, hasBuildScriptApply_gradleAfter, M.
  destruct (application_manifestAfter options _ _ Ha) as (app' & Ha' & _).
  rewrite Ha', (synced_manifestAfter _ _ _ _ Hvalid Ha Ha').
  rewrite isUpdatesConfiguredIOS_run.
  assert (X : xcodeProjects d2 = (path, wiredProject project p) :: rest)
    by (rewrite Hd2; reflexivity).
  assert (P : expoPlist d2 = Some (items options)) by (rewrite Hd2; reflexivity).
  rewrite X, Hpath, P.
  destruct (wiredProject_includes _ _ Hp) as (p' & -> & ->).
  now rewrite plistSynced_items.
Qed.

Lemma isUpdatesConfigured_after_configure_witness :
  isExpoUpdatesInstalled Fixture.envRuntime = true /\
  fst (getConfigurationOptions Fixture.envRuntime Fixture.fresh) = Ok Fixture.runtimeOptions /\
  valid Fixture.runtimeOptions = true /\
  fst (configureUpdatesAsync Fixture.envRuntime Fixture.fresh) = Ok tt /\
  isUpdatesConfigured Fixture.envRuntime
    (snd (configureUpdatesAsync Fixture.envRuntime Fixture.fresh)) =
  (Ok true, snd (configureUpdatesAsync Fixture.envRuntime Fixture.fresh)).
Proof.
  repeat (split; [reflexivity|]).
  apply (isUpdatesConfigured_after_configure Fixture.envRuntime Fixture.runtimeOptions
           Fixture.fresh); reflexivity.
Defined.

End ConfigureThenCheck.

(** ** Configuring twice *)

Section ConfigureTwice.

Import JsString JsValueOps Dom Spec ExpoUpdates.

(** The Android pass leaves the iOS files alone. *)
Lemma configureUpdatesAndroid_frame projectDir options d :
  xcodeProjects (snd (configureUpdatesAndroid projectDir options d)) = xcodeProjects d /\
  expoPlist (snd (configureUpdatesAndroid projectDir options d)) = expoPlist d.
Proof.
  rewrite configureUpdatesAndroid_run.
  destruct (buildGradle d) as [content|] eqn:Hg; [|now split].
  pose proof (afterGradle_fields content d Hg) as (_ & G2 & G3 & G4 & _).
  destruct (androidManifest d) as [document|] eqn:Hm; [|now split].
  destruct (getElementsByTagName0 document "application") as [app|]; [|now split].
  destruct (afterManifest_fields options document (childNodes app) _ G2)
    as (_ & _ & M3 & M4 & _).
  cbn [snd]. split; congruence.
Qed.

(** The Android files that the Android pass leaves. *)
Lemma configureUpdatesAndroid_files projectDir options d :
  buildGradle (snd (configureUpdatesAndroid projectDir options d)) =
  option_map gradleAfter (buildGradle d) /\
  androidManifest (snd (configureUpdatesAndroid projectDir options d)) =
  match buildGradle d, androidManifest d with
  | Some _, Some document =>
      match getElementsByTagName0 document "application" with
      | Some app => Some (manifestAfter options document (childNodes app))
      | None => Some document
      end
  | _, m => m
  end.
Proof.
  rewrite configureUpdatesAndroid_run.
  destruct (buildGradle d) as [content|] eqn:Hg; [|now split].
  pose proof (afterGradle_fields content d Hg) as (G1 & G2 & _).
  destruct (androidManifest d) as [document|] eqn:Hm; [|split; [exact G1 | exact G2]].
  destruct (getElementsByTagName0 document "application") as [app|];
    [|split; [exact G1 | exact G2]].
  destruct (afterManifest_fields options document (childNodes app) _ G2)
    as (M1 & M2 & _).
  cbn [snd option_map]. split; congruence.
Qed.

(** On the Android files that one pass has left, another pass ends the
    same way and leaves the same Android files. *)
Lemma configureUpdatesAndroid_again projectDir options d d' :
  buildGradle d' = buildGradle (snd (configureUpdatesAndroid projectDir options d)) ->
  androidManifest d' = androidManifest (snd (configureUpdatesAndroid projectDir options d)) ->
  fst (configureUpdatesAndroid projectDir options d') =
  fst (configureUpdatesAndroid projectDir options d) /\
  buildGradle (snd (configureUpdatesAndroid projectDir options d')) = buildGradle d' /\
  androidManifest (snd (configureUpdatesAndroid projectDir options d')) = androidManifest d'.
Proof.
  destruct (configureUpdatesAndroid_files projectDir options d) as [-> ->].
  destruct (configureUpdatesAndroid_files projectDir options d') as [-> ->].
  intros Hg Hm. rewrite !configureUpdatesAndroid_run. rewrite Hg, Hm.
  destruct (buildGradle d) as [content|]; cbn [option_map]; [|now repeat split].
  rewrite gradleAfter_again.
  destruct (androidManifest d) as [document|]; [|now repeat split].
  destruct (getElementsByTagName0 document "application") as [app|] eqn:Ha.
  - destruct (application_manifestAfter options _ _ Ha) as (app' & Ha' & _).
    rewrite Ha'. rewrite (manifestAfter_again _ _ _ _ Ha Ha'). now repeat split.
  - rewrite Ha. now repeat split.
Qed.

(** The iOS pass leaves the Android files alone, and a failing iOS pass
    leaves every file alone. *)
Lemma configureUpdatesIOS_frame projectDir options d :
  buildGradle (snd (configureUpdatesIOS projectDir options d)) = buildGradle d /\
  androidManifest (snd (configureUpdatesIOS projectDir options d)) = androidManifest d /\
  (forall e, fst (configureUpdatesIOS projectDir options d) = Throw e ->
             snd (configureUpdatesIOS projectDir options d) = d).
Proof.
  rewrite configureUpdatesIOS_run.
  destruct (xcodeProjects d) as [|[path project] rest]; [now repeat split|].
  destruct (truthy path); [|now repeat split].
  destruct (getBundleReactNativePhase project) as [p|e]; [|now repeat split].
  repeat split; try reflexivity. intros e; discriminate.
Qed.

(** On the iOS files that one pass has left, another pass ends the same way
    and leaves the same iOS files. *)
Lemma configureUpdatesIOS_again projectDir options d d' :
  xcodeProjects d' = xcodeProjects (snd (configureUpdatesIOS projectDir options d)) ->
  expoPlist d' = expoPlist (snd (configureUpdatesIOS projectDir options d)) ->
  fst (configureUpdatesIOS projectDir options d') =
  fst (configureUpdatesIOS projectDir options d) /\
  xcodeProjects (snd (configureUpdatesIOS projectDir options d')) = xcodeProjects d' /\
  expoPlist (snd (configureUpdatesIOS projectDir options d')) = expoPlist d'.
Proof.
  rewrite (configureUpdatesIOS_run projectDir options d).
  destruct (xcodeProjects d) as [|[path project] rest] eqn:Hx.
  - cbn [snd]. intros E1 E2. rewrite configureUpdatesIOS_run, E1, Hx. cbn [fst snd]. repeat split; congruence.
  - destruct (truthy path) eqn:Hpath.
    + destruct (getBundleReactNativePhase project) as [p|e] eqn:Hp.
      * cbn [snd afterIOS xcodeProjects expoPlist]. intros E1 E2.
        rewrite configureUpdatesIOS_run, E1, E2, Hpath.
        destruct (wiredProject_includes _ _ Hp) as (p' & Hp' & Hinc). rewrite Hp'.
        cbn [fst snd afterIOS xcodeProjects expoPlist].
        rewrite (wiredProject_fixed _ _ Hinc). repeat split; congruence.
      * cbn [snd]. intros E1 E2. rewrite configureUpdatesIOS_run, E1, Hx, Hpath, Hp.
        cbn [fst snd]. repeat split; congruence.
    + cbn [snd]. intros E1 E2. rewrite configureUpdatesIOS_run, E1, Hx, Hpath.
      cbn [fst snd]. repeat split; congruence.
Qed.

Lemma files_eq d d' :
  buildGradle d' = buildGradle d -> androidManifest d' = androidManifest d ->
  xcodeProjects d' = xcodeProjects d -> expoPlist d' = expoPlist d ->
  files d' = files d.
Proof. unfold files. now intros -> -> -> ->. Qed.

(** C2.  Run [configureUpdatesAsync] twice in succession on the same
    project, with the same configuration and user (git may answer
    differently the second time): after the second call build.gradle,
    AndroidManifest.xml, project.pbxproj and Expo.plist hold what they held
    after the first call.  In particular the second call adds no include
    line and no meta-data record. *)
Theorem configureUpdatesAsync_twice env status1 commit1 status2 commit2 d :
  files (snd (configureUpdatesAsync (withGit env status2 commit2)
                (snd (configureUpdatesAsync (withGit env status1 commit1) d)))) =
  files (snd (configureUpdatesAsync (withGit env status1 commit1) d)).
Proof.
  rewrite !configureUpdatesAsync_run.
  change (isExpoUpdatesInstalled (withGit env status1 commit1))
    with (isExpoUpdatesInstalled env).
  change (isExpoUpdatesInstalled (withGit env status2 commit2))
    with (isExpoUpdatesInstalled env).
  change (resolved (withGit env status1 commit1)) with (resolved env).
  change (resolved (withGit env status2 commit2)) with (resolved env).
  change (projectDir (withGit env status1 commit1)) with (projectDir env).
  change (projectDir (withGit env status2 commit2)) with (projectDir env).
  destruct (isExpoUpdatesInstalled env); [|reflexivity].
  destruct (resolved env) as [options|e]; [|reflexivity].
  set (A := configureUpdatesAndroid (projectDir env) options).
  set (I := configureUpdatesIOS (projectDir env) options).
  destruct (configureUpdatesAndroid_frame (projectDir env) options d) as [FA1 FA2].
  fold A in FA1, FA2.
  destruct (A d) as [[[]|eA] dA] eqn:HA; cbn [fst snd] in *.
  - destruct (configureUpdatesIOS_frame (projectDir env) options dA) as (FI1 & FI2 & FI3).
    fold I in FI1, FI2, FI3.
    assert (HdA : dA = snd (A d)) by now rewrite HA.
    destruct (I dA) as [[[]|eI] dI] eqn:HI; cbn [fst snd] in *.
    + (* both passes succeeded *)
      destruct (configureUpdatesAndroid_again (projectDir env) options d dI)
        as (S1 & S2 & S3); fold A; try congruence.
      destruct (configureUpdatesAndroid_frame (projectDir env) options dI) as [FB1 FB2].
      fold A in S1, S2, S3, FB1, FB2. rewrite HA in S1. cbn [fst] in S1.
      destruct (A dI) as [[[]|eB] dB] eqn:HB; cbn [fst snd] in *; [|discriminate].
      assert (HdI : dI = snd (I dA)) by now rewrite HI.
      destruct (configureUpdatesIOS_again (projectDir env) options dA dB)
        as (T1 & T2 & T3); fold I; try congruence.
      destruct (configureUpdatesIOS_frame (projectDir env) options dB) as (FJ1 & FJ2 & _).
      fold I in T1, T2, T3, FJ1, FJ2. rewrite HI in T1. cbn [fst] in T1.
      destruct (I dB) as [[[]|eJ] dJ] eqn:HJ; cbn [fst snd] in *; [|discriminate].
      apply files_eq; congruence.
    + (* the iOS pass failed *)
      specialize (FI3 eI eq_refl). subst dI.
      destruct (configureUpdatesAndroid_again (projectDir env) options d dA)
        as (S1 & S2 & S3); fold A; try congruence.
      destruct (configureUpdatesAndroid_frame (projectDir env) options dA) as [FB1 FB2].
      fold A in S1, S2, S3, FB1, FB2. rewrite HA in S1. cbn [fst] in S1.
      destruct (A dA) as [[[]|eB] dB] eqn:HB; cbn [fst snd] in *; [|discriminate].
      destruct (configureUpdatesIOS_frame (projectDir env) options dB) as (FJ1 & FJ2 & FJ3).
      fold I in FJ1, FJ2, FJ3.
      assert (Hsame : fst (I dB) = fst (I dA)).
      { unfold I. rewrite !configureUpdatesIOS_run, FB1.
        destruct (xcodeProjects dA) as [|[path project] rest]; [reflexivity|].
        destruct (truthy path); [|reflexivity].
        destruct (getBundleReactNativePhase project); reflexivity. }
      rewrite HI in Hsame. cbn [fst] in Hsame.
      destruct (I dB) as [[[]|eJ] dJ] eqn:HJ; cbn [fst snd] in *; [discriminate|].
      specialize (FJ3 eJ eq_refl). subst dJ.
      apply files_eq; congruence.
  - (* the Android pass failed *)
    assert (HdA : dA = snd (A d)) by now rewrite HA.
    destruct (configureUpdatesAndroid_again (projectDir env) options d dA)
      as (S1 & S2 & S3); fold A; try congruence.
    destruct (configureUpdatesAndroid_frame (projectDir env) options dA) as [FB1 FB2].
    fold A in S1, S2, S3, FB1, FB2. rewrite HA in S1. cbn [fst] in S1.
    destruct (A dA) as [[[]|eB] dB] eqn:HB; cbn [fst snd] in *; [discriminate|].
    apply files_eq; congruence.
Qed.

End ConfigureTwice.

(** ** Switching the identity *)

Section ModeSwitch.

Import JsString JsValueOps Dom Spec ExpoUpdates.






End ModeSwitch.

(** ** The two revisions of the check *)

Section TwoRevisions.

Import JsString JsValueOps Dom Spec.

Context `{ExpoConfigPackage}.

(** What [find] returns is undefined or an element that passed the test. *)
Lemma findM_result p elems v :
  Variant.findM p elems = Ok v -> v = JUndefined \/ p v = Ok true.
Proof.
  induction elems as [|e elems IH]; simpl.
  - intros [= <-]. now left.
  - destruct (p e) as [[|]|err] eqn:E; [|exact IH|discriminate].
    intros [= <-]. now right.
Qed.

(** [getAndroidMetadataValue] never returns a string: it returns undefined
    or the entry of the array that carries the name. *)
Lemma getAndroidMetadataValue_not_string androidManifestJSON name v s :
  Variant.getAndroidMetadataValue androidManifestJSON name = Ok v ->
  strict_eq_string v s = false.
Proof.
  unfold Variant.getAndroidMetadataValue.
  destruct androidManifestJSON as [| |t|props|elems]; try discriminate.
  - simpl. intros [= <-]. reflexivity.
  - destruct (hasOwnProperty (JObject props) "meta-data"); [|intros [= <-]; reflexivity].
    unfold mbind, Result_bind.
    destruct (get (JObject props) "meta-data") as [metaData|err]; [|discriminate].
    destruct metaData as [| |t|props'|elems]; try discriminate.
    intros Hfind. apply findM_result in Hfind as [->|Hp]; [reflexivity|].
    destruct v as [| |t|props'|elems']; try reflexivity. discriminate.
  - simpl. intros [= <-]. reflexivity.
Qed.

(** So the Android check of this revision never answers true. *)
Lemma isMetadataSetAndroid_never androidManifestJSON exp username :
  Variant.isMetadataSetAndroid androidManifestJSON exp username <> Ok true.
Proof.
  unfold Variant.isMetadataSetAndroid, mbind, Result_bind, mret, Result_ret.
  destruct (Variant.getAndroidMetadataValue androidManifestJSON AndroidConfig_RUNTIME_VERSION)
    as [setRuntimeVersion|e]; [|discriminate].
  destruct (Variant.getAndroidMetadataValue androidManifestJSON AndroidConfig_SDK_VERSION)
    as [setSdkVersion|e]; [|discriminate].
  destruct (Variant.getAndroidMetadataValue androidManifestJSON AndroidConfig_UPDATE_URL)
    as [setUpdateUrl|e] eqn:Eurl; [|discriminate].
  destruct (narrow (AndroidConfig_getUpdateUrl exp username)) as [u|].
  - rewrite (getAndroidMetadataValue_not_string _ _ _ u Eurl), andb_false_r. discriminate.
  - rewrite andb_false_r. discriminate.
Qed.

Lemma isUpdatesConfiguredAsync_never env d :
  Variant.isExpoUpdatesInstalled env = true ->
  fst (Variant.isUpdatesConfiguredAsync env d) <> Ok true.
Proof.
  intros Hinst. unfold Variant.isUpdatesConfiguredAsync. rewrite Hinst. cbn [negb].
  unfold Variant.getConfigurationOptionsAsync, mbind, IO_bind, throw, mret, IO_ret.
  destruct (negb (truthy_opt (Exp.runtimeVersion (exp env)))
            && negb (truthy_opt (Exp.sdkVersion (exp env)))); [discriminate|].
  unfold Variant.isUpdatesConfiguredAndroidAsync,
    Variant.getAndroidBuildGradleContentAsync, mbind, IO_bind, gets, throw, lift, mret, IO_ret.
  destruct (buildGradle d) as [content|]; [|discriminate].
  destruct (negb (Variant.hasBuildScriptApply content)); [discriminate|].
  destruct (androidManifest d) as [document|]; [|discriminate].
  pose proof (isMetadataSetAndroid_never (AndroidConfig_manifestJSON document) (exp env)
                (getCurrentUsernameAsync env)) as Hnever.
  destruct (Variant.isMetadataSetAndroid (AndroidConfig_manifestJSON document) (exp env)
              (getCurrentUsernameAsync env)) as [[|]|e]; [congruence | |]; discriminate.
Qed.

(** C9 fails on the code.  Take the sample project of alice with runtime
    version 1.0.0 after [configureUpdatesAsync] of expoUpdates.ts has
    configured it.  [isUpdatesConfigured] answers true there, while
    [isUpdatesConfiguredAsync] of the other revision does not, whatever
    @expo/config does: its [getAndroidMetadataValue] returns the entry that
    [find] yields (or undefined), never the string it is compared with. *)
Theorem isUpdatesConfigured_revisions_disagree :
  let configured := snd (ExpoUpdates.configureUpdatesAsync Fixture.envRuntime Fixture.fresh) in
  ExpoUpdates.isUpdatesConfigured Fixture.envRuntime configured = (Ok true, configured) /\
  fst (Variant.isUpdatesConfiguredAsync Fixture.envRuntime configured) <> Ok true.
Proof.
  split.
  - vm_compute. reflexivity.
  - apply isUpdatesConfiguredAsync_never. reflexivity.
Qed.

End TwoRevisions.

(** * More properties *)

(** ** Submission errors *)

Section SubmissionErrorFacts.

Import SubmissionErrors.

Variable terminalLink : string -> string -> string.

Lemma asSubmissionErrorCode_value code :
  asSubmissionErrorCode (value code) = Some code.
Proof. destruct code; reflexivity. Qed.

Lemma asSubmissionErrorCode_Some code member :
  asSubmissionErrorCode code = Some member -> code = value member.
Proof.
  unfold asSubmissionErrorCode. intros Hf. apply find_some in Hf as [_ Hv].
  apply String.eqb_eq in Hv. now symmetry.
Qed.

Lemma asSubmissionErrorCode_None code :
  asSubmissionErrorCode code = None -> forall member, code <> value member.
Proof.
  unfold asSubmissionErrorCode. intros Hf member ->.
  assert (Hin : In member values) by (destruct member; simpl; tauto).
  pose proof (find_none _ _ Hf member Hin) as Hv. cbv beta in Hv.
  rewrite String.eqb_refl in Hv. discriminate.
Qed.

(** X1.  [printSubmissionError] answers false exactly for the five known
    codes other than the unknown-error code; it answers true for the
    unknown-error code and for every string that is not a value of the
    enum (the comparison is the exact one of strings). *)
Theorem printSubmissionError_answer error console :
  fst (printSubmissionError terminalLink error console) = false <->
  errorCode error = "SUBMISSION_SERVICE_COMMON_ARCHIVE_DOWNLOAD_NOT_FOUND_ERROR" \/
  errorCode error = "SUBMISSION_SERVICE_COMMON_ARCHIVE_DOWNLOAD_FORBIDDEN_ERROR" \/
  errorCode error = "SUBMISSION_SERVICE_ANDROID_FIRST_UPLOAD_ERROR" \/
  errorCode error = "SUBMISSION_SERVICE_ANDROID_OLD_VERSION_CODE_ERROR" \/
  errorCode error = "SUBMISSION_SERVICE_ANDROID_MISSING_PRIVACY_POLICY".
Proof.
  unfold printSubmissionError.
  destruct (asSubmissionErrorCode (errorCode error)) as [member|] eqn:E.
  - apply asSubmissionErrorCode_Some in E. rewrite E. cbn [fst].
    destruct member; simpl; split; intros Hq;
      try discriminate; try tauto;
      repeat (destruct Hq as [Hq|Hq]; try discriminate); discriminate.
  - pose proof (asSubmissionErrorCode_None _ E) as Hn. cbn [fst].
    split; [discriminate|].
    intros [Hq|[Hq|[Hq|[Hq|Hq]]]]; exfalso.
    + now apply (Hn ARCHIVE_DOWNLOAD_NOT_FOUND_ERROR).
    + now apply (Hn ARCHIVE_DOWNLOAD_FORBIDDEN_ERROR).
    + now apply (Hn ANDROID_FIRST_UPLOAD_ERROR).
    + now apply (Hn ANDROID_OLD_VERSION_CODE_ERROR).
    + now apply (Hn ANDROID_MISSING_PRIVACY_POLICY).
Qed.

(** X2.  For a code of the enum, [printSubmissionError] adds to the log a
    new line (if there is none) and then, as an error, the message that
    the table has for that very code; the message of the error object is
    not logged.  For any other code it logs the message of the error
    object, as it is.  Earlier log entries stay. *)
Theorem printSubmissionError_log error console :
  (forall member, errorCode error = value member ->
     snd (printSubmissionError terminalLink error console) =
     console ++ [AddNewLineIfNone; LogError (SubmissionErrorMessages terminalLink member)]) /\
  ((forall member, errorCode error <> value member) ->
     snd (printSubmissionError terminalLink error console) =
     console ++ [Log (message error)]).
Proof.
  unfold printSubmissionError. split.
  - intros member ->. now rewrite asSubmissionErrorCode_value.
  - intros Hn. destruct (asSubmissionErrorCode (errorCode error)) as [member|] eqn:E;
      [|reflexivity].
    apply asSubmissionErrorCode_Some in E. now destruct (Hn member).
Qed.

End SubmissionErrorFacts.

Section SubmissionErrorSamples.

Import SubmissionErrors.

Lemma printSubmissionError_log_witness :
  snd (printSubmissionError Sample.terminalLink
         (mkSubmissionError "SUBMISSION_SERVICE_ANDROID_MISSING_PRIVACY_POLICY" "details")
         [Log "Submitting"]) =
  [ Log "Submitting"; AddNewLineIfNone;
    LogError (SubmissionErrorMessages Sample.terminalLink ANDROID_MISSING_PRIVACY_POLICY) ] /\
  snd (printSubmissionError Sample.terminalLink
         (mkSubmissionError "SUBMISSION_SERVICE_IOS_UNKNOWN_ERROR" "details")
         [Log "Submitting"]) =
  [ Log "Submitting"; Log "details" ].
Proof.
  split.
  - apply (proj1 (printSubmissionError_log Sample.terminalLink
                    (mkSubmissionError "SUBMISSION_SERVICE_ANDROID_MISSING_PRIVACY_POLICY"
                       "details") [Log "Submitting"]) ANDROID_MISSING_PRIVACY_POLICY eq_refl).
  - apply (proj2 (printSubmissionError_log Sample.terminalLink
                    (mkSubmissionError "SUBMISSION_SERVICE_IOS_UNKNOWN_ERROR" "details")
                    [Log "Submitting"])).
    intros member E. destruct member; discriminate.
Defined.

End SubmissionErrorSamples.

(** ** What the check reads, and when it answers true *)

Section CheckFacts.

Import JsString JsValueOps Dom Spec ExpoUpdates.

Lemma isUpdatesConfiguredAndroid_disk projectDir options d :
  snd (isUpdatesConfiguredAndroid projectDir options d) = d.
Proof.
  rewrite isUpdatesConfiguredAndroid_run.
  destruct (buildGradle d) as [content|]; [|reflexivity].
  destruct (hasBuildScriptApply content); [|reflexivity].
  destruct (androidManifest d) as [document|]; [|reflexivity].
  now destruct (getElementsByTagName0 document "application").
Qed.

Lemma isUpdatesConfiguredIOS_disk projectDir options d :
  snd (isUpdatesConfiguredIOS projectDir options d) = d.
Proof.
  rewrite isUpdatesConfiguredIOS_run.
  destruct (xcodeProjects d) as [|[path project] rest]; [reflexivity|].
  destruct (truthy path); [|reflexivity].
  destruct (getBundleReactNativePhase project) as [p|e]; [|reflexivity].
  destruct (includes (Xcode.shellScript p) iOSBuildScript); [|reflexivity].
  now destruct (expoPlist d).
Qed.

Lemma variant_isUpdatesConfiguredAsync_disk `{ExpoConfigPackage} env d :
  snd (Variant.isUpdatesConfiguredAsync env d) = d.
Proof.
  unfold Variant.isUpdatesConfiguredAsync.
  destruct (Variant.isExpoUpdatesInstalled env); [|reflexivity]. cbn [negb].
  unfold Variant.getConfigurationOptionsAsync, Variant.isUpdatesConfiguredAndroidAsync,
    Variant.isUpdatesConfiguredIOS, Variant.getAndroidBuildGradleContentAsync,
    Variant.getPbxprojPathAsync, Variant.getXcodeProjectAsync,
    Variant.getBundleReactNativePhaseAsync, getPbxprojPath, getXcodeProject.
  unfold mbind, IO_bind, gets, throw, lift, mret, IO_ret.
  destruct (negb (truthy_opt (Exp.runtimeVersion (exp env)))
            && negb (truthy_opt (Exp.sdkVersion (exp env)))); [reflexivity|].
  destruct (buildGradle d) as [content|]; [|reflexivity].
  destruct (negb (Variant.hasBuildScriptApply content)); [reflexivity|].
  destruct (androidManifest d) as [document|]; [|reflexivity].
  destruct (Variant.isMetadataSetAndroid _ _ _) as [[|]|e]; [|reflexivity|reflexivity].
  cbn [negb].
  destruct (xcodeProjects d) as [|[path project] rest] eqn:Ex; [reflexivity|].
  cbn [map fst]. destruct (truthy path); [|reflexivity].
  rewrite Ex. destruct (assoc path ((path, project) :: rest)); [|reflexivity].
  destruct (getBundleReactNativePhase _) as [p|e]; [|reflexivity].
  destruct (negb (includes (Xcode.shellScript p) Variant.iOSBuildScript)); [reflexivity|].
  now destruct (expoPlist d).
Qed.

(** X3.  The check of either revision only reads: whatever it answers, and
    also when it throws, the disk (the four files, the directory and the
    journal of writes and git operations) is as it was. *)
Theorem isUpdatesConfigured_reads_only `{ExpoConfigPackage} env d :
  snd (isUpdatesConfigured env d) = d /\
  snd (Variant.isUpdatesConfiguredAsync env d) = d.
Proof.
  split; [|apply variant_isUpdatesConfiguredAsync_disk].
  rewrite isUpdatesConfigured_run.
  destruct (isExpoUpdatesInstalled env); [|reflexivity].
  destruct (resolved env) as [options|e]; [|reflexivity].
  pose proof (isUpdatesConfiguredAndroid_disk (projectDir env) options d) as HA.
  destruct (isUpdatesConfiguredAndroid (projectDir env) options d) as [[[|]|e] d1];
    cbn [snd] in HA; subst d1; try reflexivity.
  apply isUpdatesConfiguredIOS_disk.
Qed.

(** The answer of [isAndroidMetadataSet] in terms of the records. *)
Lemma synced_iff options children :
  valid options = true ->
  synced options children = true <->
  recorded (androidKey options) children = Some (versionOf options) /\
  recorded ExpoAndroidMetadata.UPDATE_URL children = Some (updateUrl options).
Proof.
  intros Hvalid. unfold synced, recorded.
  destruct options as [s u|r u]; cbn [valid] in Hvalid;
    cbn [runtimeVersion sdkVersion updateUrl truthy_opt androidKey versionOf strict_eq_opt
         strict_eq_string].
  - destruct (find (isMetadataNamed ExpoAndroidMetadata.SDK_VERSION) children) as [m|];
      destruct (find (isMetadataNamed ExpoAndroidMetadata.UPDATE_URL) children) as [m'|];
      cbn [option_map]; rewrite ?andb_true_iff, ?String.eqb_eq;
      split; intros [H1 H2]; try discriminate; split; congruence.
  - rewrite Hvalid.
    destruct (find (isMetadataNamed ExpoAndroidMetadata.RUNTIME_VERSION) children) as [m|];
      destruct (find (isMetadataNamed ExpoAndroidMetadata.UPDATE_URL) children) as [m'|];
      cbn [option_map]; rewrite ?andb_true_iff, ?String.eqb_eq;
      split; intros [H1 H2]; try discriminate; split; congruence.
Qed.

(** X4.  For a project that declares expo-updates and whose options
    resolve to valid ones, [isUpdatesConfigured] answers true exactly when
    all four artifacts are wired: build.gradle has the include line; the
    first application element of the manifest carries the version of the
    identity in use and the update URL (in the first meta-data child of
    each key); the first Xcode project has a build phase with the
    expected name whose script contains the include fragment; and
    Expo.plist holds that version and that URL.  In every other state it
    answers false or throws. *)
Theorem isUpdatesConfigured_true_iff env options d :
  isExpoUpdatesInstalled env = true ->
  fst (getConfigurationOptions env d) = Ok options ->
  valid options = true ->
  fst (isUpdatesConfigured env d) = Ok true <->
  (exists content, buildGradle d = Some content /\ hasBuildScriptApply content = true) /\
  (exists document app,
     androidManifest d = Some document /\
     getElementsByTagName0 document "application" = Some app /\
     recorded (androidKey options) (childNodes app) = Some (versionOf options) /\
     recorded ExpoAndroidMetadata.UPDATE_URL (childNodes app) = Some (updateUrl options)) /\
  (exists path project rest bundleReactNative,
     xcodeProjects d = (path, project) :: rest /\
     path <> "" /\
     getBundleReactNativePhase project = Ok bundleReactNative /\
     includes (Xcode.shellScript bundleReactNative) iOSBuildScript = true) /\
  (exists expoPlistData,
     expoPlist d = Some expoPlistData /\
     get expoPlistData (iosKey options) = Ok (JString (versionOf options)) /\
     get expoPlistData ExpoIOSMetadata.UPDATE_URL = Ok (JString (updateUrl options))).
Proof.
  intros Hinst Hopt Hvalid.
  rewrite getConfigurationOptions_run in Hopt. cbn [fst] in Hopt.
  rewrite isUpdatesConfigured_run, Hinst, Hopt, isUpdatesConfiguredAndroid_run.
  split.
  - destruct (buildGradle d) as [content|]; [|discriminate].
    destruct (hasBuildScriptApply content) eqn:Hh; [|discriminate].
    destruct (androidManifest d) as [document|]; [|discriminate].
    destruct (getElementsByTagName0 document "application") as [app|] eqn:Ha;
      [|discriminate].
    destruct (synced options (childNodes app)) eqn:Hs; [|discriminate].
    apply (synced_iff _ _ Hvalid) in Hs as [Hs1 Hs2].
    rewrite isUpdatesConfiguredIOS_run.
    destruct (xcodeProjects d) as [|[path project] rest]; [discriminate|].
    destruct (truthy path) eqn:Hp; [|discriminate].
    destruct (getBundleReactNativePhase project) as [p|e] eqn:Hphase; [|discriminate].
    destruct (includes (Xcode.shellScript p) iOSBuildScript) eqn:Hi; [|discriminate].
    destruct (expoPlist d) as [data|]; [|discriminate].
    cbn [fst]. intros Hplist. apply (plistSynced_iff _ _ Hvalid) in Hplist as [P1 P2].
    split; [|split; [|split]].
    + now exists content.
    + now exists document, app.
    + exists path, project, rest, p. split; [reflexivity|]. split; [|now split].
      intros ->. discriminate.
    + now exists data.
  - intros ((content & -> & ->) & (document & app & -> & -> & Hs1 & Hs2) &
            (path & project & rest & p & Hx & Hp & Hphase & Hi) &
            (data & Hd & P1 & P2)).
    assert (Hs : synced options (childNodes app) = true)
      by (apply synced_iff; auto).
    rewrite Hs, isUpdatesConfiguredIOS_run, Hx.
    destruct path as [|c path]; [congruence|]. cbn [truthy].
    rewrite Hphase, Hi, Hd. cbn [fst]. apply plistSynced_iff; auto.
Qed.

Lemma isUpdatesConfigured_true_iff_witness :
  isExpoUpdatesInstalled Fixture.envRuntime = true /\
  fst (getConfigurationOptions Fixture.envRuntime Sample.configured) =
  Ok Fixture.runtimeOptions /\
  valid Fixture.runtimeOptions = true /\
  fst (isUpdatesConfigured Fixture.envRuntime Sample.configured) = Ok true /\
  (exists expoPlistData,
     expoPlist Sample.configured = Some expoPlistData /\
     get expoPlistData "EXUpdatesSDKVersion" = Ok (JString "1.0.0") /\
     get expoPlistData "EXUpdatesURL" = Ok (JString "https://exp.host/@alice/myapp")).
Proof.
  repeat (split; [reflexivity|]).
  apply (isUpdatesConfigured_true_iff Fixture.envRuntime Fixture.runtimeOptions
           Sample.configured); reflexivity.
Defined.

(** X5.  The check stops at the first artifact that is not wired, without
    looking at the later ones: when build.gradle lacks the include line it
    answers false whatever the state of the manifest and of the iOS
    project (missing, without an application element, ...), and when the
    manifest does not carry the records it answers false whatever the
    state of the iOS project; no error of a later artifact is raised. *)
Theorem isUpdatesConfigured_stops_early env options d content :
  isExpoUpdatesInstalled env = true ->
  fst (getConfigurationOptions env d) = Ok options ->
  buildGradle d = Some content ->
  (hasBuildScriptApply content = false -> isUpdatesConfigured env d = (Ok false, d)) /\
  (forall document,
     hasBuildScriptApply content = true ->
     androidManifest d = Some document ->
     isAndroidMetadataSet document options = Ok false ->
     isUpdatesConfigured env d = (Ok false, d)).
Proof.
  intros Hinst Hopt Hg.
  rewrite getConfigurationOptions_run in Hopt. cbn [fst] in Hopt.
  rewrite isUpdatesConfigured_run, Hinst, Hopt, isUpdatesConfiguredAndroid_run, Hg.
  split.
  - now intros ->.
  - intros document -> -> Hset.
    destruct (getElementsByTagName0 document "application") as [app|] eqn:Ha.
    + rewrite (isAndroidMetadataSet_application _ _ _ Ha) in Hset.
      injection Hset as ->. reflexivity.
    + rewrite (isAndroidMetadataSet_no_application _ _ Ha) in Hset. discriminate.
Qed.

Lemma isUpdatesConfigured_stops_early_witness :
  isUpdatesConfigured Fixture.envRuntime Fixture.fresh = (Ok false, Fixture.fresh).
Proof.
  apply (isUpdatesConfigured_stops_early Fixture.envRuntime Fixture.runtimeOptions
           Fixture.fresh Fixture.buildGradle); reflexivity.
Defined.

End CheckFacts.

(** ** What a failed run leaves behind *)

Section FailureFacts.

Import JsString JsValueOps Dom Spec ExpoUpdates.

Lemma assoc_In {A} k (v : A) l : assoc k l = Some v -> In (k, v) l.
Proof.
  induction l as [|[k' v'] l IH]; simpl; [discriminate|].
  destruct (String.eqb k k') eqn:E.
  - apply String.eqb_eq in E. intros [= ->]. left. now subst.
  - intros Hl. right. now apply IH.
Qed.

(** X6.  [configureUpdatesAsync] changes something on disk (a file, the
    directory, the journal of writes and git operations) only for a
    project that declares expo-updates in the dependencies of
    package.json, with a user who is logged in, a runtime version or an
    SDK version that can be derived, and an android/app/build.gradle to
    start from.  Without any one of these the disk is as it was. *)
Theorem configureUpdatesAsync_only_when_ready env d :
  snd (configureUpdatesAsync env d) <> d ->
  (exists deps version,
     dependencies env = Some deps /\ In ("expo-updates", version) deps) /\
  (exists username, ensureLoggedInAsync env = Ok username) /\
  (truthy_opt (Exp.runtimeVersion (exp env)) = true \/
   exists sdkVersion, getExpoSDKVersion env = Ok sdkVersion) /\
  (exists content, buildGradle d = Some content).
Proof.
  rewrite configureUpdatesAsync_run. unfold isExpoUpdatesInstalled, resolved, resolvedFor.
  destruct (dependencies env) as [deps|]; [|now intros []].
  destruct (assoc "expo-updates" deps) as [version|] eqn:Hdep; [|now intros []].
  destruct (ensureLoggedInAsync env) as [username|e]; [|now intros []].
  rewrite (truthy_opt_narrow (Exp.runtimeVersion (exp env))).
  intros Hchanged. split; [|split; [|split]].
  - exists deps, version. split; [reflexivity | now apply assoc_In].
  - now exists username.
  - destruct (narrow (Exp.runtimeVersion (exp env))); [now left | right].
    destruct (getExpoSDKVersion env) as [v|e]; [now exists v | now destruct Hchanged].
  - destruct (buildGradle d) as [content|] eqn:Hg; [now exists content|].
    exfalso. apply Hchanged.
    destruct (match narrow (Exp.runtimeVersion (exp env)) with
              | Some _ => _ | None => _ end) as [options|e]; [|reflexivity].
    rewrite configureUpdatesAndroid_run, Hg. reflexivity.
Qed.

Lemma configureUpdatesAsync_only_when_ready_witness :
  snd (configureUpdatesAsync Fixture.envRuntime Fixture.fresh) <> Fixture.fresh /\
  (exists username, ensureLoggedInAsync Fixture.envRuntime = Ok username).
Proof.
  assert (Hchanged : snd (configureUpdatesAsync Fixture.envRuntime Fixture.fresh)
                     <> Fixture.fresh).
  { intros E. apply (f_equal supportingDir) in E. vm_compute in E. discriminate. }
  split; [exact Hchanged|].
  apply (configureUpdatesAsync_only_when_ready Fixture.envRuntime Fixture.fresh Hchanged).
Defined.

(** Whether the iOS pass fails depends on the Xcode projects only. *)
Lemma configureUpdatesIOS_result projectDir options d d' :
  xcodeProjects d' = xcodeProjects d ->
  fst (configureUpdatesIOS projectDir options d') =
  fst (configureUpdatesIOS projectDir options d).
Proof.
  intros Hx. rewrite !configureUpdatesIOS_run, Hx.
  destruct (xcodeProjects d) as [|[path project] rest]; [reflexivity|].
  destruct (truthy path); [|reflexivity].
  now destruct (getBundleReactNativePhase project).
Qed.

(** After a successful Android pass the Android check passes. *)
Lemma isUpdatesConfiguredAndroid_after projectDir options d :
  valid options = true ->
  fst (configureUpdatesAndroid projectDir options d) = Ok tt ->
  fst (isUpdatesConfiguredAndroid projectDir options
         (snd (configureUpdatesAndroid projectDir options d))) = Ok true.
Proof.
  intros Hvalid Hok.
  destruct (configureUpdatesAndroid_success _ _ _ Hok)
    as (content & document & app & Hg & Hm & Ha & Hd1).
  destruct (configureUpdatesAndroid_success_fields options d _ _ _ Hg Hm Ha)
    as (F1 & F2 & _).
  rewrite <- Hd1 in F1, F2.
  rewrite isUpdatesConfiguredAndroid_run, F1, hasBuildScriptApply_gradleAfter, F2.
  destruct (application_manifestAfter options _ _ Ha) as (app' & Ha' & _).
  now rewrite Ha', (synced_manifestAfter _ _ _ _ Hvalid Ha Ha').
Qed.

(** X7.  There is no rollback.  When the Android pass succeeds and the iOS
    pass fails (no Xcode project under ios, no build phase with the
    expected name, ...; the Android pass does not change that),
    [configureUpdatesAsync] fails with the error of the iOS pass and
    leaves the disk as the Android pass left it: the Android files are
    wired (the Android check passes on them), the iOS files are
    untouched, and git has not been consulted. *)
Theorem configureUpdatesAsync_ios_failure env options d e :
  isExpoUpdatesInstalled env = true ->
  fst (getConfigurationOptions env d) = Ok options ->
  valid options = true ->
  fst (configureUpdatesAndroid (projectDir env) options d) = Ok tt ->
  fst (configureUpdatesIOS (projectDir env) options d) = Throw e ->
  configureUpdatesAsync env d =
  (Throw e, snd (configureUpdatesAndroid (projectDir env) options d)) /\
  fst (isUpdatesConfiguredAndroid (projectDir env) options
         (snd (configureUpdatesAsync env d))) = Ok true /\
  xcodeProjects (snd (configureUpdatesAsync env d)) = xcodeProjects d /\
  expoPlist (snd (configureUpdatesAsync env d)) = expoPlist d /\
  (forall status commit,
     configureUpdatesAsync (withGit env status commit) d = configureUpdatesAsync env d).
Proof.
  intros Hinst Hopt Hvalid HokA HfailI.
  rewrite getConfigurationOptions_run in Hopt. cbn [fst] in Hopt.
  destruct (configureUpdatesAndroid_frame (projectDir env) options d) as [Fx Fp].
  assert (Hrun : forall env', isExpoUpdatesInstalled env' = true ->
                   resolved env' = Ok options -> projectDir env' = projectDir env ->
                   configureUpdatesAsync env' d =
                   (Throw e, snd (configureUpdatesAndroid (projectDir env) options d))).
  { intros env' Hinst' Hopt' Hdir.
    rewrite configureUpdatesAsync_run, Hinst', Hopt', Hdir.
    destruct (configureUpdatesAndroid (projectDir env) options d) as [[[]|e1] d1] eqn:HA;
      [|discriminate].
    cbn [snd] in *.
    pose proof (configureUpdatesIOS_result (projectDir env) options d d1 Fx) as HI.
    rewrite HfailI in HI.
    pose proof (configureUpdatesIOS_frame (projectDir env) options d1) as (_ & _ & Hsame).
    destruct (configureUpdatesIOS (projectDir env) options d1) as [[[]|e2] d2];
      cbn [fst] in HI; [discriminate|].
    injection HI as ->. cbn [fst snd] in Hsame. now rewrite (Hsame e eq_refl). }
  rewrite (Hrun env Hinst Hopt eq_refl). cbn [snd].
  split; [reflexivity|]. split; [now apply isUpdatesConfiguredAndroid_after|].
  split; [exact Fx|]. split; [exact Fp|].
  intros status commit. apply Hrun; [exact Hinst | exact Hopt | reflexivity].
Qed.

Lemma configureUpdatesAsync_ios_failure_witness :
  isExpoUpdatesInstalled Fixture.envRuntime = true /\
  fst (getConfigurationOptions Fixture.envRuntime Sample.noXcode) = Ok Fixture.runtimeOptions /\
  valid Fixture.runtimeOptions = true /\
  fst (configureUpdatesAndroid "/home/alice/myapp" Fixture.runtimeOptions Sample.noXcode)
  = Ok tt /\
  fst (configureUpdatesIOS "/home/alice/myapp" Fixture.runtimeOptions Sample.noXcode)
  = Throw (Error "Couldn't find Xcode project") /\
  fst (configureUpdatesAsync Fixture.envRuntime Sample.noXcode)
  = Throw (Error "Couldn't find Xcode project") /\
  fst (isUpdatesConfiguredAndroid "/home/alice/myapp" Fixture.runtimeOptions
         (snd (configureUpdatesAsync Fixture.envRuntime Sample.noXcode))) = Ok true.
Proof.
  repeat (split; [reflexivity|]).
  apply (configureUpdatesAsync_ios_failure Fixture.envRuntime Fixture.runtimeOptions
           Sample.noXcode (Error "Couldn't find Xcode project")
           eq_refl eq_refl eq_refl eq_refl eq_refl).
Defined.

(** X8.  build.gradle is patched before the manifest is looked for.  For
    a project that declares expo-updates, whose options resolve and that
    has build.gradle but no manifest, [configureUpdatesAsync] fails with
    the error that names the path of the manifest: the path that
    [path.join] gives for the project directory, android, app, src, main
    and AndroidManifest.xml, which for a project directory that is an
    absolute, normalized path other than the root is the project
    directory followed by /android/app/src/main/AndroidManifest.xml.  By
    then build.gradle has received the include block if it lacked the
    include line, and nothing else has been written. *)
Theorem configureUpdatesAsync_missing_manifest env options d content :
  isExpoUpdatesInstalled env = true ->
  fst (getConfigurationOptions env d) = Ok options ->
  buildGradle d = Some content ->
  androidManifest d = None ->
  fst (configureUpdatesAsync env d) =
  Throw (Error ("Couldn't find Android manifest at "
                +:+ NodePath.join [projectDir env; "android"; "app"; "src"; "main";
                                   "AndroidManifest.xml"])) /\
  (forall segments,
     Forall clean segments -> segments <> [] -> projectDir env = absolute segments ->
     NodePath.join [projectDir env; "android"; "app"; "src"; "main"; "AndroidManifest.xml"] =
     projectDir env +:+ "/android/app/src/main/AndroidManifest.xml") /\
  buildGradle (snd (configureUpdatesAsync env d)) =
  Some (if hasBuildScriptApply content then content
        else content +:+ NL +:+ "// Integration with Expo updates" +:+ NL
             +:+ androidBuildScript +:+ NL) /\
  journal (snd (configureUpdatesAsync env d)) =
  journal d ++ (if hasBuildScriptApply content then [] else [WriteFile BuildGradle]) /\
  androidManifest (snd (configureUpdatesAsync env d)) = None /\
  xcodeProjects (snd (configureUpdatesAsync env d)) = xcodeProjects d /\
  expoPlist (snd (configureUpdatesAsync env d)) = expoPlist d /\
  supportingDir (snd (configureUpdatesAsync env d)) = supportingDir d.
Proof.
  intros Hinst Hopt Hg Hm. rewrite getConfigurationOptions_run in Hopt. cbn [fst] in Hopt.
  rewrite configureUpdatesAsync_run, Hinst, Hopt, configureUpdatesAndroid_run, Hg, Hm.
  cbn [fst snd]. split; [reflexivity|]. split.
  { intros segments Hc Hne ->. now apply getAndroidManifestPath_normalized. }
  unfold afterGradle, gradleBlock.
  destruct (hasBuildScriptApply content); cbn.
  - rewrite app_nil_r. repeat split; assumption.
  - repeat split; assumption.
Qed.

Lemma configureUpdatesAsync_missing_manifest_witness :
  isExpoUpdatesInstalled Fixture.envRuntime = true /\
  fst (getConfigurationOptions Fixture.envRuntime Sample.noManifest)
  = Ok Fixture.runtimeOptions /\
  buildGradle Sample.noManifest = Some Fixture.buildGradle /\
  androidManifest Sample.noManifest = None /\
  fst (configureUpdatesAsync Fixture.envRuntime Sample.noManifest) =
  Throw (Error "Couldn't find Android manifest at /home/alice/myapp/android/app/src/main/AndroidManifest.xml") /\
  journal (snd (configureUpdatesAsync Fixture.envRuntime Sample.noManifest)) =
  [WriteFile BuildGradle].
Proof.
  repeat (split; [reflexivity|]).
  apply (configureUpdatesAsync_missing_manifest Fixture.envRuntime Fixture.runtimeOptions
           Sample.noManifest Fixture.buildGradle eq_refl eq_refl eq_refl eq_refl).
Defined.

(** X9.  A manifest without an application element makes both the Android
    pass and the Android check throw a TypeError (the children of the
    missing element are read) instead of an error that names the problem.
    The pass has patched build.gradle by then, and does not write the
    manifest. *)
Theorem configureUpdatesAndroid_no_application projectDir options d content document :
  buildGradle d = Some content ->
  androidManifest d = Some document ->
  getElementsByTagName0 document "application" = None ->
  (exists message,
     fst (configureUpdatesAndroid projectDir options d) = Throw (TypeError message)) /\
  buildGradle (snd (configureUpdatesAndroid projectDir options d)) =
  Some (if hasBuildScriptApply content then content
        else content +:+ NL +:+ "// Integration with Expo updates" +:+ NL
             +:+ androidBuildScript +:+ NL) /\
  androidManifest (snd (configureUpdatesAndroid projectDir options d)) = Some document /\
  writesTo AndroidManifest (snd (configureUpdatesAndroid projectDir options d)) =
  writesTo AndroidManifest d /\
  (hasBuildScriptApply content = true ->
   exists message,
     isUpdatesConfiguredAndroid projectDir options d = (Throw (TypeError message), d)).
Proof.
  intros Hg Hm Ha.
  rewrite configureUpdatesAndroid_run, isUpdatesConfiguredAndroid_run, Hg, Hm, Ha.
  cbn [fst snd]. split; [eauto|].
  unfold afterGradle, gradleBlock.
  destruct (hasBuildScriptApply content).
  - repeat split; eauto.
  - cbn. repeat split; try assumption; try discriminate.
    unfold writesTo. cbn. rewrite List.filter_app, List.length_app. cbn. lia.
Qed.

Lemma configureUpdatesAndroid_no_application_witness :
  buildGradle Sample.noApplication = Some Fixture.buildGradle /\
  getElementsByTagName0 (mkDocument [ Element "manifest" ∅ [ Text NL ] ]) "application"
  = None /\
  (exists message,
     fst (configureUpdatesAndroid "/home/alice/myapp" Fixture.runtimeOptions
            Sample.noApplication) = Throw (TypeError message)).
Proof.
  repeat (split; [reflexivity|]).
  apply (configureUpdatesAndroid_no_application "/home/alice/myapp" Fixture.runtimeOptions
           Sample.noApplication Fixture.buildGradle
           (mkDocument [ Element "manifest" ∅ [ Text NL ] ]) eq_refl eq_refl eq_refl).
Defined.

(** X10.  The iOS pass succeeds exactly when the first match of the glob
    has a build phase with the expected name; in every other case it
    throws before its first write, so the disk (journal included) is as
    it was. *)
Theorem configureUpdatesIOS_all_or_nothing projectDir options d :
  (fst (configureUpdatesIOS projectDir options d) = Ok tt <->
   exists path project rest bundleReactNative,
     xcodeProjects d = (path, project) :: rest /\
     path <> "" /\
     getBundleReactNativePhase project = Ok bundleReactNative) /\
  (fst (configureUpdatesIOS projectDir options d) <> Ok tt ->
   snd (configureUpdatesIOS projectDir options d) = d).
Proof.
  rewrite configureUpdatesIOS_run. split.
  - split.
    + destruct (xcodeProjects d) as [|[path project] rest]; [discriminate|].
      destruct (truthy path) eqn:Hp; [|discriminate].
      destruct (getBundleReactNativePhase project) as [p|e] eqn:Hphase; [|discriminate].
      intros _. exists path, project, rest, p. split; [reflexivity|].
      split; [|exact Hphase]. intros ->. discriminate.
    + intros (path & project & rest & p & -> & Hp & ->).
      destruct path; [congruence | reflexivity].
  - destruct (xcodeProjects d) as [|[path project] rest]; [reflexivity|].
    destruct (truthy path); [|reflexivity].
    destruct (getBundleReactNativePhase project) as [p|e]; [|reflexivity].
    now intros [].
Qed.

Lemma configureUpdatesIOS_all_or_nothing_witness :
  fst (configureUpdatesIOS "/home/alice/myapp" Fixture.runtimeOptions Sample.noXcode)
  <> Ok tt /\
  snd (configureUpdatesIOS "/home/alice/myapp" Fixture.runtimeOptions Sample.noXcode) =
  Sample.noXcode.
Proof.
  assert (Hfails : fst (configureUpdatesIOS "/home/alice/myapp" Fixture.runtimeOptions
                          Sample.noXcode) <> Ok tt) by discriminate.
  split; [exact Hfails|].
  apply (proj2 (configureUpdatesIOS_all_or_nothing "/home/alice/myapp" Fixture.runtimeOptions
                  Sample.noXcode) Hfails).
Defined.

End FailureFacts.

(** ** The edits, one by one *)

Section EditFacts.

Import JsString JsValueOps Dom Spec ExpoUpdates.

(** *** The build-phase script *)

Lemma replace_final_dquote_quoted body : replace_final_dquote (body +:+ DQ) = body.
Proof.
  induction body as [|c body IH]; [reflexivity|].
  cbn [String.append replace_final_dquote]. rewrite IH.
  destruct (body +:+ DQ) eqn:E; [|reflexivity].
  destruct body; discriminate.
Qed.

Lemma replace_final_dquote_other script :
  (forall body, script <> body +:+ DQ) -> replace_final_dquote script = script.
Proof.
  induction script as [|c script IH]; [reflexivity|]. intros Hn.
  cbn [replace_final_dquote]. destruct script as [|c' script].
  - destruct (Ascii.eqb c dquote) eqn:E; [|reflexivity].
    apply Ascii.eqb_eq in E. subst c. now destruct (Hn "").
  - f_equal. apply IH. intros body E. apply (Hn (String c body)).
    cbn [String.append]. now rewrite <- E.
Qed.

Lemma find_before expected before p after :
  Xcode.find expected before = None -> Xcode.nameIs expected p = true ->
  Xcode.find expected (before ++ Xcode.Phase p :: after) = Some p.
Proof.
  intros Hb Hp. induction before as [|[c|q] before IH]; simpl in *.
  - now rewrite Hp.
  - now apply IH.
  - destruct (Xcode.nameIs expected q); [discriminate | now apply IH].
Qed.

Lemma assignShellScript_before expected script before p after :
  Xcode.find expected before = None -> Xcode.nameIs expected p = true ->
  Xcode.assignShellScript expected script (before ++ Xcode.Phase p :: after) =
  before ++ Xcode.Phase (Xcode.mkBuildPhase (Xcode.name p) script) :: after.
Proof.
  intros Hb Hp. induction before as [|[c|q] before IH]; simpl in *.
  - now rewrite Hp.
  - f_equal. now apply IH.
  - destruct (Xcode.nameIs expected q); [discriminate|]. f_equal. now apply IH.
Qed.

(** X11.  The edit of the Xcode project is confined to one script.  When
    the first build phase with the expected name has a script without the
    include fragment, the project that [configureUpdatesIOS] writes back
    differs from the parsed one in that script only: the closing quote of
    the script (if it ends with one) is taken off, and the fragment, a
    backslash, the letter n and a quote are put at its end.  The phases
    and comments before and after it (also later phases of the same
    name), the rest of the project and the other Xcode projects are as
    they were. *)
Theorem configureUpdatesIOS_script_edit projectDir options d path project rest
    before bundleReactNative after :
  xcodeProjects d = (path, project) :: rest ->
  path <> "" ->
  Xcode.PBXShellScriptBuildPhase project =
  Some (before ++ Xcode.Phase bundleReactNative :: after) ->
  Xcode.find bundleReactNativeName before = None ->
  Xcode.name bundleReactNative = Some bundleReactNativeName ->
  includes (Xcode.shellScript bundleReactNative) iOSBuildScript = false ->
  exists script,
    xcodeProjects (snd (configureUpdatesIOS projectDir options d)) =
    (path,
     Xcode.mkXcodeProject
       (Some (before
              ++ Xcode.Phase (Xcode.mkBuildPhase (Some bundleReactNativeName) script)
              :: after))
       (Xcode.otherObjects project)) :: rest /\
    (forall body, Xcode.shellScript bundleReactNative = body +:+ DQ ->
       script = body +:+ iOSBuildScript +:+ "\n" +:+ DQ) /\
    ((forall body, Xcode.shellScript bundleReactNative <> body +:+ DQ) ->
     script = Xcode.shellScript bundleReactNative +:+ iOSBuildScript +:+ "\n" +:+ DQ).
Proof.
  intros Hx Hpath Hsection Hbefore Hname Hfresh.
  assert (Hnamed : Xcode.nameIs bundleReactNativeName bundleReactNative = true)
    by (unfold Xcode.nameIs; rewrite Hname; apply String.eqb_refl).
  assert (Hphase : getBundleReactNativePhase project = Ok bundleReactNative).
  { unfold getBundleReactNativePhase. rewrite Hsection.
    now rewrite (find_before _ _ _ _ Hbefore Hnamed). }
  exists (replace_final_dquote (Xcode.shellScript bundleReactNative)
          +:+ iOSBuildScript +:+ "\n" +:+ DQ).
  split; [|split].
  - rewrite configureUpdatesIOS_run, Hx, Hphase.
    destruct path as [|c path]; [congruence|]. cbn [truthy snd afterIOS xcodeProjects].
    unfold wiredProject. rewrite Hfresh. cbn [negb].
    unfold assignBundleReactNativeScript. rewrite Hsection. cbn [option_map].
    rewrite (assignShellScript_before _ _ _ _ _ Hbefore Hnamed). now rewrite Hname.
  - intros body ->. now rewrite replace_final_dquote_quoted.
  - intros Hn. now rewrite replace_final_dquote_other.
Qed.

Lemma configureUpdatesIOS_script_edit_witness :
  exists script,
    xcodeProjects (snd (configureUpdatesIOS "/home/alice/myapp" Fixture.runtimeOptions
                          Fixture.fresh)) =
    [ (Fixture.pbxprojPath,
       Xcode.mkXcodeProject
         (Some ([ Xcode.Phase (Xcode.mkBuildPhase (Some (DQ +:+ "Start Packager" +:+ DQ))
                                 (DQ +:+ "export RCT_METRO_PORT=8081\n" +:+ DQ));
                  Xcode.CommentValue "Start Packager" ]
                ++ Xcode.Phase (Xcode.mkBuildPhase (Some bundleReactNativeName) script)
                :: [ Xcode.CommentValue "Bundle React Native code and images" ]))
         "PBXNativeTarget myapp") ] /\
    script = Fixture.bundleScriptWired.
Proof.
  destruct (configureUpdatesIOS_script_edit "/home/alice/myapp" Fixture.runtimeOptions
              Fixture.fresh Fixture.pbxprojPath (Fixture.projectWith Fixture.bundleScript) []
              [ Xcode.Phase (Xcode.mkBuildPhase (Some (DQ +:+ "Start Packager" +:+ DQ))
                               (DQ +:+ "export RCT_METRO_PORT=8081\n" +:+ DQ));
                Xcode.CommentValue "Start Packager" ]
              (Xcode.mkBuildPhase (Some bundleReactNativeName) Fixture.bundleScript)
              [ Xcode.CommentValue "Bundle React Native code and images" ]
              eq_refl ltac:(discriminate) eq_refl eq_refl eq_refl eq_refl)
    as (script & Hprojects & Hquoted & _).
  exists script. split; [exact Hprojects|].
  apply (Hquoted (DQ +:+ "export NODE_BINARY=node\n../node_modules/react-native/scripts/react-native-xcode.sh\n")).
  reflexivity.
Defined.

(** *** The meta-data records of the manifest *)

Lemma filter_mutateFound name value children :
  List.filter (isMetadataNamed name)
    (mutateFound (isMetadataNamed name) (fun m => setAttribute m "android:value" value)
       children) =
  mutateFound (isMetadataNamed name) (fun m => setAttribute m "android:value" value)
    (List.filter (isMetadataNamed name) children).
Proof.
  induction children as [|n children IH]; [reflexivity|].
  cbn [mutateFound List.filter]. destruct (isMetadataNamed name n) eqn:E.
  - cbn [List.filter mutateFound]. now rewrite isMetadataNamed_setValue, E.
  - cbn [List.filter]. now rewrite E, IH.
Qed.

Lemma length_mutateFound p f (l : list Node) : length (mutateFound p f l) = length l.
Proof.
  induction l as [|n l IH]; [reflexivity|]. cbn [mutateFound].
  destruct (p n); cbn [length]; [reflexivity | now rewrite IH].
Qed.

Lemma find_None_filter p (l : list Node) : find p l = None -> List.filter p l = [].
Proof.
  induction l as [|n l IH]; [reflexivity|]. cbn [find List.filter].
  destruct (p n); [discriminate | exact IH].
Qed.

Lemma find_Some_records name children m :
  find (isMetadataNamed name) children = Some m -> 1 <= records name children.
Proof.
  unfold records. induction children as [|n children IH]; [discriminate|].
  cbn [find List.filter]. destruct (isMetadataNamed name n); cbn [length]; [lia | exact IH].
Qed.

(** A key has one record after [updateAndroidMetadata] if it had none, and
    as many as before otherwise. *)
Lemma records_upsert name value children :
  records name (upsert name value children) = Nat.max 1 (records name children).
Proof.
  unfold upsert.
  destruct (find (isMetadataNamed name) children) as [m|] eqn:E.
  - pose proof (find_Some_records _ _ _ E) as Hone.
    unfold records in *. rewrite filter_mutateFound, length_mutateFound. lia.
  - unfold records. rewrite List.filter_app, List.length_app, (find_None_filter _ _ E).
    cbn [List.filter createTextNode isMetadataNamed nodeName String.eqb Ascii.eqb
         Bool.eqb andb length].
    rewrite isMetadataNamed_metadataElement, String.eqb_refl. reflexivity.
Qed.

Lemma find_remove_other k k' children :
  k <> k' ->
  find (isMetadataNamed k') (remove k children) = find (isMetadataNamed k') children.
Proof.
  intros Hk. unfold remove. induction children as [|n children IH]; [reflexivity|].
  cbn [removeFound find]. destruct (isMetadataNamed k n) eqn:E.
  - now rewrite (isMetadataNamed_other _ _ _ Hk E).
  - cbn [find]. now rewrite IH.
Qed.

Lemma records_remove_other k k' children :
  k <> k' -> records k' (remove k children) = records k' children.
Proof.
  intros Hk. unfold records, remove. induction children as [|n children IH]; [reflexivity|].
  cbn [removeFound List.filter]. destruct (isMetadataNamed k n) eqn:E.
  - now rewrite (isMetadataNamed_other _ _ _ Hk E).
  - cbn [List.filter]. destruct (isMetadataNamed k' n); cbn [length]; now rewrite IH.
Qed.

(** Everything but the children of the first application element. *)
Lemma withChildren_outside g document :
  withChildren (fun _ => []) (withChildren g document) = withChildren (fun _ => []) document.
Proof. now rewrite withChildren_compose. Qed.

Lemma attributes_setChildNodes app c : attributes (setChildNodes app c) = attributes app.
Proof. now destruct app. Qed.

Lemma childNodes_setChildNodes tag a c c' :
  childNodes (setChildNodes (Element tag a c) c') = c'.
Proof. reflexivity. Qed.

(** X12.  [updateAndroidMetadata] on a manifest with an application
    element returns a manifest in which the first record of the key
    carries the value; the key has one record if it had none and as many
    as before otherwise (no duplicate is added); the records of every
    other key, the attributes of the application element and everything
    outside the children of that element are as they were. *)
Theorem updateAndroidMetadata_effect document name value app :
  getElementsByTagName0 document "application" = Some app ->
  exists document' app',
    updateAndroidMetadata document name value = Ok document' /\
    getElementsByTagName0 document' "application" = Some app' /\
    recorded name (childNodes app') = Some value /\
    records name (childNodes app') = Nat.max 1 (records name (childNodes app)) /\
    (forall other, other <> name ->
       find (isMetadataNamed other) (childNodes app') =
       find (isMetadataNamed other) (childNodes app) /\
       records other (childNodes app') = records other (childNodes app)) /\
    attributes app' = attributes app /\
    withChildren (fun _ => []) document' = withChildren (fun _ => []) document.
Proof.
  intros Ha. destruct (firstByTagNameIn_found _ _ _ Ha) as (a & c & ->).
  exists (withChildren (upsert name value) document),
         (setChildNodes (Element "application" a c) (upsert name value c)).
  split; [now apply updateAndroidMetadata_application with (Element "application" a c)|].
  split; [now rewrite (application_withChildren_Some _ _ _ Ha)|].
  rewrite childNodes_setChildNodes. cbn [childNodes].
  split; [apply recorded_upsert|]. split; [apply records_upsert|].
  split; [|split; [reflexivity | apply withChildren_outside]].
  intros other Hother. split.
  - apply find_upsert_other. congruence.
  - apply records_upsert_other. congruence.
Qed.

Lemma updateAndroidMetadata_effect_witness :
  exists document' app',
    updateAndroidMetadata Fixture.manifest "expo.modules.updates.EXPO_UPDATE_URL"
      "https://exp.host/@alice/myapp" = Ok document' /\
    getElementsByTagName0 document' "application" = Some app' /\
    recorded "expo.modules.updates.EXPO_UPDATE_URL" (childNodes app') =
    Some "https://exp.host/@alice/myapp".
Proof.
  destruct (updateAndroidMetadata_effect Fixture.manifest
              "expo.modules.updates.EXPO_UPDATE_URL" "https://exp.host/@alice/myapp"
              (Element "application" (<["android:name" := ".MainApplication"]> ∅)
                 [ Text NL; Fixture.activity; Text NL ]) eq_refl)
    as (document' & app' & H1 & H2 & H3 & _).
  now exists document', app'.
Defined.

Lemma removeFound_first p before (m : Node) after :
  find p before = None -> p m = true ->
  removeFound p (before ++ m :: after) = before ++ after.
Proof.
  intros Hb Hm. induction before as [|n before IH]; cbn [app removeFound find] in *.
  - now rewrite Hm.
  - destruct (p n); [discriminate|]. f_equal. now apply IH.
Qed.

(** X13.  [removeAndroidMetadata] on a manifest with an application
    element takes away the first record of the key and nothing else:
    when the children are some nodes without a record of the key, then a
    record of the key, then the rest, the children afterwards are those
    nodes and the rest, in order (a second record of the key stays), and
    when no child is a record of the key the manifest is returned as it
    is.  So the key has one record less, and the records of every other
    key, the attributes of the application element and everything outside
    the children of that element are as they were.  It does not undo
    [updateAndroidMetadata]: after a record has been added for a key that
    had none and removed again, the two text nodes that came with it
    stay. *)
Theorem removeAndroidMetadata_effect document name app :
  getElementsByTagName0 document "application" = Some app ->
  exists document' app',
    removeAndroidMetadata document name = Ok document' /\
    getElementsByTagName0 document' "application" = Some app' /\
    (forall before metadata after,
       childNodes app = before ++ metadata :: after ->
       find (isMetadataNamed name) before = None ->
       isMetadataNamed name metadata = true ->
       childNodes app' = before ++ after) /\
    (find (isMetadataNamed name) (childNodes app) = None ->
     document' = document /\ app' = app) /\
    records name (childNodes app') = pred (records name (childNodes app)) /\
    (forall other, other <> name ->
       find (isMetadataNamed other) (childNodes app') =
       find (isMetadataNamed other) (childNodes app) /\
       records other (childNodes app') = records other (childNodes app)) /\
    attributes app' = attributes app /\
    withChildren (fun _ => []) document' = withChildren (fun _ => []) document /\
    (forall value updated,
       find (isMetadataNamed name) (childNodes app) = None ->
       updateAndroidMetadata document name value = Ok updated ->
       removeAndroidMetadata updated name =
       Ok (withChildren (fun children => children ++ [Text "  "; Text (NL +:+ "    ")])
             document)).
Proof.
  intros Ha. destruct (firstByTagNameIn_found _ _ _ Ha) as (a & c & ->).
  exists (withChildren (remove name) document),
         (setChildNodes (Element "application" a c) (remove name c)).
  split; [now apply removeAndroidMetadata_application with (Element "application" a c)|].
  split; [now rewrite (application_withChildren_Some _ _ _ Ha)|].
  rewrite childNodes_setChildNodes. cbn [childNodes].
  split; [|split].
  { intros before metadata after -> Hbefore Hmeta. now apply removeFound_first. }
  { intros Hnone. cbn [setChildNodes]. rewrite (remove_absent _ _ Hnone).
    split; [|reflexivity].
    unfold withChildren.
    apply mutateElement0_fixed with (Element "application" a c); [exact Ha|].
    cbn [childNodes setChildNodes]. now rewrite (remove_absent _ _ Hnone). }
  split; [apply records_remove|].
  split; [|split; [reflexivity | split; [apply withChildren_outside|]]].
  - intros other Hother. split.
    + apply find_remove_other. congruence.
    + apply records_remove_other. congruence.
  - intros value updated Hnone Hupdate.
    rewrite (updateAndroidMetadata_application _ _ _ _ Ha) in Hupdate.
    injection Hupdate as <-.
    rewrite (removeAndroidMetadata_application _ _ _
               (application_withChildren_Some _ _ _ Ha)).
    rewrite withChildren_compose. f_equal.
    unfold withChildren. apply mutateElement0_ext with (Element "application" a c);
      [exact Ha|].
    cbn [childNodes setChildNodes]. f_equal.
    unfold upsert, remove. rewrite Hnone. clear Ha.
    induction c as [|n c IH].
    + cbn [app removeFound createTextNode isMetadataNamed nodeName String.eqb Ascii.eqb
           Bool.eqb andb].
      now rewrite isMetadataNamed_metadataElement, String.eqb_refl.
    + cbn [find] in Hnone. cbn [app removeFound].
      destruct (isMetadataNamed name n); [discriminate|]. f_equal. now apply IH.
Qed.

Lemma removeAndroidMetadata_effect_witness :
  exists document' app',
    removeAndroidMetadata Fixture.manifestBoth "expo.modules.updates.EXPO_SDK_VERSION"
    = Ok document' /\
    getElementsByTagName0 document' "application" = Some app' /\
    childNodes app' =
    [ Text NL; Fixture.activity;
      Fixture.metaData ExpoAndroidMetadata.RUNTIME_VERSION "1.0.0";
      Fixture.metaData ExpoAndroidMetadata.UPDATE_URL Fixture.updateUrl;
      Text NL ].
Proof.
  destruct (removeAndroidMetadata_effect Fixture.manifestBoth
              "expo.modules.updates.EXPO_SDK_VERSION"
              (Element "application" (<["android:name" := ".MainApplication"]> ∅)
                 [ Text NL; Fixture.activity;
                   Fixture.metaData ExpoAndroidMetadata.RUNTIME_VERSION "1.0.0";
                   Fixture.metaData ExpoAndroidMetadata.SDK_VERSION "39.0.0";
                   Fixture.metaData ExpoAndroidMetadata.UPDATE_URL Fixture.updateUrl;
                   Text NL ]) eq_refl)
    as (document' & app' & H1 & H2 & H3 & _).
  exists document', app'. split; [exact H1|]. split; [exact H2|].
  apply (H3 [ Text NL; Fixture.activity;
              Fixture.metaData ExpoAndroidMetadata.RUNTIME_VERSION "1.0.0" ]
            (Fixture.metaData ExpoAndroidMetadata.SDK_VERSION "39.0.0")
            [ Fixture.metaData ExpoAndroidMetadata.UPDATE_URL Fixture.updateUrl; Text NL ]);
    reflexivity.
Defined.

(** *** The include line of build.gradle *)

(** X14.  [hasBuildScriptApply] (of either revision) looks at each line
    on its own: for two texts joined by a newline it answers true exactly
    when it does for one of them.  So text that is added after a newline
    never hides an include line, and an include line that is added on a
    line of its own is always found. *)
Theorem hasBuildScriptApply_lines before after :
  hasBuildScriptApply (before +:+ NL +:+ after) =
  hasBuildScriptApply before || hasBuildScriptApply after /\
  Variant.hasBuildScriptApply (before +:+ NL +:+ after) =
  Variant.hasBuildScriptApply before || Variant.hasBuildScriptApply after.
Proof.
  assert (Hlines : hasBuildScriptApply (before +:+ NL +:+ after) =
                   hasBuildScriptApply before || hasBuildScriptApply after).
  { unfold hasBuildScriptApply.
    change (before +:+ NL +:+ after) with (before +:+ String newline after).
    now rewrite split_append, existsb_app. }
  split; [exact Hlines|].
  change Variant.hasBuildScriptApply with hasBuildScriptApply. exact Hlines.
Qed.

End EditFacts.

(** ** Git, and a run on a project that is already configured *)

Section RunFacts.

Import JsString JsValueOps Dom Spec ExpoUpdates.

(** X15.  The files do not depend on git, and there is no rollback.  For
    a project that declares expo-updates and on which
    [configureUpdatesAsync] succeeds when the git tree is clean: with a
    dirty tree and a commit that goes through it succeeds as well; with a
    dirty tree and a commit that fails (or is declined) it fails with the
    message that starts with Aborting; with any other failure of the
    status check it fails with that failure.  In all these cases it
    leaves the very disk of the clean run: the configuration stays
    written. *)
Theorem configureUpdatesAsync_git_outcomes env d :
  isExpoUpdatesInstalled env = true ->
  fst (configureUpdatesAsync (withGit env (Ok tt) (Ok tt)) d) = Ok tt ->
  (forall commit,
     configureUpdatesAsync (withGit env (Ok tt) commit) d =
     (Ok tt, snd (configureUpdatesAsync (withGit env (Ok tt) (Ok tt)) d))) /\
  configureUpdatesAsync (withGit env (Throw DirtyGitTreeError) (Ok tt)) d =
  (Ok tt, snd (configureUpdatesAsync (withGit env (Ok tt) (Ok tt)) d)) /\
  (forall e,
     configureUpdatesAsync (withGit env (Throw DirtyGitTreeError) (Throw e)) d =
     (Throw (Error "Aborting, run the command again once you're ready. Make sure to commit any changes you've made."),
      snd (configureUpdatesAsync (withGit env (Ok tt) (Ok tt)) d))) /\
  (forall e commit,
     e <> DirtyGitTreeError ->
     configureUpdatesAsync (withGit env (Throw e) commit) d =
     (Throw e, snd (configureUpdatesAsync (withGit env (Ok tt) (Ok tt)) d))).
Proof.
  intros Hinst Hok.
  assert (Hrun : forall status commit,
            configureUpdatesAsync (withGit env status commit) d =
            match resolved env with
            | Ok options =>
                match configureUpdatesAndroid (projectDir env) options d with
                | (Ok _, d1) =>
                    match configureUpdatesIOS (projectDir env) options d1 with
                    | (Ok _, d2) => (gitOutcome (withGit env status commit), d2)
                    | (Throw e, d2) => (Throw e, d2)
                    end
                | (Throw e, d1) => (Throw e, d1)
                end
            | Throw e => (Throw e, d)
            end).
  { intros status commit. rewrite configureUpdatesAsync_run.
    change (isExpoUpdatesInstalled (withGit env status commit))
      with (isExpoUpdatesInstalled env).
    rewrite Hinst. reflexivity. }
  rewrite !Hrun in Hok |- *.
  assert (Hall : forall status commit,
            configureUpdatesAsync (withGit env status commit) d =
            (gitOutcome (withGit env status commit),
             snd (configureUpdatesAsync (withGit env (Ok tt) (Ok tt)) d))).
  { intros status commit. rewrite !Hrun.
    destruct (resolved env) as [options|e]; [|discriminate].
    destruct (configureUpdatesAndroid (projectDir env) options d) as [[[]|e] d1];
      [|discriminate].
    destruct (configureUpdatesIOS (projectDir env) options d1) as [[[]|e] d2];
      [reflexivity | discriminate]. }
  rewrite <- (Hrun (Ok tt) (Ok tt)).
  split; [|split; [|split]].
  - intros commit. now rewrite Hall.
  - now rewrite Hall.
  - intros e. now rewrite Hall.
  - intros e commit He. rewrite Hall. unfold gitOutcome. cbn.
    destruct e; try reflexivity. congruence.
Qed.

Lemma configureUpdatesAsync_git_outcomes_witness :
  isExpoUpdatesInstalled Fixture.envRuntime = true /\
  fst (configureUpdatesAsync (withGit Fixture.envRuntime (Ok tt) (Ok tt)) Fixture.fresh)
  = Ok tt /\
  configureUpdatesAsync
    (withGit Fixture.envRuntime (Throw DirtyGitTreeError) (Throw (Error "declined")))
    Fixture.fresh =
  (Throw (Error "Aborting, run the command again once you're ready. Make sure to commit any changes you've made."),
   snd (configureUpdatesAsync (withGit Fixture.envRuntime (Ok tt) (Ok tt)) Fixture.fresh)).
Proof.
  split; [reflexivity|]. split; [reflexivity|].
  apply (configureUpdatesAsync_git_outcomes Fixture.envRuntime Fixture.fresh
           eq_refl eq_refl).
Defined.

(** X16.  On a project for which [isUpdatesConfigured] answers true,
    [configureUpdatesAsync] does not touch the Android files and leaves
    the Xcode projects as they are parsed, but it is not a no-op:
    project.pbxproj and Expo.plist are written again (Expo.plist with the
    two entries built from the options, whatever else it held), its
    directory is created only if it is missing, and Expo.plist is staged
    in git. *)
Theorem configureUpdatesAsync_when_configured env d :
  isExpoUpdatesInstalled env = true ->
  fst (isUpdatesConfigured env d) = Ok true ->
  exists options,
    fst (getConfigurationOptions env d) = Ok options /\
    buildGradle (snd (configureUpdatesAsync env d)) = buildGradle d /\
    androidManifest (snd (configureUpdatesAsync env d)) = androidManifest d /\
    xcodeProjects (snd (configureUpdatesAsync env d)) = xcodeProjects d /\
    expoPlist (snd (configureUpdatesAsync env d)) = Some (items options) /\
    journal (snd (configureUpdatesAsync env d)) =
    journal d ++ [WriteFile Pbxproj] ++ (if supportingDir d then [] else [Mkdirp])
    ++ [WriteFile ExpoPlist; GitAdd ExpoPlist] /\
    (ensureGitStatusIsCleanAsync env = Ok tt -> fst (configureUpdatesAsync env d) = Ok tt).
Proof.
  intros Hinst. rewrite isUpdatesConfigured_run, Hinst, getConfigurationOptions_run.
  destruct (resolved env) as [options|e] eqn:Hopt; [|discriminate].
  rewrite isUpdatesConfiguredAndroid_run.
  destruct (buildGradle d) as [content|] eqn:Hg; [|discriminate].
  destruct (hasBuildScriptApply content) eqn:Hh; [|discriminate].
  destruct (androidManifest d) as [document|] eqn:Hm; [|discriminate].
  destruct (getElementsByTagName0 document "application") as [app|] eqn:Ha;
    [|discriminate].
  destruct (synced options (childNodes app)) eqn:Hs; [|discriminate].
  rewrite isUpdatesConfiguredIOS_run.
  destruct (xcodeProjects d) as [|[path project] rest] eqn:Hx; [discriminate|].
  destruct (truthy path) eqn:Hp; [|discriminate].
  destruct (getBundleReactNativePhase project) as [p|e] eqn:Hphase; [|discriminate].
  destruct (includes (Xcode.shellScript p) iOSBuildScript) eqn:Hi; [|discriminate].
  intros _. exists options. split; [reflexivity|].
  rewrite configureUpdatesAsync_run, Hinst, Hopt, configureUpdatesAndroid_run, Hg, Hm, Ha.
  assert (Hd1 : afterManifest options document (childNodes app) (afterGradle content d) = d).
  { unfold afterManifest, afterGradle. now rewrite Hs, Hh. }
  rewrite Hd1, configureUpdatesIOS_run, Hx, Hp, Hphase.
  cbn [snd afterIOS buildGradle androidManifest xcodeProjects expoPlist journal].
  rewrite (wiredProject_fixed _ _ Hi). unfold createdDir.
  repeat (split; [reflexivity || assumption|]).
  intros Hgit. cbn [fst]. unfold gitOutcome. now rewrite Hgit.
Qed.

Lemma configureUpdatesAsync_when_configured_witness :
  isExpoUpdatesInstalled Fixture.envRuntime = true /\
  fst (isUpdatesConfigured Fixture.envRuntime Sample.configured) = Ok true /\
  exists options,
    fst (getConfigurationOptions Fixture.envRuntime Sample.configured) = Ok options /\
    buildGradle (snd (configureUpdatesAsync Fixture.envRuntime Sample.configured)) =
    buildGradle Sample.configured.
Proof.
  split; [reflexivity|]. split; [reflexivity|].
  destruct (configureUpdatesAsync_when_configured Fixture.envRuntime Sample.configured
              eq_refl eq_refl) as (options & Hopt & Hg & _).
  now exists options.
Defined.

End RunFacts.

(** ** The revision on @expo/config: the Android pass and the entry point *)

Section VariantFacts.

Import JsString JsValueOps Dom Spec.

Context `{ExpoConfigPackage} `{ExpoConfigWriter}.

(** What [configureUpdatesAndroidAsync] returns and leaves on disk.  The
    answer of [isMetadataSetAndroid] is never true, so the manifest is
    always handed to [setUpdatesConfig]. *)
Lemma configureUpdatesAndroidAsync_run projectDir exp username d :
  VariantConfigure.configureUpdatesAndroidAsync projectDir exp username d =
  match buildGradle d with
  | None =>
      (Throw (Error ("Couldn't find gradle build script at "
                     +:+ ExpoUpdates.getAndroidBuildGradlePath projectDir)), d)
  | Some content =>
      match androidManifest d with
      | None => (Throw (ExternalError "ENOENT"), afterGradle content d)
      | Some document =>
          match Variant.isMetadataSetAndroid (AndroidConfig_manifestJSON document)
                  exp username with
          | Throw e => (Throw e, afterGradle content d)
          | Ok _ =>
              match AndroidConfig_setUpdatesConfig exp (AndroidConfig_manifestJSON document)
                      username with
              | Throw e => (Throw e, afterGradle content d)
              | Ok result =>
                  (Ok tt,
                   snd (Fs.writeAndroidManifest (AndroidConfig_writtenManifest result)
                          (afterGradle content d)))
              end
          end
      end
  end.
Proof.
  unfold VariantConfigure.configureUpdatesAndroidAsync,
    Variant.getAndroidBuildGradleContentAsync, Variant.getAndroidBuildGradlePath.
  unfold mbind, IO_bind, gets, throw, lift, mret, IO_ret.
  destruct (buildGradle d) as [content|] eqn:Eg; [|reflexivity].
  assert (Hm : androidManifest (afterGradle content d) = androidManifest d).
  { unfold afterGradle. now destruct (ExpoUpdates.hasBuildScriptApply content). }
  assert (Hstep :
    (if negb (Variant.hasBuildScriptApply content)
     then Fs.writeBuildGradle
            (content +:+ NL +:+ "// Integration with Expo updates" +:+ NL
             +:+ Variant.androidBuildScript +:+ NL)
     else fun d0 => (Ok tt, d0)) d = (Ok tt, afterGradle content d)).
  { unfold afterGradle, gradleBlock.
    change (Variant.hasBuildScriptApply content)
      with (ExpoUpdates.hasBuildScriptApply content).
    now destruct (ExpoUpdates.hasBuildScriptApply content). }
  rewrite Hstep, Hm.
  destruct (androidManifest d) as [document|]; [|reflexivity].
  pose proof (isMetadataSetAndroid_never (AndroidConfig_manifestJSON document) exp username)
    as Hnever.
  destruct (Variant.isMetadataSetAndroid (AndroidConfig_manifestJSON document) exp username)
    as [[|]|e]; [congruence | | reflexivity].
  cbn [negb].
  now destruct (AndroidConfig_setUpdatesConfig exp (AndroidConfig_manifestJSON document)
                  username).
Qed.

(** X17.  In the revision on @expo/config the Android pass rewrites the
    manifest on every run that succeeds, also on a manifest that an
    earlier run has just written: the guard [isMetadataSetAndroid] never
    answers true (the value it compares is the element that [find]
    returns, not a string), whatever @expo/config does.  What is written
    is what [setUpdatesConfig] returned for the manifest that was read. *)
Theorem variant_android_always_writes projectDir exp username d :
  fst (VariantConfigure.configureUpdatesAndroidAsync projectDir exp username d) = Ok tt ->
  writesTo AndroidManifest
    (snd (VariantConfigure.configureUpdatesAndroidAsync projectDir exp username d)) =
  S (writesTo AndroidManifest d) /\
  exists document result,
    androidManifest d = Some document /\
    AndroidConfig_setUpdatesConfig exp (AndroidConfig_manifestJSON document) username =
    Ok result /\
    androidManifest
      (snd (VariantConfigure.configureUpdatesAndroidAsync projectDir exp username d)) =
    Some (AndroidConfig_writtenManifest result).
Proof.
  rewrite configureUpdatesAndroidAsync_run.
  destruct (buildGradle d) as [content|] eqn:Hg; [|discriminate].
  assert (Hw : writesTo AndroidManifest (afterGradle content d) = writesTo AndroidManifest d).
  { unfold afterGradle.
    destruct (ExpoUpdates.hasBuildScriptApply content); [reflexivity|].
    unfold Fs.writeBuildGradle, modify. cbn [snd]. rewrite writesTo_record.
    unfold writesTo. cbn [journal isWriteOf]. lia. }
  destruct (androidManifest d) as [document|] eqn:Hm; [|discriminate].
  destruct (Variant.isMetadataSetAndroid _ _ _) as [isSet|e]; [|discriminate].
  destruct (AndroidConfig_setUpdatesConfig exp (AndroidConfig_manifestJSON document)
              username) as [result|e] eqn:Hset; [|discriminate].
  intros _. cbn [snd]. split.
  - unfold Fs.writeAndroidManifest, modify. cbn [snd]. rewrite writesTo_record.
    match goal with
    | |- writesTo _ ?written + _ = _ =>
        change (writesTo AndroidManifest written)
          with (writesTo AndroidManifest (afterGradle content d))
    end.
    rewrite Hw. cbn [isWriteOf]. lia.
  - exists document, result. split; [reflexivity|]. split; [exact Hset | reflexivity].
Qed.

(** X18.  Both revisions leave the same build.gradle, in every case (also
    when the pass fails later, on the manifest): the include block is
    added under the same condition and with the same text. *)
Theorem revisions_same_build_gradle projectDir options exp username d :
  buildGradle (snd (VariantConfigure.configureUpdatesAndroidAsync projectDir exp username d))
  = buildGradle (snd (ExpoUpdates.configureUpdatesAndroid projectDir options d)).
Proof.
  destruct (configureUpdatesAndroid_files projectDir options d) as [-> _].
  rewrite configureUpdatesAndroidAsync_run.
  destruct (buildGradle d) as [content|] eqn:Hg; [|exact Hg].
  destruct (afterGradle_fields content d Hg) as (G1 & _).
  cbn [option_map]. rewrite <- G1.
  destruct (androidManifest d) as [document|]; [|reflexivity].
  destruct (Variant.isMetadataSetAndroid _ _ _) as [isSet|e]; [|reflexivity].
  now destruct (AndroidConfig_setUpdatesConfig exp (AndroidConfig_manifestJSON document)
                  username).
Qed.

(** X25.  The iOS passes of the two revisions end alike (both succeed, or
    both fail with the same error) and differ only in what they write to
    Expo.plist and in when they create its directory.  They leave the
    same build.gradle, manifest and Xcode projects (the build-phase
    script is edited in the same way) and the same answer on whether the
    directory exists, and their journals are the same once the creations
    of the directory are left out.  When they succeed, the named revision
    writes the dictionary built from the options and creates the
    directory only if it is missing, while the revision on @expo/config
    writes what [setUpdatesConfig] returns for the prior dictionary and
    always asks for the directory; when they fail, both leave the disk
    as it was. *)
Theorem revisions_same_pbxproj projectDir options exp username d :
  let variant := Variant.configureUpdatesIOSAsync projectDir exp username d in
  let named := ExpoUpdates.configureUpdatesIOS projectDir options d in
  fst variant = fst named /\
  buildGradle (snd variant) = buildGradle (snd named) /\
  androidManifest (snd variant) = androidManifest (snd named) /\
  xcodeProjects (snd variant) = xcodeProjects (snd named) /\
  supportingDir (snd variant) = supportingDir (snd named) /\
  List.filter (fun e => match e with Mkdirp => false | _ => true end) (journal (snd variant)) =
  List.filter (fun e => match e with Mkdirp => false | _ => true end) (journal (snd named)) /\
  (fst named = Ok tt ->
   expoPlist (snd named) = Some (ExpoUpdates.items options) /\
   expoPlist (snd variant) =
   Some (IOSConfig_setUpdatesConfig exp
           (match expoPlist d with Some prior => prior | None => JObject [] end) username) /\
   journal (snd named) =
   journal d ++ [WriteFile Pbxproj] ++ (if supportingDir d then [] else [Mkdirp])
   ++ [WriteFile ExpoPlist; GitAdd ExpoPlist] /\
   journal (snd variant) =
   journal d ++ [WriteFile Pbxproj; Mkdirp; WriteFile ExpoPlist; GitAdd ExpoPlist]) /\
  (fst named <> Ok tt -> snd named = d /\ snd variant = d).
Proof.
  cbv zeta. rewrite configureUpdatesIOSAsync_run, configureUpdatesIOS_run.
  destruct (xcodeProjects d) as [|[path project] rest] eqn:Hx.
  { cbn [fst snd]. rewrite Hx. repeat split; try reflexivity; discriminate. }
  destruct (truthy path).
  2: { cbn [fst snd]. rewrite Hx. repeat split; try reflexivity; discriminate. }
  destruct (ExpoUpdates.getBundleReactNativePhase project) as [p|e].
  2: { cbn [fst snd]. rewrite Hx. repeat split; try reflexivity; discriminate. }
  cbn [fst snd]. unfold afterIOS, createdDir.
  cbn [buildGradle androidManifest xcodeProjects supportingDir journal expoPlist].
  split; [reflexivity|]. split; [reflexivity|]. split; [reflexivity|].
  split; [reflexivity|]. split; [reflexivity|]. split; [|split].
  - rewrite !List.filter_app. destruct (supportingDir d); reflexivity.
  - intros _. repeat split; reflexivity.
  - intros Hfail. now destruct Hfail.
Qed.

(** X19.  In the revision on @expo/config, for a project that declares
    expo-updates and whose app.json gives a runtime or an SDK version,
    [configureUpdatesAsync] on a project without android/app/build.gradle
    fails with the error that names the path of that file (the path that
    [path.join] gives for the project directory, android, app and
    build.gradle; for a project directory that is an absolute,
    normalized path other than the root, the project directory followed
    by /android/app/build.gradle), and the disk is as it was; this does
    not depend on a user being logged in, nor on what git answers. *)
Theorem variant_configureUpdatesAsync_missing_gradle env d :
  Variant.isExpoUpdatesInstalled env = true ->
  truthy_opt (Exp.runtimeVersion (exp env)) = true \/
  truthy_opt (Exp.sdkVersion (exp env)) = true ->
  buildGradle d = None ->
  VariantConfigure.configureUpdatesAsync env d =
  (Throw (Error ("Couldn't find gradle build script at "
                 +:+ NodePath.join [projectDir env; "android"; "app"; "build.gradle"])), d) /\
  (forall segments,
     Forall clean segments -> segments <> [] -> projectDir env = absolute segments ->
     NodePath.join [projectDir env; "android"; "app"; "build.gradle"] =
     projectDir env +:+ "/android/app/build.gradle").
Proof.
  intros Hinst Hversion Hg. split.
  - unfold VariantConfigure.configureUpdatesAsync. rewrite Hinst. cbn [negb].
    unfold try_catch, Variant.getConfigurationOptionsAsync.
    unfold mbind, IO_bind, throw, lift, mret, IO_ret.
    assert (Hv : negb (truthy_opt (Exp.runtimeVersion (exp env)))
                 && negb (truthy_opt (Exp.sdkVersion (exp env))) = false)
      by (destruct Hversion as [-> | ->]; [reflexivity | apply andb_false_r]).
    rewrite Hv, configureUpdatesAndroidAsync_run, Hg. reflexivity.
  - intros segments Hc Hne ->. now apply getAndroidBuildGradlePath_normalized.
Qed.

(** X20.  In the revision on @expo/config, after a successful iOS pass
    the iOS check gets past the build phase and Expo.plist (the script
    has the include fragment, the file exists) and answers what
    [isMetadataSetIOS] answers for the dictionary that
    [IOSConfig.Updates.setUpdatesConfig] returned; it leaves the disk
    alone. *)
Theorem variant_ios_check_after_pass projectDir exp username d :
  fst (Variant.configureUpdatesIOSAsync projectDir exp username d) = Ok tt ->
  Variant.isUpdatesConfiguredIOS projectDir exp username
    (snd (Variant.configureUpdatesIOSAsync projectDir exp username d)) =
  (Variant.isMetadataSetIOS
     (IOSConfig_setUpdatesConfig exp
        (match expoPlist d with Some prior => prior | None => JObject [] end) username)
     exp username,
   snd (Variant.configureUpdatesIOSAsync projectDir exp username d)).
Proof.
  rewrite configureUpdatesIOSAsync_run.
  destruct (xcodeProjects d) as [|[path project] rest] eqn:Hx; [discriminate|].
  destruct (truthy path) eqn:Hp; [|discriminate].
  destruct (ExpoUpdates.getBundleReactNativePhase project) as [p|e] eqn:Hphase;
    [|discriminate].
  intros _. cbn [snd].
  unfold Variant.isUpdatesConfiguredIOS, Variant.getPbxprojPathAsync,
    Variant.getXcodeProjectAsync, Variant.getBundleReactNativePhaseAsync,
    ExpoUpdates.getPbxprojPath, ExpoUpdates.getXcodeProject.
  unfold mbind, IO_bind, gets, throw, lift, mret, IO_ret.
  unfold afterIOS. cbn [xcodeProjects map fst]. rewrite Hp.
  cbn [xcodeProjects]. rewrite assoc_head.
  destruct (wiredProject_includes _ _ Hphase) as (p' & -> & Hi).
  change Variant.iOSBuildScript with ExpoUpdates.iOSBuildScript. rewrite Hi. reflexivity.
Qed.

Lemma narrow_Some o v : narrow o = Some v <-> o = Some v /\ v <> "".
Proof.
  destruct o as [s|]; simpl.
  - destruct s as [|c s]; simpl.
    + split; [discriminate | intros [[= <-] Hv]; congruence].
    + split; [intros [= <-]; split; [reflexivity | discriminate] | intros [[= <-] _]; reflexivity].
  - split; [discriminate | intros [[=] _]].
Qed.

Lemma narrow_None o : narrow o = None <-> truthy_opt o = false.
Proof.
  destruct o as [s|]; simpl; [|tauto].
  destruct s; simpl; split; congruence.
Qed.

(** X21.  In the revision on @expo/config, [isMetadataSetIOS] answers true
    exactly when Expo.plist holds, under the keys of
    [IOSConfig.Updates.Config], the version in use and the update URL as
    strings: the runtime version if the configuration has one (a string
    that is not empty), otherwise the SDK version if it has one; and an
    update URL must be known.  So without a runtime or SDK version, or
    without an update URL (no user), it never answers true. *)
Theorem variant_isMetadataSetIOS_true_iff expoPlistData exp username :
  Variant.isMetadataSetIOS expoPlistData exp username = Ok true <->
  (exists version,
     version <> "" /\
     ((IOSConfig_getRuntimeVersion exp = Some version /\
       get expoPlistData IOSConfig_RUNTIME_VERSION = Ok (JString version)) \/
      (truthy_opt (IOSConfig_getRuntimeVersion exp) = false /\
       IOSConfig_getSDKVersion exp = Some version /\
       get expoPlistData IOSConfig_SDK_VERSION = Ok (JString version)))) /\
  (exists url,
     url <> "" /\
     IOSConfig_getUpdateUrl exp username = Some url /\
     get expoPlistData IOSConfig_UPDATE_URL = Ok (JString url)).
Proof.
  unfold Variant.isMetadataSetIOS, mbind, mret, Result_bind, Result_ret.
  split.
  - intros Hset.
    assert (Hversion :
      match narrow (IOSConfig_getRuntimeVersion exp) with
      | Some v =>
          match get expoPlistData IOSConfig_RUNTIME_VERSION with
          | Ok x => Ok (strict_eq_string x v)
          | Throw e => Throw e
          end
      | None =>
          match narrow (IOSConfig_getSDKVersion exp) with
          | Some v =>
              match get expoPlistData IOSConfig_SDK_VERSION with
              | Ok x => Ok (strict_eq_string x v)
              | Throw e => Throw e
              end
          | None => Ok false
          end
      end = Ok true).
    { destruct (match narrow (IOSConfig_getRuntimeVersion exp) with
                | Some _ => _ | None => _ end) as [[|]|e]; [reflexivity | discriminate..]. }
    rewrite Hversion in Hset. split.
    + destruct (narrow (IOSConfig_getRuntimeVersion exp)) as [v|] eqn:Er.
      * apply narrow_Some in Er as [Er Hv].
        destruct (get expoPlistData IOSConfig_RUNTIME_VERSION) as [x|e]; [|discriminate].
        injection Hversion as Hx. apply strict_eq_string_iff in Hx. subst x.
        exists v. split; [exact Hv | now left].
      * apply narrow_None in Er.
        destruct (narrow (IOSConfig_getSDKVersion exp)) as [v|] eqn:Es; [|discriminate].
        apply narrow_Some in Es as [Es Hv].
        destruct (get expoPlistData IOSConfig_SDK_VERSION) as [x|e]; [|discriminate].
        injection Hversion as Hx. apply strict_eq_string_iff in Hx. subst x.
        exists v. split; [exact Hv | now right].
    + destruct (narrow (IOSConfig_getUpdateUrl exp username)) as [u|] eqn:Eu;
        [|discriminate].
      apply narrow_Some in Eu as [Eu Hu].
      destruct (get expoPlistData IOSConfig_UPDATE_URL) as [x|e]; [|discriminate].
      destruct (strict_eq_string x u) eqn:Hx; [|discriminate].
      apply strict_eq_string_iff in Hx. subst x. now exists u.
  - intros [(v & Hv & Hversion) (u & Hu & Hurl & Hget)].
    assert (Eu : narrow (IOSConfig_getUpdateUrl exp username) = Some u)
      by (apply narrow_Some; now split).
    assert (Hsame : forall s, strict_eq_string (JString s) s = true)
      by (intros s; apply strict_eq_string_iff; reflexivity).
    destruct Hversion as [[Er Hgetv] | (Er & Es & Hgetv)].
    + assert (Er' : narrow (IOSConfig_getRuntimeVersion exp) = Some v)
        by (apply narrow_Some; now split).
      now rewrite Er', Hgetv, Hsame, Eu, Hget, Hsame.
    + apply narrow_None in Er.
      assert (Es' : narrow (IOSConfig_getSDKVersion exp) = Some v)
        by (apply narrow_Some; now split).
      now rewrite Er, Es', Hgetv, Hsame, Eu, Hget, Hsame.
Qed.

End VariantFacts.

Section VariantSamples.

Import JsString JsValueOps Dom Spec.

#[local] Existing Instance Fixture.sampleExpoConfig.
#[local] Existing Instance Sample.sampleWriter.

Lemma variant_android_always_writes_witness :
  fst (VariantConfigure.configureUpdatesAndroidAsync "/home/alice/myapp"
         (exp Fixture.envRuntime) (Some "alice") Sample.configured) = Ok tt /\
  writesTo AndroidManifest
    (snd (VariantConfigure.configureUpdatesAndroidAsync "/home/alice/myapp"
            (exp Fixture.envRuntime) (Some "alice") Sample.configured)) =
  S (writesTo AndroidManifest Sample.configured).
Proof.
  split; [reflexivity|].
  apply (@variant_android_always_writes Fixture.sampleExpoConfig Sample.sampleWriter
           "/home/alice/myapp" (exp Fixture.envRuntime) (Some "alice") Sample.configured
           eq_refl).
Defined.

Lemma variant_configureUpdatesAsync_missing_gradle_witness :
  Variant.isExpoUpdatesInstalled Fixture.envRuntime = true /\
  buildGradle Fixture.noGradle = None /\
  VariantConfigure.configureUpdatesAsync Fixture.envRuntime Fixture.noGradle =
  (Throw (Error "Couldn't find gradle build script at /home/alice/myapp/android/app/build.gradle"),
   Fixture.noGradle).
Proof.
  split; [reflexivity|]. split; [reflexivity|].
  apply (@variant_configureUpdatesAsync_missing_gradle Fixture.sampleExpoConfig
           Sample.sampleWriter Fixture.envRuntime Fixture.noGradle
           eq_refl (or_introl eq_refl) eq_refl).
Defined.

Lemma variant_ios_check_after_pass_witness :
  fst (Variant.configureUpdatesIOSAsync "/home/alice/myapp" (exp Fixture.envRuntime)
         (Some "alice") Fixture.wiredIOS) = Ok tt /\
  fst (Variant.isUpdatesConfiguredIOS "/home/alice/myapp" (exp Fixture.envRuntime)
         (Some "alice")
         (snd (Variant.configureUpdatesIOSAsync "/home/alice/myapp" (exp Fixture.envRuntime)
                 (Some "alice") Fixture.wiredIOS))) = Ok true.
Proof.
  split; [reflexivity|].
  rewrite (@variant_ios_check_after_pass Fixture.sampleExpoConfig
             "/home/alice/myapp" (exp Fixture.envRuntime) (Some "alice") Fixture.wiredIOS
             eq_refl).
  reflexivity.
Defined.

End VariantSamples.
